(** * Deep Research Agentic System: a shallow embedding of [main.py]

    The development follows the layout of the Python module: the data
    classes, the requirement and planning agents, the three specialist
    agents and the orchestrator [LeadResearchAgent].

    Modelling conventions.
    - Python [str] is [string] (a sequence of 8-bit characters); [lower],
      [isdigit] and [strip] act on the ASCII range.
    - The [float] scores of sources and results are binary64 floats
      ([PrimFloat]), with the additions, subtractions and comparisons of
      the source. Clock readings, durations and the ratios and means of
      the tracer and of the conflict resolution are exact rationals [Q].
    - [Citation] objects live in a store ([gmap] from addresses) and lists
      of citations are lists of addresses, so that in-place updates are
      seen through every alias.
    - A call that may raise returns a [Result]; code that reads or writes
      the orchestrator's attributes, the clock or the language model is a
      state transformer [M A].
    - The language model behind [Runner.run] is an oracle that answers a
      call from the history of the calls made before it.
    - [asyncio.gather] runs its coroutines one after the other, in the
      order of the list, and keeps what each returns or raises.
    - Console output ([print]) is left out, and [conduct_research] is the
      call without a stream callback. *)

From stdpp Require Import gmap.
From Stdlib Require Import String Ascii List Bool Arith Lia.
From Stdlib Require Import QArith Qminmax Lqa Permutation DecimalString.
From Corelib Require Import PrimFloat.
Import ListNotations.

(** Decimal float literals denote the nearest binary64 value, as they do
    in Python. *)
#[global] Set Warnings "-inexact-float".

Close Scope Q_scope.
Open Scope string_scope.

(* ================================================================== *)
(** * Python string primitives *)
(* ================================================================== *)

Module Py.

(** [needle in hay] *)
Fixpoint str_in (needle hay : string) : bool :=
  if String.prefix needle hay then true
  else match hay with
       | EmptyString => false
       | String _ rest => str_in needle rest
       end.

(** [any(w in s for w in words)] *)
Definition any_in (words : list string) (s : string) : bool :=
  existsb (fun w => str_in w s) words.

Definition is_upper (c : ascii) : bool :=
  let n := nat_of_ascii c in (65 <=? n)%nat && (n <=? 90)%nat.

Definition lower_char (c : ascii) : ascii :=
  if is_upper c then ascii_of_nat (nat_of_ascii c + 32) else c.

(** [s.lower()] *)
Fixpoint lower (s : string) : string :=
  match s with
  | EmptyString => EmptyString
  | String c rest => String (lower_char c) (lower rest)
  end.

(** [c.isdigit()] *)
Definition isdigit (c : ascii) : bool :=
  let n := nat_of_ascii c in (48 <=? n)%nat && (n <=? 57)%nat.

(** whitespace removed by [strip()] without argument *)
Definition isspace (c : ascii) : bool :=
  let n := nat_of_ascii c in
  ((9 <=? n)%nat && (n <=? 13)%nat) || ((28 <=? n)%nat && (n <=? 32)%nat).

Definition is_star (c : ascii) : bool := Ascii.eqb c "*"%char.

Fixpoint any_char (p : ascii -> bool) (s : string) : bool :=
  match s with
  | EmptyString => false
  | String c rest => p c || any_char p rest
  end.

Definition rev (s : string) : string :=
  string_of_list_ascii (List.rev (list_ascii_of_string s)).

Fixpoint lstrip (p : ascii -> bool) (s : string) : string :=
  match s with
  | EmptyString => EmptyString
  | String c rest => if p c then lstrip p rest else s
  end.

Definition rstrip (p : ascii -> bool) (s : string) : string :=
  rev (lstrip p (rev s)).

Definition strip (p : ascii -> bool) (s : string) : string :=
  rstrip p (lstrip p s).

Definition startswith (p s : string) : bool := String.prefix p s.

Definition endswith (p s : string) : bool := String.prefix (rev p) (rev s).

(** [s.split(sep)] for a non-empty [sep]: [skip] counts the characters of
    a separator occurrence that are still to be passed over, [cur] holds
    the current field in reverse. *)
Fixpoint split_aux (sep : string) (skip : nat) (cur : list ascii) (s : string)
  : list string :=
  match s with
  | EmptyString => [string_of_list_ascii (List.rev cur)]
  | String c rest =>
      match skip with
      | S k => split_aux sep k cur rest
      | O =>
          if String.prefix sep s
          then string_of_list_ascii (List.rev cur)
               :: split_aux sep (String.length sep - 1) [] rest
          else split_aux sep 0 (c :: cur) rest
      end
  end.

Definition split (sep s : string) : list string := split_aux sep 0 [] s.

(** [s[s.find(needle):]] when [needle] occurs in [s] *)
Fixpoint from_first (needle s : string) : option string :=
  if String.prefix needle s then Some s
  else match s with
       | EmptyString => None
       | String _ rest => from_first needle rest
       end.

Fixpoint drop (n : nat) (s : string) : string :=
  match n, s with
  | O, _ => s
  | S _, EmptyString => EmptyString
  | S k, String _ rest => drop k rest
  end.

(** [s[:n]] *)
Fixpoint take (n : nat) (s : string) : string :=
  match n, s with
  | O, _ => EmptyString
  | S _, EmptyString => EmptyString
  | S k, String c rest => String c (take k rest)
  end.

(** [s.split(sep, 1)]: one field when [sep] does not occur, else two *)
Definition split1 (sep s : string) : list string :=
  match from_first sep s with
  | None => [s]
  | Some tail =>
      [take (String.length s - String.length tail) s;
       drop (String.length sep) tail]
  end.

(** [sep.join(parts)] *)
Definition join (sep : string) (parts : list string) : string :=
  String.concat sep parts.

(** [str(n)] for a non-negative integer *)
Definition str_of_nat (n : nat) : string :=
  NilZero.string_of_uint (Nat.to_uint n).

(** [range(lo, hi)] *)
Definition range (lo hi : nat) : list nat := seq lo (hi - lo).

(** [min(a, b)] on floats: the first argument, unless the second is
    smaller. *)
Definition min (a b : float) : float :=
  if PrimFloat.ltb b a then b else a.

(** [max(a, b)] on floats: the first argument, unless the second is
    greater. *)
Definition max (a b : float) : float :=
  if PrimFloat.ltb a b then b else a.

(** [enumerate(l, start)] *)
Fixpoint enumerate {A} (start : nat) (l : list A) : list (nat * A) :=
  match l with
  | [] => []
  | x :: rest => (start, x) :: enumerate (S start) rest
  end.

End Py.

(* ================================================================== *)
(** * Data structures *)
(* ================================================================== *)

Record Citation := {
  id : nat;
  title : string;
  url : string;
  source_type : string;
  publication_date : option string;
  author : option string;
  domain : option string;
  doi : option string;
  reliability_score : float;
  quality_score : float
}.

(** [x or default] on an optional string: [None] and the empty string are
    both falsy. *)
Definition or_default (x : option string) (default : string) : string :=
  match x with
  | Some s => if String.eqb s "" then default else s
  | None => default
  end.

Definition to_apa_format (c : Citation) : string :=
  or_default (author c) "Unknown" ++ " (" ++
  or_default (publication_date c) "n.d." ++ "). " ++ title c ++
  ". Retrieved from " ++ url c.

Record UserPreferences := {
  preferred_sources : list string;
  detail_level : string;
  focus_areas : list string;
  avoid_areas : list string
}.

Record ResearchRequirement := {
  original_question : string;
  clarified_question : string;
  research_depth : string;
  specific_requirements : list string;
  user_context : list (string * string);
  success_criteria : list string;
  user_preferences : UserPreferences;
  research_history : list string;
  expertise_level : string
}.

(** A task of a plan: the dictionary with the keys [id], [description],
    [agent] and [duration]. *)
Record Task := {
  task_id : string;
  description : string;
  agent : string;
  duration : string
}.

Record ResearchPlan := {
  plan_question : string;
  research_approach : string;
  tasks : list Task;
  estimated_duration : string;
  plan_success_criteria : list string;
  required_agents : list string
}.

Record ResearchResult := {
  content : string;
  sources : nat;  (* the address of the list object holding the sources *)
  confidence_level : string;
  conflicts_noted : list string;
  result_quality_score : float
}.

(* ================================================================== *)
(** * Effects: exceptions, clock, language model, object store *)
(* ================================================================== *)

(** [Exception(msg)]; [str(e)] is [msg]. *)
Inductive Exn := Exception (msg : string).

Definition str_of_exn (e : Exn) : string :=
  match e with Exception msg => msg end.

Inductive Result (A : Type) :=
| Ok (a : A)
| Raise (e : Exn).
Arguments Ok {A} a.
Arguments Raise {A} e.

(** A call of [Runner.run(agent, prompt)]: the agent and the values its
    prompt template is filled with. *)
Inductive Call :=
| GatherCall (user_input : string)
| PlanCall (requirements : ResearchRequirement)
| SearchCall (query : string)
| ReflectCall (content context : string)
| CitationsCall (style : string) (entries : list string).

(** What the program takes from its platform: the answer of the language
    model to a call (from the calls made so far), and the text of dates
    and of formatted floats. *)
Record Platform := {
  runner : list Call -> Call -> Result string;
  strftime_date : Q -> string;        (* time.strftime('%Y-%m-%d') *)
  strftime_datetime : Q -> string;    (* time.strftime('%Y-%m-%d %H:%M:%S') *)
  format_percent : Q -> string;       (* f"{x:.1%}" *)
  format_fixed : Q -> string          (* f"{x:.1f}" *)
}.

Record LogEntry := {
  timestamp : Q;
  log_agent : string;
  action : string;
  log_duration : option Q;
  success : bool;
  details : string
}.

Record Metrics := {
  total_calls : nat;
  successful_calls : nat;
  total_duration : Q;
  average_duration : Q
}.

(** The state a run acts on: the attributes of the [LeadResearchAgent]
    instance, the clock with the delays still to come ([ticks]: the time
    that passes at each coming clock event), the calls made to the
    language model, and the store of [Citation] objects and of list
    objects. *)
Record State := {
  platform : Platform;
  clock : Q;
  ticks : list Q;
  history : list Call;
  objects : gmap nat Citation;
  list_objects : gmap nat (list nat);
  next_addr : nat;
  last_api_call : Q;
  rate_limit_delay : Q;
  execution_trace : list LogEntry;
  performance_metrics : list (string * Metrics)
}.

Definition set_time (c : Q) (ts : list Q) (s : State) : State :=
  {| platform := platform s; clock := c; ticks := ts; history := history s;
     objects := objects s; list_objects := list_objects s;
     next_addr := next_addr s; last_api_call := last_api_call s;
     rate_limit_delay := rate_limit_delay s;
     execution_trace := execution_trace s;
     performance_metrics := performance_metrics s |}.

Definition set_history (h : list Call) (s : State) : State :=
  {| platform := platform s; clock := clock s; ticks := ticks s; history := h;
     objects := objects s; list_objects := list_objects s;
     next_addr := next_addr s; last_api_call := last_api_call s;
     rate_limit_delay := rate_limit_delay s;
     execution_trace := execution_trace s;
     performance_metrics := performance_metrics s |}.

Definition set_store (o : gmap nat Citation) (l : gmap nat (list nat))
    (n : nat) (s : State) : State :=
  {| platform := platform s; clock := clock s; ticks := ticks s;
     history := history s;
     objects := o; list_objects := l; next_addr := n;
     last_api_call := last_api_call s;
     rate_limit_delay := rate_limit_delay s;
     execution_trace := execution_trace s;
     performance_metrics := performance_metrics s |}.

Definition set_last_api_call (t : Q) (s : State) : State :=
  {| platform := platform s; clock := clock s; ticks := ticks s;
     history := history s;
     objects := objects s; list_objects := list_objects s;
     next_addr := next_addr s; last_api_call := t;
     rate_limit_delay := rate_limit_delay s;
     execution_trace := execution_trace s;
     performance_metrics := performance_metrics s |}.

Definition set_log (tr : list LogEntry) (pm : list (string * Metrics))
    (s : State) : State :=
  {| platform := platform s; clock := clock s; ticks := ticks s;
     history := history s;
     objects := objects s; list_objects := list_objects s;
     next_addr := next_addr s; last_api_call := last_api_call s;
     rate_limit_delay := rate_limit_delay s;
     execution_trace := tr;
     performance_metrics := pm |}.

(** The monad of the [async def] bodies: a state transformer that returns
    a value or raises. *)
Definition M (A : Type) : Type := State -> Result A * State.

Definition ret {A} (a : A) : M A := fun s => (Ok a, s).

Definition raise {A} (e : Exn) : M A := fun s => (Raise e, s).

Definition bind {A B} (m : M A) (k : A -> M B) : M B :=
  fun s => match m s with
           | (Ok a, s') => k a s'
           | (Raise e, s') => (Raise e, s')
           end.

Notation "x <- c1 ;; c2" := (bind c1 (fun x => c2))
  (at level 20, c1 at level 99, c2 at level 200, only parsing).
Notation "c1 ;; c2" := (bind c1 (fun _ => c2))
  (at level 100, c2 at level 200, only parsing, right associativity).

Definition get : M State := fun s => (Ok s, s).

Definition modify (f : State -> State) : M unit := fun s => (Ok tt, f s).

(** Time passes: the next delay is added to the clock. *)
Definition tick (s : State) : State :=
  match ticks s with
  | [] => s
  | t :: ts => set_time (clock s + t)%Q ts s
  end.

(** [time.time()] *)
Definition time_time : M Q :=
  fun s => let s' := tick s in (Ok (clock s'), s').

(** [await asyncio.sleep(d)]: the clock moves on by [d] (by nothing when
    [d] is not positive) and by the delay of resuming. *)
Definition sleep (d : Q) : M unit :=
  fun s => let s' := tick s in
           (Ok tt, set_time (clock s' + Qmax 0 d)%Q (ticks s') s').

(** [await Runner.run(agent, prompt)] *)
Definition runner_run (c : Call) : M string :=
  fun s => let s' := tick s in
           (runner (platform s') (history s') c,
            set_history (history s' ++ [c]) s').

(** Allocation of one [Citation] object. *)
Definition alloc_citation (c : Citation) : M nat :=
  fun s => (Ok (next_addr s),
            set_store (<[next_addr s := c]> (objects s)) (list_objects s)
                      (S (next_addr s)) s).

(** Allocation of a list object. *)
Definition alloc_list (l : list nat) : M nat :=
  fun s => (Ok (next_addr s),
            set_store (objects s) (<[next_addr s := l]> (list_objects s))
                      (S (next_addr s)) s).

Fixpoint alloc_citations (cs : list Citation) : M (list nat) :=
  match cs with
  | [] => ret []
  | c :: rest =>
      a <- alloc_citation c ;;
      as_ <- alloc_citations rest ;;
      ret (a :: as_)
  end.

(** The elements of the list object at [l]. *)
Definition list_at (s : State) (l : nat) : list nat :=
  default [] (list_objects s !! l).

Definition read_list (l : nat) : M (list nat) :=
  fun s => (Ok (list_at s l), s).

(** The [Citation] objects a list of addresses points to. *)
Definition citations_at (s : State) (addrs : list nat) : list Citation :=
  omap (fun a => objects s !! a) addrs.

(** A [for] loop that threads an accumulator. *)
Fixpoint foldM {A B} (f : B -> A -> M B) (l : list A) (b : B) : M B :=
  match l with
  | [] => ret b
  | x :: rest => b' <- f b x ;; foldM f rest b'
  end.

Definition for_each {A} (l : list A) (body : A -> M unit) : M unit :=
  foldM (fun _ x => body x) l tt.

(** [asyncio.gather] with [return_exceptions=True]: every
    coroutine is run, and what it returns or raises is its entry of the
    list of outcomes. The coroutines are run one after the other, in the
    order of the list. *)
Fixpoint gather {A} (coros : list (M A)) : M (list (Result A)) :=
  match coros with
  | [] => ret []
  | c :: rest =>
      fun s =>
        let (r, s1) := c s in
        match gather rest s1 with
        | (Ok rs, s2) => (Ok (r :: rs), s2)
        | (Raise e, s2) => (Raise e, s2)
        end
  end.

Definition nl : string := String "010"%char "".

(** The text made of the given lines, each ended by a newline. *)
Fixpoint unlines (ls : list string) : string :=
  match ls with
  | [] => ""
  | l :: rest => l ++ nl ++ unlines rest
  end.

(* ================================================================== *)
(** * SearchAgent: source extraction and scoring *)
(* ================================================================== *)

Module SearchAgent.

Open Scope float_scope.

(** The first [if]/[elif] chain: the score after the adjustment made for
    the domain of the URL. *)
Definition url_adjustment (url : string) (quality_score : float) : float :=
  if Py.str_in ".edu" url || Py.str_in ".ac." url then quality_score + 0.3
  else if Py.str_in ".gov" url then quality_score + 0.25
  else if Py.str_in ".org" url then quality_score + 0.15
  else if Py.str_in ".com" url then quality_score + 0.05
  else quality_score - 0.1.

(** The second chain: the score after the adjustment made for the words
    of the lower-cased title, if any. *)
Definition title_adjustment (title : string) (quality_score : float)
  : float :=
  let title_lower := Py.lower title in
  if Py.any_in ["study"; "research"; "analysis"; "report"; "journal"]
       title_lower then quality_score + 0.2
  else if Py.any_in ["news"; "article"; "blog"] title_lower
       then quality_score + 0.1
  else if Py.any_in ["opinion"; "editorial"; "commentary"] title_lower
       then quality_score - 0.1
  else quality_score.

Definition _assess_source_quality (url title : string) : float :=
  let quality_score := 0.5 in
  let quality_score := url_adjustment url quality_score in
  let quality_score := title_adjustment title quality_score in
  Py.max 0.0 (Py.min 1.0 quality_score).

Definition _determine_source_type (url : string) : string :=
  if Py.str_in ".edu" url || Py.str_in ".ac." url then "academic"
  else if Py.str_in ".gov" url then "government"
  else if Py.str_in ".org" url then "organization"
  else if Py.str_in ".com" url then "commercial"
  else "web".

Close Scope float_scope.

(** Title search of the [*Source:] format over the lines
    [lines[j]] for [j] in [js]; the first line fully wrapped in [**], or
    holding [**] and a digit, decides. *)
Fixpoint source_title (lines : list string) (js : list nat) : string :=
  match js with
  | [] => "Unknown Title"
  | j :: js' =>
      let l := nth j lines "" in
      if Py.startswith "**" l && Py.endswith "**" l then Py.strip Py.is_star l
      else if Py.str_in "**" l && Py.any_char Py.isdigit l then
        let title := Py.strip Py.isspace (Py.strip Py.is_star l) in
        match title with
        | String c _ =>
            if Py.isdigit c && Py.str_in ". " title
            then nth 1 (Py.split1 ". " title) ""
            else title
        | EmptyString => title
        end
      else source_title lines js'
  end.

(** Title search of the fallback format: the first non-blank line not
    starting with [*]. *)
Fixpoint context_title (lines : list string) (js : list nat) : string :=
  match js with
  | [] => "Search Result"
  | j :: js' =>
      let l := nth j lines "" in
      if negb (String.eqb (Py.strip Py.isspace l) "")
         && negb (Py.startswith "*" l)
      then Py.strip Py.isspace l
      else context_title lines js'
  end.

(** The body of the [try] block up to the clean-up of the URL: the pair
    [(url, title)] read from line [i], or [None] when an index is out of
    range (the [except] branch, which skips the line). *)
Definition parse_line (lines : list string) (i : nat) (line : string)
  : option (string * string) :=
  if Py.str_in "*Source:" line then
    match nth_error (Py.split "*Source:" line) 1 with
    | Some part =>
        let url := Py.rstrip Py.is_star (Py.strip Py.isspace part) in
        Some (url, source_title lines (Py.range (Nat.max 0 (i - 3)) i))
    | None => None
    end
  else if Py.str_in "[" line && Py.str_in "]" line then
    match nth_error (Py.split "[" line) 1 with
    | Some part =>
        match nth_error (Py.split "]" part) 0,
              nth_error (Py.split "http" line) 1 with
        | Some title, Some after =>
            match nth_error (Py.split " " after) 0 with
            | Some url =>
                let url := if Py.startswith "http" url then url
                           else "http" ++ url in
                Some (url, title)
            | None => None
            end
        | _, _ => None
        end
    | None => None
    end
  else
    match Py.from_first "http" line with
    | Some tail =>
        match nth_error (Py.split " " tail) 0 with
        | Some u =>
            match nth_error (Py.split (String "010"%char "") u) 0 with
            | Some url =>
                Some (url, context_title lines (Py.range (Nat.max 0 (i - 2)) i))
            | None => None
            end
        | None => None
        end
    | None => None
    end.

Definition extract_line (lines : list string) (sources : list Citation)
    (i : nat) (line : string) : list Citation :=
  if Py.str_in "http" line then
    match parse_line lines i line with
    | Some (url, title) =>
        let url := if Py.startswith "http" url then url else "http" ++ url in
        let quality_score := _assess_source_quality url title in
        let source_type := _determine_source_type url in
        (sources ++ [ {| id := length sources + 1;
                         title := title;
                         url := url;
                         source_type := source_type;
                         publication_date := None;
                         author := None;
                         domain := None;
                         doi := None;
                         reliability_score := 0.8%float;
                         quality_score := quality_score |} ])%list
    | None => sources
    end
  else sources.

Definition _extract_sources (content : string) : list Citation :=
  let lines := Py.split (String "010"%char "") content in
  fold_left (fun sources '(i, line) => extract_line lines sources i line)
            (Py.enumerate 0 lines) [].

(** [SearchAgent.search]: the model's answer, with the sources read from
    it allocated as fresh objects. *)
Definition search (query context : string) : M ResearchResult :=
  final_output <- runner_run (SearchCall query) ;;
  addrs <- alloc_citations (_extract_sources final_output) ;;
  l <- alloc_list addrs ;;
  ret {| content := final_output;
         sources := l;
         confidence_level := "high";
         conflicts_noted := [];
         result_quality_score := 0.85%float |}.

End SearchAgent.

(* ================================================================== *)
(** * ReflectionAgent: conflict detection and categorisation *)
(* ================================================================== *)

Module ReflectionAgent.

Definition conflict_keywords : list string :=
  ["conflict"; "contradiction"; "disagreement"; "opposing"; "differing";
   "contrary"; "inconsistent"; "divergent"; "clashing"; "conflicting";
   "however"; "but"; "although"; "despite"; "whereas"; "while";
   "on the other hand"; "in contrast"; "alternatively"].

Definition _extract_conflicts (content : string) : list string :=
  let lines := Py.split (String "010"%char "") content in
  fold_left
    (fun conflicts line =>
       if Py.any_in conflict_keywords (Py.lower line)
       then (conflicts ++ [Py.strip Py.isspace line])%list
       else conflicts)
    lines [].

Definition temporal_words : list string :=
  ["recent"; "latest"; "new"; "old"; "dated"; "current"].
Definition methodological_words : list string :=
  ["method"; "approach"; "study"; "research"; "analysis"].
Definition perspectival_words : list string :=
  ["perspective"; "view"; "opinion"; "belief"; "stance"].
Definition data_quality_words : list string :=
  ["quality"; "reliable"; "accurate"; "valid"; "credible"].

(** The key of the bucket a conflict line is appended to: the chain of
    [if]/[elif] tests of the loop body. *)
Definition bucket_of (conflict : string) : string :=
  let conflict_lower := Py.lower conflict in
  if Py.any_in temporal_words conflict_lower then "temporal"
  else if Py.any_in methodological_words conflict_lower
  then "methodological"
  else if Py.any_in perspectival_words conflict_lower then "perspectival"
  else if Py.any_in data_quality_words conflict_lower then "data_quality"
  else "perspectival".

(** [categories[key].append(x)] on a dict kept in insertion order *)
Definition dict_append (key : string) (x : string)
    (categories : list (string * list string)) : list (string * list string) :=
  map (fun kv => if String.eqb (fst kv) key
                 then (fst kv, (snd kv ++ [x])%list) else kv)
      categories.

Definition empty_categories : list (string * list string) :=
  [("temporal", []); ("methodological", []);
   ("perspectival", []); ("data_quality", [])].

Definition nonempty {A} (l : list A) : bool :=
  match l with [] => false | _ => true end.

Definition _categorize_conflicts (conflicts : list string)
  : list (string * list string) :=
  let categories :=
    fold_left (fun categories conflict =>
                 dict_append (bucket_of conflict) conflict categories)
              conflicts empty_categories in
  filter (fun kv => nonempty (snd kv)) categories.

Definition reflect (content_ context : string) : M ResearchResult :=
  final_output <- runner_run (ReflectCall content_ context) ;;
  l <- alloc_list [] ;;
  ret {| content := final_output;
         sources := l;
         confidence_level := "high";
         conflicts_noted := _extract_conflicts final_output;
         result_quality_score := 0.9%float |}.

End ReflectionAgent.

(* ================================================================== *)
(** * RequirementGatheringAgent and PlanningAgent: the parsers *)
(* ================================================================== *)

Module RequirementGatheringAgent.

Definition _assess_expertise_level (question : string) : string :=
  let question_lower := Py.lower question in
  if Py.any_in ["methodology"; "framework"; "paradigm"; "theoretical";
                "empirical"; "quantitative"; "qualitative"; "meta-analysis";
                "systematic review"] question_lower then "expert"
  else if Py.any_in ["what is"; "define"; "explain"; "basics";
                     "introduction"; "simple"] question_lower then "beginner"
  else "intermediate".

Definition _extract_user_preferences (question : string) : UserPreferences :=
  let question_lower := Py.lower question in
  let focus := [] in
  let focus :=
    if Py.str_in "technical" question_lower
       || Py.str_in "technical details" question_lower
    then (focus ++ ["technical"])%list else focus in
  let focus :=
    if Py.str_in "practical" question_lower
       || Py.str_in "application" question_lower
    then (focus ++ ["practical"])%list else focus in
  let focus :=
    if Py.str_in "academic" question_lower
       || Py.str_in "research" question_lower
    then (focus ++ ["academic"])%list else focus in
  let detail :=
    if Py.str_in "detailed" question_lower
       || Py.str_in "comprehensive" question_lower then "high"
    else if Py.str_in "brief" question_lower
            || Py.str_in "summary" question_lower then "low"
    else "standard" in
  {| preferred_sources := [];
     detail_level := detail;
     focus_areas := focus;
     avoid_areas := [] |}.

Definition _parse_requirements (original response : string)
  : ResearchRequirement :=
  let clarified_question := original in
  let question_lower := Py.lower original in
  let research_depth :=
    if Py.any_in ["compare"; "analyze"; "evaluate"; "comprehensive";
                  "detailed"] question_lower then "deep"
    else if Py.any_in ["what is"; "define"; "explain"] question_lower
    then "standard"
    else "standard" in
  {| original_question := original;
     clarified_question := clarified_question;
     research_depth := research_depth;
     specific_requirements := [];
     user_context := [];
     success_criteria := ["Comprehensive research report with sources"];
     user_preferences := _extract_user_preferences original;
     research_history := [];
     expertise_level := _assess_expertise_level original |}.

Definition gather_requirements (user_input : string) : M ResearchRequirement :=
  final_output <- runner_run (GatherCall user_input) ;;
  ret (_parse_requirements user_input final_output).

End RequirementGatheringAgent.

Module PlanningAgent.

Definition mk_task (i d a t : string) : Task :=
  {| task_id := i; description := d; agent := a; duration := t |}.

Definition basic_tasks : list Task :=
  [mk_task "search_basic" "Basic search for key facts" "Search" "5-10 min";
   mk_task "synthesize_basic" "Synthesize basic findings" "Reflection"
           "5-10 min"].

Definition standard_tasks : list Task :=
  [mk_task "search_comprehensive" "Comprehensive search for facts and data"
           "Search" "10-15 min";
   mk_task "analyze_sources" "Analyze and validate sources" "Reflection"
           "5-10 min";
   mk_task "create_citations" "Create proper citations" "Citations"
           "5-10 min"].

Definition deep_tasks : list Task :=
  [mk_task "search_primary" "Primary source research" "Search" "15-20 min";
   mk_task "search_secondary" "Secondary source research" "Search"
           "10-15 min";
   mk_task "analyze_conflicts" "Analyze conflicting information" "Reflection"
           "10-15 min";
   mk_task "synthesize_findings" "Synthesize all findings" "Reflection"
           "10-15 min";
   mk_task "create_citations" "Create comprehensive citations" "Citations"
           "10-15 min"].

Definition _parse_plan (requirements : ResearchRequirement) (response : string)
  : ResearchPlan :=
  let tasks :=
    if String.eqb (research_depth requirements) "basic" then basic_tasks
    else if String.eqb (research_depth requirements) "standard"
    then standard_tasks
    else deep_tasks in
  {| plan_question := clarified_question requirements;
     research_approach :=
       "Multi-agent " ++ research_depth requirements ++ " research approach";
     tasks := tasks;
     estimated_duration :=
       Py.str_of_nat (length tasks * 10) ++ "-" ++
       Py.str_of_nat (length tasks * 15) ++ " minutes";
     plan_success_criteria := success_criteria requirements;
     required_agents := ["Search"; "Reflection"; "Citations"] |}.

Definition create_plan (requirements : ResearchRequirement) : M ResearchPlan :=
  final_output <- runner_run (PlanCall requirements) ;;
  ret (_parse_plan requirements final_output).

End PlanningAgent.

(* ================================================================== *)
(** * CitationsAgent *)
(* ================================================================== *)

Module CitationsAgent.

(** The two assignments of the loop body, on one object. *)
Definition enhance (c : Citation) : Citation :=
  {| id := id c;
     title := title c;
     url := url c;
     source_type := source_type c;
     publication_date := Some "2024";
     author := Some "Unknown";
     domain := domain c;
     doi := doi c;
     reliability_score := reliability_score c;
     quality_score := quality_score c |}.

Definition set_attributes (a : nat) : M unit :=
  modify (fun s => set_store (alter enhance a (objects s)) (list_objects s)
                             (next_addr s) s).

(** [sources] is the address of the list object passed in; the same
    address is returned. *)
Definition create_citations (sources_ : nat) (style : string) : M nat :=
  s0 <- get ;;
  _ <- runner_run
         (CitationsCall style
            (map (fun c => title c ++ " - " ++ url c)
                 (citations_at s0 (list_at s0 sources_)))) ;;
  elems <- read_list sources_ ;;
  for_each elems set_attributes ;;
  ret sources_.

End CitationsAgent.

(* ================================================================== *)
(** * LeadResearchAgent: the orchestrator *)
(* ================================================================== *)

Record Summary := {
  total_operations : nat;
  recent_trace : list LogEntry;        (* the key [execution_trace] *)
  summary_metrics : list (string * Metrics);
  success_rate : Q
}.

(** The dictionary [results] of [_execute_research_plan]; [citations]
    holds addresses of [Citation] objects. *)
Record Results := {
  search_results : list ResearchResult;
  reflection_results : list ResearchResult;
  citations : list nat;
  final_content : string
}.

Module LeadResearchAgent.

Definition Qltb (x y : Q) : bool := negb (Qle_bool y x).

(** ** Rate limiting *)

Definition _rate_limit : M unit :=
  current_time <- time_time ;;
  s <- get ;;
  let time_since_last_call := (current_time - last_api_call s)%Q in
  (if Qltb time_since_last_call (rate_limit_delay s)
   then sleep (rate_limit_delay s - time_since_last_call)%Q
   else ret tt) ;;
  t <- time_time ;;
  modify (set_last_api_call t).

(** ** Tracing *)

Definition new_metrics : Metrics :=
  {| total_calls := 0; successful_calls := 0;
     total_duration := 0%Q; average_duration := 0%Q |}.

Definition has_key {V} (k : string) (d : list (string * V)) : bool :=
  existsb (fun kv => String.eqb (fst kv) k) d.

(** [if duration:] holds for a duration that is given and not zero. *)
Definition truthy (duration_ : option Q) : option Q :=
  match duration_ with
  | Some d => if Qeq_bool d 0 then None else Some d
  | None => None
  end.

Definition record_call (duration_ : option Q) (success_ : bool) (m : Metrics)
  : Metrics :=
  let total := S (total_calls m) in
  let successful :=
    if success_ then S (successful_calls m) else successful_calls m in
  match truthy duration_ with
  | Some d =>
      let td := (total_duration m + d)%Q in
      {| total_calls := total; successful_calls := successful;
         total_duration := td;
         average_duration := (td / inject_Z (Z.of_nat total))%Q |}
  | None =>
      {| total_calls := total; successful_calls := successful;
         total_duration := total_duration m;
         average_duration := average_duration m |}
  end.

Definition update_metrics (agent_name : string) (duration_ : option Q)
    (success_ : bool) (pm : list (string * Metrics))
  : list (string * Metrics) :=
  let pm := if has_key agent_name pm then pm
            else (pm ++ [(agent_name, new_metrics)])%list in
  map (fun kv => if String.eqb (fst kv) agent_name
                 then (fst kv, record_call duration_ success_ (snd kv))
                 else kv) pm.

Definition _log_execution (agent_name action_ : string)
    (duration_ : option Q) (success_ : bool) (details_ : string) : M unit :=
  t <- time_time ;;
  modify (fun s =>
    let log_entry :=
      {| timestamp := t; log_agent := agent_name; action := action_;
         log_duration := duration_; success := success_;
         details := details_ |} in
    set_log (execution_trace s ++ [log_entry])
            (update_metrics agent_name duration_ success_
                            (performance_metrics s)) s).

Definition _calculate_success_rate (s : State) : Q :=
  match execution_trace s with
  | [] => 0%Q
  | _ =>
      let successful := length (filter success (execution_trace s)) in
      let total := length (execution_trace s) in
      if (0 <? total)%nat
      then (inject_Z (Z.of_nat successful) / inject_Z (Z.of_nat total))%Q
      else 0%Q
  end.

(** [l[-n:]] *)
Definition last_n {A} (n : nat) (l : list A) : list A :=
  skipn (length l - n) l.

Definition get_execution_summary (s : State) : Summary :=
  {| total_operations := length (execution_trace s);
     recent_trace := last_n 10 (execution_trace s);
     summary_metrics := performance_metrics s;
     success_rate := _calculate_success_rate s |}.

(** ** Retry with backoff *)

Definition is_transient (e : Exn) : bool :=
  Py.str_in "500" (str_of_exn e) || Py.str_in "INTERNAL" (str_of_exn e)
  || Py.str_in "429" (str_of_exn e).

(** The [for attempt in range(max_retries)] loop over the attempts still
    to come; the statement after the loop is reached when none is left. *)
Fixpoint retry_loop {A} (func : M A) (max_retries : nat) (base_delay : Q)
    (attempts : list nat) : M A :=
  match attempts with
  | [] =>
      raise (Exception ("Failed after " ++ Py.str_of_nat max_retries
                        ++ " attempts"))
  | attempt :: rest =>
      fun s =>
        match func s with
        | (Ok a, s') => (Ok a, s')
        | (Raise e, s') =>
            if is_transient e then
              if (attempt <? max_retries - 1)%nat then
                let delay :=
                  (base_delay * inject_Z (2 ^ Z.of_nat attempt))%Q in
                (sleep delay ;;
                 retry_loop func max_retries base_delay rest) s'
              else (Raise e, s')
            else (Raise e, s')
        end
  end.

Definition _retry_with_backoff {A} (func : M A) (max_retries : nat)
    (base_delay : Q) : M A :=
  retry_loop func max_retries base_delay (Py.range 0 max_retries).

(** ** Execution of a plan *)

Definition by_agent (kind : string) (ts : list Task) : list Task :=
  filter (fun t => String.eqb (agent t) kind) ts.

Definition nonempty {A} (l : list A) : bool :=
  match l with [] => false | _ => true end.

(** [len(result.sources)] *)
Definition len_sources (r : ResearchResult) : M nat :=
  l <- read_list (sources r) ;; ret (length l).

Definition search_task_wrapper (requirements : ResearchRequirement)
    (task : Task) (task_num : nat) : M ResearchResult :=
  _rate_limit ;;
  _log_execution "LeadResearchAgent"
    ("handoff_to_search_" ++ Py.str_of_nat task_num) None true
    ("Handing off to Search Agent for: " ++ description task) ;;
  result <- _retry_with_backoff
              (SearchAgent.search (clarified_question requirements)
                                  ("Task: " ++ description task)) 3 5%Q ;;
  n <- len_sources result ;;
  _log_execution "SearchAgent"
    ("handoff_back_to_lead_" ++ Py.str_of_nat task_num) None true
    ("Returned " ++ Py.str_of_nat n ++ " sources") ;;
  ret result.

(** The body of the loop over the outcomes of the search tasks. *)
Definition record_search_outcome (acc : list ResearchResult)
    (ir : nat * Result ResearchResult) : M (list ResearchResult) :=
  match snd ir with
  | Raise e =>
      _log_execution "SearchAgent"
        ("search_task_" ++ Py.str_of_nat (fst ir + 1) ++ "_failed") None false
        (str_of_exn e) ;;
      ret acc
  | Ok result =>
      n <- len_sources result ;;
      _log_execution "SearchAgent"
        ("search_task_" ++ Py.str_of_nat (fst ir + 1) ++ "_completed") None
        true ("Found " ++ Py.str_of_nat n ++ " sources") ;;
      ret (acc ++ [result])%list
  end.

Definition search_stage (requirements : ResearchRequirement)
    (search_tasks : list Task) : M (list ResearchResult) :=
  if nonempty search_tasks then
    outcomes <- gather (map (fun it => search_task_wrapper requirements
                                         (snd it) (fst it))
                            (Py.enumerate 1 search_tasks)) ;;
    foldM record_search_outcome (Py.enumerate 0 outcomes) []
  else ret [].

(** [results["search_results"][i % len(results["search_results"])].content] *)
Definition search_content_at (search_results_ : list ResearchResult) (i : nat)
  : M string :=
  match nth_error search_results_ (i mod length search_results_) with
  | Some r => ret (content r)
  | None => raise (Exception "list index out of range")
  end.

Definition reflection_task_wrapper (task : Task) (content_ : string)
    (task_num : nat) : M ResearchResult :=
  _rate_limit ;;
  _log_execution "LeadResearchAgent"
    ("handoff_to_reflection_" ++ Py.str_of_nat task_num) None true
    ("Handing off to Reflection Agent for: " ++ description task) ;;
  result <- _retry_with_backoff
              (ReflectionAgent.reflect content_
                                       ("Task: " ++ description task)) 3 5%Q ;;
  _log_execution "ReflectionAgent"
    ("handoff_back_to_lead_" ++ Py.str_of_nat task_num) None true
    ("Confidence: " ++ confidence_level result) ;;
  ret result.

(** The loop that binds a search content to each reflection task and
    creates its coroutine. *)
Definition reflection_coroutines (reflection_tasks : list Task)
    (search_results_ : list ResearchResult) : M (list (M ResearchResult)) :=
  foldM (fun coros it =>
           search_content <- search_content_at search_results_ (fst it) ;;
           ret (coros ++ [reflection_task_wrapper (snd it) search_content
                                                  (fst it)])%list)
        (Py.enumerate 1 reflection_tasks) [].

Definition record_reflection_outcome (acc : list ResearchResult)
    (ir : nat * Result ResearchResult) : M (list ResearchResult) :=
  match snd ir with
  | Raise e =>
      _log_execution "ReflectionAgent"
        ("reflection_task_" ++ Py.str_of_nat (fst ir + 1) ++ "_failed") None
        false (str_of_exn e) ;;
      ret acc
  | Ok result =>
      _log_execution "ReflectionAgent"
        ("reflection_task_" ++ Py.str_of_nat (fst ir + 1) ++ "_completed")
        None true ("Confidence: " ++ confidence_level result) ;;
      ret (acc ++ [result])%list
  end.

Definition reflection_stage (reflection_tasks : list Task)
    (search_results_ : list ResearchResult) : M (list ResearchResult) :=
  if nonempty reflection_tasks && nonempty search_results_ then
    coros <- reflection_coroutines reflection_tasks search_results_ ;;
    outcomes <- gather coros ;;
    foldM record_reflection_outcome (Py.enumerate 0 outcomes) []
  else ret [].

(** [l.extend(xs)] on the list object at [l] *)
Definition list_extend (l : nat) (xs : list nat) : M unit :=
  modify (fun s =>
    set_store (objects s)
              (alter (fun old => (old ++ xs)%list) l (list_objects s))
              (next_addr s) s).

(** [all_sources = []] followed by the loop that extends it with the
    sources of every search result. *)
Definition collect_sources (search_results_ : list ResearchResult) : M nat :=
  all_sources <- alloc_list [] ;;
  for_each search_results_
    (fun search_result =>
       xs <- read_list (sources search_result) ;;
       list_extend all_sources xs) ;;
  ret all_sources.

(** The body of the loop over the citation tasks; [acc] is
    [results["citations"]]. *)
Definition citation_task (all_sources : nat) (acc : list nat)
    (it : nat * Task) : M (list nat) :=
  _rate_limit ;;
  _log_execution "LeadResearchAgent"
    ("handoff_to_citations_" ++ Py.str_of_nat (fst it)) None true
    ("Handing off to Citations Agent for: " ++ description (snd it)) ;;
  cits <- _retry_with_backoff
            (CitationsAgent.create_citations all_sources "APA") 3 5%Q ;;
  elems <- read_list cits ;;
  _log_execution "CitationsAgent"
    ("handoff_back_to_lead_" ++ Py.str_of_nat (fst it)) None true
    ("Created " ++ Py.str_of_nat (length elems) ++ " citations") ;;
  ret (acc ++ elems)%list.

Definition citation_stage (citation_tasks : list Task)
    (search_results_ : list ResearchResult) : M (list nat) :=
  if nonempty citation_tasks then
    all_sources <- collect_sources search_results_ ;;
    elems <- read_list all_sources ;;
    if nonempty elems
    then foldM (citation_task all_sources) (Py.enumerate 1 citation_tasks) []
    else ret []
  else ret [].

Definition _execute_research_plan (plan : ResearchPlan)
    (requirements : ResearchRequirement) : M Results :=
  let search_tasks := by_agent "Search" (tasks plan) in
  let reflection_tasks := by_agent "Reflection" (tasks plan) in
  let citation_tasks := by_agent "Citations" (tasks plan) in
  srs <- search_stage requirements search_tasks ;;
  rrs <- reflection_stage reflection_tasks srs ;;
  cits <- citation_stage citation_tasks srs ;;
  ret {| search_results := srs;
         reflection_results := rrs;
         citations := cits;
         final_content := "" |}.

(** ** The final report *)

(** An entry of the key findings: the content, cut after 500 characters
    and followed by an ellipsis when it is longer. *)
Definition key_finding (content_ : string) : string :=
  if (500 <? String.length content_)%nat
  then "• " ++ Py.take 500 content_ ++ "..."
  else "• " ++ content_.

Definition key_findings (all_content : list string) : string :=
  Py.join nl (map key_finding (firstn 5 all_content)).

Definition detailed_results (all_content : list string) : string :=
  Py.join nl
    (map (fun ic => "### Research Finding " ++ Py.str_of_nat (fst ic + 1)
                    ++ nl ++ snd ic ++ nl)
         (Py.enumerate 0 (firstn 3 all_content))).

(** The reference list: the objects behind the first 10 addresses of
    [all_sources], as the store has them when the report is built. *)
Definition sources_and_citations (s : State) (all_sources : list nat)
  : string :=
  Py.join nl
    (map (fun ic => "[" ++ Py.str_of_nat (fst ic + 1) ++ "] "
                    ++ to_apa_format (snd ic))
         (Py.enumerate 0 (citations_at s (firstn 10 all_sources)))).

Definition report_head (question date depth : string) : string :=
  unlines
    [""; "# Research Report: " ++ question; "";
     "**Date:** " ++ date;
     "**Research Depth:** " ++ depth;
     "**Author:** Deep Research Agent System"; "";
     "---"; "";
     "## Executive Summary"; "";
     "This comprehensive research report addresses: " ++ question; "";
     "The research was conducted using a multi-agent system with specialized agents for search, analysis, and citation management.";
     "";
     "## Key Findings"; ""].

Definition report_detailed_heading : string :=
  unlines [""; ""; "## Detailed Research Results"; ""].

Definition report_sources_heading : string :=
  unlines [""; ""; "## Sources and Citations"; ""].

Definition report_tail (source_count : nat) (datetime : string) : string :=
  unlines
    [""; ""; "## Research Methodology"; "";
     "This research was conducted using:";
     "- **Search Agent**: Web search and data gathering using Tavily API";
     "- **Reflection Agent**: Analysis and synthesis of findings";
     "- **Citations Agent**: Reference management and formatting"; "";
     "## Quality Assessment"; "";
     "- **Confidence Level**: High";
     "- **Source Quality**: Professional and academic sources";
     "- **Coverage**: Comprehensive";
     "- **Search Results**: " ++ Py.str_of_nat source_count
       ++ " sources found"; "";
     "---"; "";
     "**Report Generated:** " ++ datetime].

Definition strftime (fmt : Platform -> Q -> string) : M string :=
  t <- time_time ;;
  s <- get ;;
  ret (fmt (platform s) t).

Definition _create_final_report (requirements : ResearchRequirement)
    (results : Results) : M string :=
  let all_content :=
    (map content (search_results results)
     ++ map content (reflection_results results))%list in
  all_sources <- collect_sources (search_results results) ;;
  date <- strftime strftime_date ;;
  elems <- read_list all_sources ;;
  s <- get ;;
  datetime <- strftime strftime_datetime ;;
  ret (report_head (clarified_question requirements) date
                   (research_depth requirements)
       ++ key_findings all_content
       ++ report_detailed_heading
       ++ detailed_results all_content
       ++ report_sources_heading
       ++ sources_and_citations s elems
       ++ report_tail (length elems) datetime).

(** The block appended to the report by [conduct_research]. *)
Definition execution_summary_block (p : Platform) (sm : Summary) : string :=
  nl ++ nl ++ "## 🔍 **Execution Summary**" ++ nl ++ nl
  ++ "**Total Operations:** " ++ Py.str_of_nat (total_operations sm) ++ nl
  ++ "**Success Rate:** " ++ format_percent p (success_rate sm) ++ nl
  ++ "**Performance Metrics:**" ++ nl
  ++ String.concat ""
       (map (fun am =>
               "- **" ++ fst am ++ ":** "
               ++ Py.str_of_nat (successful_calls (snd am)) ++ "/"
               ++ Py.str_of_nat (total_calls (snd am)) ++ " calls, avg "
               ++ format_fixed p (average_duration (snd am)) ++ "s" ++ nl)
            (summary_metrics sm))
  ++ (let handoff_events :=
        filter (fun e => Py.str_in "handoff" (action e)) (recent_trace sm) in
      if nonempty handoff_events then
        nl ++ "**Handoff Events:** " ++ Py.str_of_nat (length handoff_events)
        ++ nl
        ++ "- **Lead → Requirement Gathering:** ✅" ++ nl
        ++ "- **Lead → Planning:** ✅" ++ nl
        ++ "- **Lead → Search Agents:** ✅" ++ nl
        ++ "- **Lead → Reflection Agents:** ✅" ++ nl
        ++ "- **Lead → Citations Agents:** ✅" ++ nl
      else "").

(** Steps 3 and 4 of [conduct_research]: execution of the plan and
    synthesis. *)
Definition research_and_report (plan : ResearchPlan)
    (requirements : ResearchRequirement) : M string :=
  _log_execution "LeadResearchAgent" "handoff_to_research_execution" None true
    "Handing off to Research Execution phase" ;;
  research_results <- _execute_research_plan plan requirements ;;
  _log_execution "ResearchExecution" "handoff_back_to_lead" None true
    ("Completed research with "
     ++ Py.str_of_nat (length (search_results research_results))
     ++ " search results") ;;
  final_report <- _create_final_report requirements research_results ;;
  s <- get ;;
  ret (final_report
       ++ execution_summary_block (platform s) (get_execution_summary s)).

(** [conduct_research(user_input)], called without a stream callback. *)
Definition conduct_research (user_input : string) : M string :=
  _log_execution "LeadResearchAgent" "handoff_to_requirement_gathering" None
    true "Handing off to Requirement Gathering Agent" ;;
  requirements <- RequirementGatheringAgent.gather_requirements user_input ;;
  _log_execution "RequirementGatheringAgent" "handoff_back_to_lead" None true
    ("Gathered requirements: " ++ clarified_question requirements) ;;
  _log_execution "LeadResearchAgent" "handoff_to_planning" None true
    "Handing off to Planning Agent" ;;
  plan <- PlanningAgent.create_plan requirements ;;
  _log_execution "PlanningAgent" "handoff_back_to_lead" None true
    ("Created plan with " ++ Py.str_of_nat (length (tasks plan))
     ++ " tasks") ;;
  research_and_report plan requirements.

(** The state of a freshly constructed [LeadResearchAgent]. *)
Definition init (p : Platform) (now : Q) (delays : list Q) : State :=
  {| platform := p; clock := now; ticks := delays; history := [];
     objects := ∅; list_objects := ∅; next_addr := 0;
     last_api_call := 0%Q; rate_limit_delay := 7%Q;
     execution_trace := []; performance_metrics := [] |}.

End LeadResearchAgent.

(* ================================================================== *)
(** * ReflectionAgent: resolution of conflicts *)
(* ================================================================== *)

(** The methods [_resolve_conflicts], [_resolve_*_conflicts] and
    [_synthesize_resolutions] of [ReflectionAgent]. *)
Module ConflictResolution.

(** The dict a resolution strategy returns. *)
Record Resolution := {
  type_ : string;
  strategy : string;
  resolution : string;
  confidence : Q
}.

(** The dict [_resolve_conflicts] returns; the key [strategies_applied]
    is present in one of its two shapes only. *)
Record FinalResolution := {
  final_resolution : string;
  final_confidence : Q;
  strategies_applied : option nat
}.

Definition _resolve_temporal_conflicts (conflicts : list string)
    (search_results_ : list ResearchResult) : Resolution :=
  {| type_ := "temporal";
     strategy := "prioritize_recent_sources";
     resolution :=
       "Prioritizing more recent sources and noting temporal context";
     confidence := 0.8%Q |}.

Definition _resolve_methodological_conflicts (conflicts : list string)
    (search_results_ : list ResearchResult) : Resolution :=
  {| type_ := "methodological";
     strategy := "compare_methodologies";
     resolution :=
       "Comparing different methodological approaches and noting their respective strengths";
     confidence := 0.7%Q |}.

Definition _resolve_perspectival_conflicts (conflicts : list string)
    (search_results_ : list ResearchResult) : Resolution :=
  {| type_ := "perspectival";
     strategy := "acknowledge_multiple_perspectives";
     resolution :=
       "Acknowledging multiple valid perspectives and providing balanced analysis";
     confidence := 0.9%Q |}.

Definition _resolve_data_quality_conflicts (conflicts : list string)
    (search_results_ : list ResearchResult) : Resolution :=
  {| type_ := "data_quality";
     strategy := "assess_source_reliability";
     resolution :=
       "Assessing source reliability and prioritizing higher-quality sources";
     confidence := 0.8%Q |}.

Definition resolution_strategies
  : list (string * (list string -> list ResearchResult -> Resolution)) :=
  [("temporal", _resolve_temporal_conflicts);
   ("methodological", _resolve_methodological_conflicts);
   ("perspectival", _resolve_perspectival_conflicts);
   ("data_quality", _resolve_data_quality_conflicts)].

(** [d.get(key)] on a dict kept as an association list *)
Fixpoint dict_get {V} (key : string) (d : list (string * V)) : option V :=
  match d with
  | [] => None
  | (k, v) :: rest => if String.eqb k key then Some v else dict_get key rest
  end.

(** [sum(xs)]: the additions are made from the left, starting at 0. *)
Definition sum (xs : list Q) : Q := fold_left Qplus xs 0%Q.

Section SetOrder.

(** The order in which Python iterates over [set(l)]: it is not fixed by
    the language, so the functions take it as a parameter. *)
Variable set_order : list string -> list string.

Definition _synthesize_resolutions (resolutions : list Resolution)
  : FinalResolution :=
  match resolutions with
  | [] => {| final_resolution := "No conflicts to resolve";
             final_confidence := 1.0%Q;
             strategies_applied := None |}
  | _ =>
      let avg_confidence :=
        (sum (map confidence resolutions)
         / inject_Z (Z.of_nat (length resolutions)))%Q in
      let strategies := map strategy resolutions in
      {| final_resolution :=
           "Multiple conflict resolution strategies applied: "
           ++ Py.join ", " (set_order strategies);
         final_confidence := avg_confidence;
         strategies_applied :=
           Some (length (nodup string_dec strategies)) |}
  end.

Definition _resolve_conflicts (conflicts : list string)
    (search_results_ : list ResearchResult) : FinalResolution :=
  match conflicts with
  | [] => {| final_resolution := "No conflicts detected";
             final_confidence := 1.0%Q;
             strategies_applied := None |}
  | _ =>
      let conflict_types := ReflectionAgent._categorize_conflicts conflicts in
      let resolutions :=
        fold_left
          (fun resolutions kv =>
             match dict_get (fst kv) resolution_strategies with
             | Some resolve =>
                 (resolutions ++ [resolve (snd kv) search_results_])%list
             | None => resolutions
             end)
          conflict_types [] in
      _synthesize_resolutions resolutions
  end.

End SetOrder.

End ConflictResolution.

(* ================================================================== *)
(** * The chat interface: the notice shown for a failed run *)
(* ================================================================== *)

(** The [except] branch of the message handler [main] of [app.py]. *)
Module App.

(** The three notices, each with the text of the failure it quotes. *)
Inductive Notice :=
| TemporaryApiError (error_msg : string)
| RateLimitReached (error_msg : string)
| SystemError (error_msg : string).

Definition error_notice (e : Exn) : Notice :=
  let error_msg := str_of_exn e in
  if Py.str_in "500" error_msg || Py.str_in "INTERNAL" error_msg
  then TemporaryApiError error_msg
  else if Py.str_in "429" error_msg
          || Py.str_in "quota" (Py.lower error_msg)
  then RateLimitReached error_msg
  else SystemError error_msg.

End App.

(* ================================================================== *)
(** * Notions used in the statements *)
(* ================================================================== *)

(** [n] calls of [_rate_limit], each awaited before the next is made: the
    cursor values the calls leave, in order, and the final state. *)
Fixpoint acquire_seq (n : nat) (s : State) : list Q * State :=
  match n with
  | O => ([], s)
  | S k =>
      let s1 := snd (LeadResearchAgent._rate_limit s) in
      let (ts, s2) := acquire_seq k s1 in
      (last_api_call s1 :: ts, s2)
  end.

(** Consecutive elements of [ts] are at least [d] apart. *)
Fixpoint spaced (d : Q) (ts : list Q) : Prop :=
  match ts with
  | [] => True
  | t :: rest =>
      match rest with
      | [] => True
      | t' :: _ => (t + d <= t')%Q
      end /\ spaced d rest
  end.

(** The outcome of the last of [k + 1] consecutive attempts of the retry
    loop, the first numbered [j], when each but the last is followed by
    its backoff sleep. *)
Fixpoint attempts_from {A} (func : M A) (base_delay : Q) (j k : nat)
    (s : State) : Result A * State :=
  match k with
  | O => func s
  | S k' =>
      attempts_from func base_delay (S j) k'
        (snd (sleep (base_delay * inject_Z (2 ^ Z.of_nat j))%Q
                    (snd (func s))))
  end.

(** An operation that raises a transient failure on every call. *)
Definition always_transient {A} (func : M A) : Prop :=
  forall s, exists e,
    fst (func s) = Raise e /\ LeadResearchAgent.is_transient e = true.

Definition nonneg (ts : list Q) : Prop := Forall (fun t => (0 <= t)%Q) ts.

(** [lo <= q <= hi] on floats *)
Definition between (lo hi q : float) : bool :=
  PrimFloat.leb lo q && PrimFloat.leb q hi.

(** What the constructor call of [_extract_sources] fixes of a source. *)
Definition well_scored (c : Citation) : Prop :=
  reliability_score c = 0.8%float
  /\ quality_score c = SearchAgent._assess_source_quality (url c) (title c)
  /\ source_type c = SearchAgent._determine_source_type (url c).

(** The conflict lines that go to the bucket [k], in input order. *)
Definition bucket (k : string) (conflicts : list string) : list string :=
  filter (fun c => String.eqb (ReflectionAgent.bucket_of c) k) conflicts.

Definition bucket_keys : list string :=
  ["temporal"; "methodological"; "perspectival"; "data_quality"].

(** [s'] comes after [s]: same platform, and the calls made and the trace
    entries logged in [s] are the first ones of [s']. *)
Definition extends (s s' : State) : Prop :=
  platform s' = platform s
  /\ (exists h, history s' = (history s ++ h)%list)
  /\ (exists t, execution_trace s' = (execution_trace s ++ t)%list).

Definition monotone {A} (m : M A) : Prop :=
  forall s, extends s (snd (m s)).

Definition never_raises {A} (m : M A) : Prop :=
  forall s, exists a, fst (m s) = Ok a.

Definition stable (P : State -> Prop) : Prop :=
  forall s s', extends s s' -> P s -> P s'.

Definition establishes {A} (m : M A) (P : State -> Prop) : Prop :=
  forall s, P (snd (m s)).

(** The language model was called with [c]. *)
Definition called (c : Call) (s : State) : Prop := In c (history s).

(** The trace has an entry with these fields. *)
Definition traced (agent_ action_ : string) (success_ : bool)
    (details_ : string) (s : State) : Prop :=
  exists e, In e (execution_trace s)
    /\ log_agent e = agent_ /\ action e = action_
    /\ success e = success_ /\ details e = details_.

(** The results kept from a list of outcomes: those that are not
    exceptions, in order. *)
Fixpoint successes {A} (outcomes : list (Result A)) : list A :=
  match outcomes with
  | [] => []
  | Ok a :: rest => a :: successes rest
  | Raise _ :: rest => successes rest
  end.

(** The store and the clock are as before. *)
Definition same_store (s s' : State) : Prop :=
  objects s' = objects s /\ list_objects s' = list_objects s
  /\ next_addr s' = next_addr s.

(** The search content the reflection loop binds to the task numbered
    [i]. *)
Definition bound_content (search_results_ : list ResearchResult) (i : nat)
  : string :=
  match nth_error search_results_ (i mod length search_results_) with
  | Some r => content r
  | None => ""
  end.

(** The addresses gathered from the sources of the search results. *)
Definition gathered_sources (s : State) (srs : list ResearchResult)
  : list nat :=
  concat (map (fun r => list_at s (sources r)) srs).

(** The store of objects after the loop of [create_citations] over the
    addresses [addrs]. *)
Definition enhance_all (addrs : list nat) (o : gmap nat Citation)
  : gmap nat Citation :=
  fold_left (fun o a => alter CitationsAgent.enhance a o) addrs o.

(** The language model answers every call of the citations agent. *)
Definition citations_agent_answers (p : Platform) : Prop :=
  forall h style entries, exists out,
    runner p h (CitationsCall style entries) = Ok out.

Definition keeps_store {A} (m : M A) : Prop :=
  forall s, same_store s (snd (m s)).

(* ================================================================== *)
(** * Invariants of the tracing data *)
(* ================================================================== *)

(** [m] keeps the property [I] of the state, whether it returns or
    raises. *)
Definition preserves {A} (I : State -> Prop) (m : M A) : Prop :=
  forall s, I s -> I (snd (m s)).

(** [I] reads the trace and the metrics only. *)
Definition reads_log_only (I : State -> Prop) : Prop :=
  forall s s',
    execution_trace s' = execution_trace s ->
    performance_metrics s' = performance_metrics s ->
    I s -> I s'.

(** [I] is kept by every logging call that gives no duration. *)
Definition kept_by_logging (I : State -> Prop) : Prop :=
  forall ag ac su de,
    preserves I (LeadResearchAgent._log_execution ag ac None su de).

(** The entries of the trace logged for [agent_name]. *)
Definition entries_of (agent_name : string) (trace : list LogEntry)
  : list LogEntry :=
  filter (fun e => String.eqb (log_agent e) agent_name) trace.

(** The metrics agree with the trace: one record per agent that has an
    entry, with the numbers of its entries and of its successful
    entries, and no duration; the numbers of entries add up to the
    length of the trace. *)
Definition metrics_match (s : State) : Prop :=
  List.NoDup (map fst (performance_metrics s))
  /\ (forall e, In e (execution_trace s) ->
        In (log_agent e) (map fst (performance_metrics s)))
  /\ (forall ag m, In (ag, m) (performance_metrics s) ->
        total_calls m = length (entries_of ag (execution_trace s))
        /\ successful_calls m
           = length (filter success (entries_of ag (execution_trace s)))
        /\ (1 <= total_calls m)%nat
        /\ total_duration m = 0%Q
        /\ average_duration m = 0%Q)
  /\ length (execution_trace s)
     = list_sum (map (fun kv => total_calls (snd kv))
                     (performance_metrics s)).

(* ================================================================== *)
(** * Runs that return *)
(* ================================================================== *)

(** On a platform with [P], [m] returns a value with [Q], and leaves the
    platform as it is. *)
Definition returns_with {A} (P : Platform -> Prop) (Q : A -> Prop)
    (m : M A) : Prop :=
  forall s, P (platform s) ->
    exists a s', m s = (Ok a, s') /\ platform s' = platform s /\ Q a.

(** The language model answers the call [c], whatever was called
    before. *)
Definition answers (p : Platform) (c : Call) : Prop :=
  forall h, exists out, runner p h c = Ok out.

(** The agents outside the search and reflection stages answer. *)
Definition core_agents_answer (p : Platform) : Prop :=
  (forall user_input, answers p (GatherCall user_input))
  /\ (forall requirements, answers p (PlanCall requirements))
  /\ citations_agent_answers p.

(** The report opens with the title built from [question]. *)
Definition opens_with_title (question report : string) : Prop :=
  exists date depth rest,
    report = LeadResearchAgent.report_head question date depth ++ rest.

(* ================================================================== *)
(** * The calls of the language model made by an operation *)
(* ================================================================== *)

Definition is_search_call (c : Call) : Prop :=
  match c with SearchCall _ => True | _ => False end.

Definition is_reflect_call (c : Call) : Prop :=
  match c with ReflectCall _ _ => True | _ => False end.

Definition is_citations_call (c : Call) : Prop :=
  match c with CitationsCall _ _ => True | _ => False end.

(** Whether it returns or raises, [m] makes between [lo] and [hi] calls
    of the language model, all of them of the kind [K]. *)
Definition calls_between {A} (K : Call -> Prop) (lo hi : nat) (m : M A)
  : Prop :=
  forall s, exists h,
    history (snd (m s)) = (history s ++ h)%list
    /\ Forall K h /\ (lo <= length h <= hi)%nat.

(** The store has grown to the address [k] at least. *)
Definition above (k : nat) (s : State) : Prop := (k <= next_addr s)%nat.



(* ================================================================== *)
(** * Sample platforms, states and inputs *)
(* ================================================================== *)

(** A platform whose language model answers every call with [answer]. *)
Definition const_platform (answer : Result string) : Platform :=
  {| runner := fun _ _ => answer;
     strftime_date := fun _ => "2024-01-01";
     strftime_datetime := fun _ => "2024-01-01 00:00:00";
     format_percent := fun _ => "100.0%";
     format_fixed := fun _ => "0.0" |}.

(** A platform whose search agent fails and whose other agents answer. *)
Definition search_down_platform : Platform :=
  {| runner := fun _ c =>
       match c with
       | SearchCall _ => Raise (Exception "503 Service Unavailable")
       | _ => Ok "fine"
       end;
     strftime_date := fun _ => "2024-01-01";
     strftime_datetime := fun _ => "2024-01-01 00:00:00";
     format_percent := fun _ => "0.0%";
     format_fixed := fun _ => "0.0" |}.

Definition sample_state (p : Platform) : State :=
  LeadResearchAgent.init p 1000%Q [1%Q; 2%Q; 0%Q; 3%Q].

Definition academic_text : string :=
  "[Deep Research on Oceans] see http://ocean.mit.edu/paper today".

Definition academic_source : Citation :=
  {| id := 1; title := "Deep Research on Oceans";
     url := "http://ocean.mit.edu/paper"; source_type := "academic";
     publication_date := None; author := None; domain := None; doi := None;
     reliability_score := 0.8%float;
     quality_score :=
       SearchAgent._assess_source_quality "http://ocean.mit.edu/paper"
         "Deep Research on Oceans" |}.

Definition commercial_text : string :=
  "[An opinion piece] see http://shop.example.com/p today".

Definition commercial_source : Citation :=
  {| id := 1; title := "An opinion piece";
     url := "http://shop.example.com/p"; source_type := "commercial";
     publication_date := None; author := None; domain := None; doi := None;
     reliability_score := 0.8%float;
     quality_score :=
       SearchAgent._assess_source_quality "http://shop.example.com/p"
         "An opinion piece" |}.

(** A commercial URL with a title that holds both "opinion" and
    "article". *)
Definition mixed_text : string :=
  "[An opinion article] see http://shop.example.com/p today".

Definition mixed_source : Citation :=
  {| id := 1; title := "An opinion article";
     url := "http://shop.example.com/p"; source_type := "commercial";
     publication_date := None; author := None; domain := None; doi := None;
     reliability_score := 0.8%float;
     quality_score :=
       SearchAgent._assess_source_quality "http://shop.example.com/p"
         "An opinion article" |}.

(** A platform whose search agent answers with the number of the call, so
    that the contents of the search results differ. *)
Definition numbering_platform : Platform :=
  {| runner := fun h c =>
       match c with
       | SearchCall _ => Ok ("finding " ++ Py.str_of_nat (length h))
       | _ => Ok "fine"
       end;
     strftime_date := fun _ => "2024-01-01";
     strftime_datetime := fun _ => "2024-01-01 00:00:00";
     format_percent := fun _ => "100.0%";
     format_fixed := fun _ => "0.0" |}.

Definition sample_requirements : ResearchRequirement :=
  RequirementGatheringAgent._parse_requirements "Compare tea and coffee" "".

Definition deep_plan : ResearchPlan :=
  PlanningAgent._parse_plan sample_requirements "".

Definition sample_search_results : list ResearchResult :=
  match fst (LeadResearchAgent.search_stage sample_requirements
               (LeadResearchAgent.by_agent "Search" (tasks deep_plan))
               (sample_state numbering_platform)) with
  | Ok l => l
  | Raise _ => []
  end.


(** A result with the content [text], whose sources are the list at
    [list_addr]. *)
Definition blob (text : string) (list_addr : nat) : ResearchResult :=
  {| content := text; sources := list_addr; confidence_level := "high";
     conflicts_noted := []; result_quality_score := 0.9%float |}.

(** A state with two sources, held by the list of one search result. *)
Definition two_source_state : State :=
  set_store (list_to_map [(0%nat, academic_source);
                          (1%nat, commercial_source)])
            (list_to_map [(2%nat, [0; 1]%nat)])
            3 (sample_state (const_platform (Ok "fine"))).

Definition two_source_result : ResearchResult := blob "two sources" 2.

Definition two_citation_tasks : list Task :=
  [PlanningAgent.mk_task "create_citations" "Create proper citations"
     "Citations" "5-10 min";
   PlanningAgent.mk_task "check_citations" "Check the citations"
     "Citations" "5-10 min"].

(** A platform whose citations agent fails and whose other agents answer
    with a text that names one source. *)
Definition citations_down_platform : Platform :=
  {| runner := fun _ c =>
       match c with
       | CitationsCall _ _ => Raise (Exception "401 Unauthorized")
       | _ => Ok academic_text
       end;
     strftime_date := fun _ => "2024-01-01";
     strftime_datetime := fun _ => "2024-01-01 00:00:00";
     format_percent := fun _ => "100.0%";
     format_fixed := fun _ => "0.0" |}.

(** A platform whose language model fails on its first call, with a
    transient signature, and answers afterwards. *)
Definition flaky_platform : Platform :=
  {| runner := fun h _ =>
       match h with
       | [] => Raise (Exception "500 Internal Server Error")
       | _ => Ok academic_text
       end;
     strftime_date := fun _ => "2024-01-01";
     strftime_datetime := fun _ => "2024-01-01 00:00:00";
     format_percent := fun _ => "100.0%";
     format_fixed := fun _ => "0.0" |}.

(* ================================================================== *)
(** * Properties of the string primitives *)
(* ================================================================== *)

Lemma prefix_lower (p s : string) :
  String.prefix p s = true ->
  String.prefix (Py.lower p) (Py.lower s) = true.
Proof.
  revert s. induction p as [|a p IH]; intros s H; [now destruct s|].
  destruct s as [|b s]; [discriminate|].
  simpl in *. destruct (ascii_dec a b) as [->|]; [|discriminate].
  destruct (ascii_dec (Py.lower_char b) (Py.lower_char b)); [|congruence].
  now apply IH.
Qed.

(** A word found in a text is found, lower-cased, in the lower-cased
    text. *)
Lemma str_in_lower (w s : string) :
  Py.str_in w s = true -> Py.str_in (Py.lower w) (Py.lower s) = true.
Proof.
  induction s as [|c s IH]; intros H.
  - destruct w; [reflexivity|discriminate].
  - change (Py.str_in w (String c s))
      with (if String.prefix w (String c s) then true else Py.str_in w s) in H.
    change (Py.lower (String c s))
      with (String (Py.lower_char c) (Py.lower s)).
    change (Py.str_in (Py.lower w) (String (Py.lower_char c) (Py.lower s)))
      with (if String.prefix (Py.lower w)
                 (String (Py.lower_char c) (Py.lower s))
            then true else Py.str_in (Py.lower w) (Py.lower s)).
    destruct (String.prefix w (String c s)) eqn:E.
    + apply prefix_lower in E.
      change (Py.lower (String c s))
        with (String (Py.lower_char c) (Py.lower s)) in E.
      now rewrite E.
    + rewrite (IH H).
      destruct (String.prefix (Py.lower w) _); reflexivity.
Qed.

Lemma prefix_app (x b : string) : String.prefix x (x ++ b) = true.
Proof.
  induction x as [|a x IH]; simpl; [now destruct b|].
  destruct (ascii_dec a a); [assumption|congruence].
Qed.

(** A text contains what it was assembled from. *)
Lemma str_in_app (a x b : string) : Py.str_in x (a ++ x ++ b) = true.
Proof.
  induction a as [|c a IH].
  - change ("" ++ x ++ b) with (x ++ b).
    destruct (x ++ b) eqn:E.
    + destruct x; [reflexivity|discriminate].
    + change (Py.str_in x (String a s))
        with (if String.prefix x (String a s) then true else Py.str_in x s).
      rewrite <- E, prefix_app. reflexivity.
  - change (Py.str_in x (String c a ++ x ++ b))
      with (if String.prefix x (String c (a ++ x ++ b)) then true
            else Py.str_in x (a ++ x ++ b)).
    rewrite IH. destruct (String.prefix x _); reflexivity.
Qed.

Lemma append_assoc (a b c : string) : (a ++ b) ++ c = a ++ (b ++ c).
Proof.
  induction a as [|x a IH]; [reflexivity|].
  change (String x ((a ++ b) ++ c) = String x (a ++ b ++ c)).
  f_equal. exact IH.
Qed.


Example split_example :
  Py.split "ab" "xabyabab" = ["x"; "y"; ""; ""].
Proof. reflexivity. Qed.

Example extract_example :
  map (fun c => (id c, title c, url c, source_type c))
      (SearchAgent._extract_sources
         ("**1. Deep research**" ++ nl ++ "some text" ++ nl ++
          "*Source: https://mit.edu/x*" ++ nl ++
          "[Old] stuff - http://a.com/b rest"))
  = [(1, "1. Deep research", "https://mit.edu/x", "academic");
     (2, "Old", "http://a.com/b", "commercial")].
Proof. vm_compute. reflexivity. Qed.

(* ================================================================== *)
(** * SearchAgent: scores of extracted sources *)
(* ================================================================== *)

Lemma extract_line_scored lines sources_ i line :
  Forall well_scored sources_ ->
  Forall well_scored (SearchAgent.extract_line lines sources_ i line).
Proof.
  intros H. unfold SearchAgent.extract_line.
  destruct (Py.str_in "http" line); [|assumption].
  destruct (SearchAgent.parse_line lines i line) as [[u t]|]; [|assumption].
  apply Forall_app. split; [assumption|].
  constructor; [|constructor]. repeat split.
Qed.

Lemma extract_fold_scored lines its acc :
  Forall well_scored acc ->
  Forall well_scored
    (fold_left (fun sources_ '(i, line) =>
                  SearchAgent.extract_line lines sources_ i line) its acc).
Proof.
  revert acc. induction its as [|[i line] its IH]; intros acc H; simpl.
  - assumption.
  - apply IH. now apply extract_line_scored.
Qed.

Lemma extract_sources_scored content_ :
  Forall well_scored (SearchAgent._extract_sources content_).
Proof. apply extract_fold_scored. constructor. Qed.

(** The tests the score depends on are decided one by one. *)
Ltac score_cases url_ title_ :=
  unfold SearchAgent._assess_source_quality,
    SearchAgent.url_adjustment, SearchAgent.title_adjustment;
  destruct (Py.str_in ".edu" url_ || Py.str_in ".ac." url_);
    [|destruct (Py.str_in ".gov" url_);
      [|destruct (Py.str_in ".org" url_);
        [|destruct (Py.str_in ".com" url_)]]];
    (destruct (Py.any_in ["study"; "research"; "analysis"; "report";
                          "journal"] (Py.lower title_));
     [|destruct (Py.any_in ["news"; "article"; "blog"] (Py.lower title_));
       [|destruct (Py.any_in ["opinion"; "editorial"; "commentary"]
                             (Py.lower title_))]]).

(** The clamp to the interval from 0 to 1 never changes the score: every
    sum of the base score and the adjustments lies in it. *)
Lemma clamp_bounds (url_ title_ : string) :
  SearchAgent._assess_source_quality url_ title_
  = SearchAgent.title_adjustment title_
      (SearchAgent.url_adjustment url_ 0.5%float)
  /\ between 0 1 (SearchAgent._assess_source_quality url_ title_) = true.
Proof. score_cases url_ title_; split; reflexivity. Qed.

(** C7. Every source produced by [_extract_sources] has a quality score
    in the closed interval from 0 to 1 and the reliability score 0.8. *)
Theorem extracted_scores_in_range (content_ : string) (c : Citation) :
  In c (SearchAgent._extract_sources content_) ->
  (0 <=? quality_score c)%float = true
  /\ (quality_score c <=? 1)%float = true
  /\ reliability_score c = 0.8%float.
Proof.
  intros Hin.
  pose proof (extract_sources_scored content_) as Hall.
  rewrite Forall_forall in Hall.
  destruct (Hall c Hin) as (Hrel & Hq & _).
  rewrite Hq.
  destruct (clamp_bounds (url c) (title c)) as [_ Hb].
  apply andb_true_iff in Hb. destruct Hb as [H0 H1].
  split; [exact H0|]. split; [exact H1|exact Hrel].
Qed.

Lemma extracted_scores_in_range_witness :
  (0 <=? quality_score academic_source)%float = true
  /\ (quality_score academic_source <=? 1)%float = true
  /\ reliability_score academic_source = 0.8%float.
Proof.
  apply (extracted_scores_in_range academic_text academic_source).
  vm_compute. left. reflexivity.
Defined.

(** C5, as amended. For a source produced by [_extract_sources]: an
    academic marker in the URL and "research" in the lower-cased title
    give the quality score 1 and the kind "academic"; a commercial marker
    with no academic, government or organization marker in the URL, and
    "opinion" in the lower-cased title with none of the words of the two
    groups tested before it, give the binary64 result of
    [0.5 + 0.05 - 0.1], which is 0.45000000000000007 and differs from
    0.45; the score is always the base 0.5 after one of the five domain
    adjustments and at most one of the three title adjustments, which
    the clamp leaves as it is. *)
Theorem extracted_quality_first_match (content_ : string) (c : Citation) :
  In c (SearchAgent._extract_sources content_) ->
  (Py.str_in ".edu" (url c) || Py.str_in ".ac." (url c) = true ->
   Py.str_in "research" (Py.lower (title c)) = true ->
   quality_score c = 1%float /\ source_type c = "academic")
  /\ (Py.str_in ".com" (url c) = true ->
      Py.str_in ".edu" (url c) || Py.str_in ".ac." (url c) = false ->
      Py.str_in ".gov" (url c) = false ->
      Py.str_in ".org" (url c) = false ->
      Py.str_in "opinion" (Py.lower (title c)) = true ->
      Py.any_in ["study"; "research"; "analysis"; "report"; "journal"]
        (Py.lower (title c)) = false ->
      Py.any_in ["news"; "article"; "blog"] (Py.lower (title c)) = false ->
      quality_score c = (0.5 + 0.05 - 0.1)%float
      /\ quality_score c = 0.45000000000000007%float
      /\ (quality_score c =? 0.45)%float = false
      /\ source_type c = "commercial")
  /\ (let after_url := SearchAgent.url_adjustment (url c) 0.5%float in
      quality_score c = SearchAgent.title_adjustment (title c) after_url
      /\ In after_url
            [0.5 + 0.3; 0.5 + 0.25; 0.5 + 0.15; 0.5 + 0.05; 0.5 - 0.1]%float
      /\ In (SearchAgent.title_adjustment (title c) after_url)
            [after_url + 0.2; after_url + 0.1; after_url - 0.1;
             after_url]%float).
Proof.
  intros Hin.
  pose proof (extract_sources_scored content_) as Hall.
  rewrite Forall_forall in Hall.
  destruct (Hall c Hin) as (_ & Hq & Hty).
  rewrite Hq, Hty.
  split; [|split].
  - unfold SearchAgent._assess_source_quality,
      SearchAgent._determine_source_type,
      SearchAgent.url_adjustment, SearchAgent.title_adjustment.
    intros Hu Ht. rewrite Hu.
    unfold Py.any_in. cbn [existsb]. rewrite Ht, orb_true_r. cbn [orb].
    split; reflexivity.
  - unfold SearchAgent._assess_source_quality,
      SearchAgent._determine_source_type,
      SearchAgent.url_adjustment, SearchAgent.title_adjustment.
    intros Hcom Hac Hgov Horg Hop Hg1 Hg2.
    rewrite Hac, Hgov, Horg, Hcom, Hg1, Hg2.
    unfold Py.any_in. cbn [existsb]. rewrite Hop. cbn [orb].
    repeat split; reflexivity.
  - cbv zeta. split; [apply clamp_bounds|]. split.
    + unfold SearchAgent.url_adjustment.
      destruct (_ || _); [simpl; tauto|].
      destruct (Py.str_in ".gov" _); [simpl; tauto|].
      destruct (Py.str_in ".org" _); [simpl; tauto|].
      destruct (Py.str_in ".com" _); simpl; tauto.
    + unfold SearchAgent.title_adjustment. cbv zeta.
      destruct (Py.any_in _ _); [simpl; tauto|].
      destruct (Py.any_in _ _); [simpl; tauto|].
      destruct (Py.any_in _ _); simpl; tauto.
Qed.

Lemma extracted_quality_first_match_witness :
  (quality_score academic_source = 1%float
   /\ source_type academic_source = "academic")
  /\ (quality_score commercial_source = 0.45000000000000007%float
      /\ (quality_score commercial_source =? 0.45)%float = false
      /\ source_type commercial_source = "commercial").
Proof.
  split.
  - apply (extracted_quality_first_match academic_text academic_source);
      vm_compute; auto.
  - destruct (extracted_quality_first_match commercial_text
                commercial_source) as (_ & H & _);
      [vm_compute; auto|].
    destruct H as (_ & H1 & H2 & H3); try reflexivity.
    repeat split; assumption.
Defined.

(** C5, the claim as stated fails: a source whose URL holds a commercial
    marker and whose title holds "opinion" may score otherwise, here 0.65
    because "article" is tested before "opinion". *)
Lemma commercial_opinion_article_scores_065 :
  In mixed_source (SearchAgent._extract_sources mixed_text)
  /\ Py.str_in ".com" (url mixed_source) = true
  /\ Py.str_in "opinion" (title mixed_source) = true
  /\ quality_score mixed_source = 0.65%float
  /\ (quality_score mixed_source =? 0.45)%float = false
  /\ (quality_score mixed_source =? 0.5 + 0.05 - 0.1)%float = false.
Proof.
  split; [vm_compute; left; reflexivity|].
  repeat split; reflexivity.
Qed.

(* ================================================================== *)
(** * ReflectionAgent: categorisation of conflicts *)
(* ================================================================== *)

Lemma bucket_of_cases (c : string) :
  ReflectionAgent.bucket_of c = "temporal"
  \/ ReflectionAgent.bucket_of c = "methodological"
  \/ ReflectionAgent.bucket_of c = "perspectival"
  \/ ReflectionAgent.bucket_of c = "data_quality".
Proof.
  unfold ReflectionAgent.bucket_of.
  destruct (Py.any_in ReflectionAgent.temporal_words _); [tauto|].
  destruct (Py.any_in ReflectionAgent.methodological_words _); [tauto|].
  destruct (Py.any_in ReflectionAgent.perspectival_words _); [tauto|].
  destruct (Py.any_in ReflectionAgent.data_quality_words _); tauto.
Qed.

Lemma bucket_cons (k c : string) (l : list string) :
  bucket k (c :: l)
  = if String.eqb (ReflectionAgent.bucket_of c) k then c :: bucket k l
    else bucket k l.
Proof. reflexivity. Qed.

(** The dictionary after the loop: every key holds what it held before,
    followed by the lines of its bucket, in input order. *)
Lemma categorize_loop (l t m p d : list string) :
  fold_left (fun categories conflict =>
               ReflectionAgent.dict_append (ReflectionAgent.bucket_of conflict)
                                           conflict categories)
            l [("temporal", t); ("methodological", m);
               ("perspectival", p); ("data_quality", d)]
  = [("temporal", (t ++ bucket "temporal" l)%list);
     ("methodological", (m ++ bucket "methodological" l)%list);
     ("perspectival", (p ++ bucket "perspectival" l)%list);
     ("data_quality", (d ++ bucket "data_quality" l)%list)].
Proof.
  revert t m p d. induction l as [|c l IH]; intros t m p d.
  - simpl. now rewrite !app_nil_r.
  - cbn [fold_left]. rewrite !bucket_cons.
    destruct (bucket_of_cases c) as [E|[E|[E|E]]]; rewrite E;
      cbn; rewrite IH, <- ?app_assoc; reflexivity.
Qed.

Lemma bucket_partition (l : list string) :
  Permutation
    (bucket "temporal" l ++ bucket "methodological" l
     ++ bucket "perspectival" l ++ bucket "data_quality" l)%list l.
Proof.
  induction l as [|c l IH]; [constructor|].
  rewrite !bucket_cons.
  destruct (bucket_of_cases c) as [E|[E|[E|E]]]; rewrite E; cbn.
  - now constructor.
  - symmetry. apply Permutation_cons_app. now symmetry.
  - symmetry.
    rewrite app_assoc. apply Permutation_cons_app.
    rewrite <- app_assoc. now symmetry.
  - symmetry.
    rewrite 2!app_assoc. apply Permutation_cons_app.
    rewrite <- 2!app_assoc. now symmetry.
Qed.

Lemma concat_drop_empty (cats : list (string * list string)) :
  concat (map snd (filter (fun kv => ReflectionAgent.nonempty (snd kv)) cats))
  = concat (map snd cats).
Proof.
  induction cats as [|[k v] cats IH]; [reflexivity|].
  cbn [filter snd]. destruct v as [|x v]; cbn.
  - exact IH.
  - now rewrite IH.
Qed.

(** C6. [_categorize_conflicts] puts every line in exactly one of the
    four buckets, chosen by the priority temporal, methodological,
    perspectival, data quality, with perspectival as the default; the
    result lists, in that order, the non-empty buckets, and the lines of
    all its buckets together are a permutation of the input. *)
Theorem categorize_partitions_input (conflicts : list string) :
  let result := ReflectionAgent._categorize_conflicts conflicts in
  result = filter (fun kv => ReflectionAgent.nonempty (snd kv))
                  (map (fun k => (k, bucket k conflicts)) bucket_keys)
  /\ Forall (fun kv => snd kv <> []) result
  /\ Permutation (concat (map snd result)) conflicts
  /\ (forall c, In c conflicts ->
        In (ReflectionAgent.bucket_of c) (map fst result)
        /\ forall k l, In (k, l) result ->
             (In c l <-> k = ReflectionAgent.bucket_of c))
  /\ (forall c,
        let low := Py.lower c in
        let t := Py.any_in ReflectionAgent.temporal_words low in
        let m := Py.any_in ReflectionAgent.methodological_words low in
        let p := Py.any_in ReflectionAgent.perspectival_words low in
        let d := Py.any_in ReflectionAgent.data_quality_words low in
        ReflectionAgent.bucket_of c
        = if t then "temporal"
          else if m then "methodological"
          else if p then "perspectival"
          else if d then "data_quality"
          else "perspectival").
Proof.
  assert (Hres : ReflectionAgent._categorize_conflicts conflicts
                 = filter (fun kv => ReflectionAgent.nonempty (snd kv))
                     (map (fun k => (k, bucket k conflicts)) bucket_keys)).
  { unfold ReflectionAgent._categorize_conflicts,
      ReflectionAgent.empty_categories.
    rewrite categorize_loop. reflexivity. }
  cbv zeta. rewrite Hres.
  split; [reflexivity|]. split; [|split; [|split]].
  - apply Forall_forall. intros [k v] Hin.
    apply filter_In in Hin. destruct Hin as [_ Hne].
    destruct v; [discriminate|]. discriminate.
  - rewrite concat_drop_empty. cbn. rewrite app_nil_r.
    apply bucket_partition.
  - intros c Hc. split.
    + apply in_map_iff.
      exists (ReflectionAgent.bucket_of c,
              bucket (ReflectionAgent.bucket_of c) conflicts).
      split; [reflexivity|]. apply filter_In. split.
      * destruct (bucket_of_cases c) as [E|[E|[E|E]]]; rewrite E;
          cbn; tauto.
      * cbn [snd].
        assert (Hb : In c (bucket (ReflectionAgent.bucket_of c) conflicts)).
        { apply filter_In. split; [assumption|]. apply String.eqb_refl. }
        destruct (bucket _ conflicts); [destruct Hb|reflexivity].
    + intros k l Hin. apply filter_In in Hin. destruct Hin as [Hin _].
      apply in_map_iff in Hin. destruct Hin as (k' & Heq & _).
      inversion Heq; subst k' l. unfold bucket. rewrite filter_In.
      rewrite String.eqb_eq. split; [intros [_ H]; now symmetry|].
      intros ->. split; [assumption|reflexivity].
  - intros c. reflexivity.
Qed.

(* ================================================================== *)
(** * Requirement parsing and planning *)
(* ================================================================== *)

Lemma parse_requirements_depth (original response : string) :
  research_depth
    (RequirementGatheringAgent._parse_requirements original response) = "deep"
  \/ research_depth
       (RequirementGatheringAgent._parse_requirements original response)
     = "standard".
Proof.
  unfold RequirementGatheringAgent._parse_requirements. cbn [research_depth].
  destruct (Py.any_in _ _); [now left|].
  destruct (Py.any_in _ _); now right.
Qed.

(** C9. Whatever the question and the model's answers, the requirement
    parser sets the depth to "deep" or "standard", never "basic" or
    "expert"; the plan parsed for such a requirement has 3 or 5 tasks and
    is never the 2-task plan of the "basic" branch, also when both are
    produced by the agents of the pipeline. *)
Theorem pipeline_depth_is_deep_or_standard (original response answer : string) :
  let r := RequirementGatheringAgent._parse_requirements original response in
  let plan := PlanningAgent._parse_plan r answer in
  (research_depth r = "deep" \/ research_depth r = "standard")
  /\ research_depth r <> "basic" /\ research_depth r <> "expert"
  /\ (length (tasks plan) = 3 \/ length (tasks plan) = 5)
  /\ tasks plan <> PlanningAgent.basic_tasks
  /\ (research_depth r = "standard" -> tasks plan = PlanningAgent.standard_tasks)
  /\ (research_depth r = "deep" -> tasks plan = PlanningAgent.deep_tasks)
  /\ forall s,
       match RequirementGatheringAgent.gather_requirements original s with
       | (Ok r', s') =>
           (research_depth r' = "deep" \/ research_depth r' = "standard")
           /\ match PlanningAgent.create_plan r' s' with
              | (Ok plan', _) =>
                  length (tasks plan') = 3 \/ length (tasks plan') = 5
              | (Raise _, _) => True
              end
       | (Raise _, _) => True
       end.
Proof.
  cbv zeta.
  assert (Hplan : forall o rsp ans,
            let r := RequirementGatheringAgent._parse_requirements o rsp in
            (length (tasks (PlanningAgent._parse_plan r ans)) = 3
             /\ tasks (PlanningAgent._parse_plan r ans)
                = PlanningAgent.standard_tasks
             /\ research_depth r = "standard")
            \/ (length (tasks (PlanningAgent._parse_plan r ans)) = 5
                /\ tasks (PlanningAgent._parse_plan r ans)
                   = PlanningAgent.deep_tasks
                /\ research_depth r = "deep")).
  { intros o rsp ans. cbv zeta.
    destruct (parse_requirements_depth o rsp) as [E|E];
      unfold PlanningAgent._parse_plan; rewrite E; cbn; [right|left]; auto. }
  destruct (Hplan original response answer) as [(H3 & Ht & Hd)|(H5 & Ht & Hd)];
    rewrite Ht, Hd.
  - repeat split; try discriminate; auto.
    intros s. unfold RequirementGatheringAgent.gather_requirements, bind, ret.
    destruct (runner_run _ s) as [[out|e] s1]; [|exact I].
    split; [apply parse_requirements_depth|].
    unfold PlanningAgent.create_plan, bind, ret.
    destruct (runner_run _ s1) as [[out'|e'] s2]; [|exact I].
    destruct (Hplan original out out') as [(? & _)|(? & _)]; auto.
  - repeat split; try discriminate; auto.
    intros s. unfold RequirementGatheringAgent.gather_requirements, bind, ret.
    destruct (runner_run _ s) as [[out|e] s1]; [|exact I].
    split; [apply parse_requirements_depth|].
    unfold PlanningAgent.create_plan, bind, ret.
    destruct (runner_run _ s1) as [[out'|e'] s2]; [|exact I].
    destruct (Hplan original out out') as [(? & _)|(? & _)]; auto.
Qed.

(* ================================================================== *)
(** * The clock and the rate limiter *)
(* ================================================================== *)

Lemma tick_spec (s : State) :
  nonneg (ticks s) ->
  nonneg (ticks (tick s)) /\ (clock s <= clock (tick s))%Q
  /\ last_api_call (tick s) = last_api_call s
  /\ rate_limit_delay (tick s) = rate_limit_delay s.
Proof.
  intros H. unfold tick. destruct (ticks s) as [|t ts] eqn:E.
  - rewrite E. repeat split; try assumption. apply Qle_refl.
  - inversion H; subst. cbn. repeat split; try assumption. lra.
Qed.

Lemma Qltb_true (x y : Q) : LeadResearchAgent.Qltb x y = true -> (x < y)%Q.
Proof.
  unfold LeadResearchAgent.Qltb. intros H.
  apply negb_true_iff in H. apply Qnot_le_lt. intros Hle.
  apply Qle_bool_iff in Hle. congruence.
Qed.

Lemma Qltb_false (x y : Q) : LeadResearchAgent.Qltb x y = false -> (y <= x)%Q.
Proof.
  unfold LeadResearchAgent.Qltb. intros H.
  apply negb_false_iff in H. now apply Qle_bool_iff.
Qed.

(** One call of [_rate_limit]: it returns, the cursor it leaves is the
    clock at its completion, and that is at least the delay after the
    cursor it found. *)
Lemma rate_limit_spec (s : State) :
  nonneg (ticks s) ->
  let s' := snd (LeadResearchAgent._rate_limit s) in
  fst (LeadResearchAgent._rate_limit s) = Ok tt
  /\ nonneg (ticks s')
  /\ (clock s <= clock s')%Q
  /\ last_api_call s' = clock s'
  /\ (last_api_call s + rate_limit_delay s <= last_api_call s')%Q
  /\ rate_limit_delay s' = rate_limit_delay s.
Proof.
  intros H0. unfold LeadResearchAgent._rate_limit, bind, time_time, get,
    modify, ret, sleep. cbn zeta.
  destruct (tick_spec s H0) as (H1 & Hc1 & Hl1 & Hd1).
  set (s1 := tick s) in *.
  destruct (LeadResearchAgent.Qltb _ _) eqn:Elt; cbn.
  - apply Qltb_true in Elt.
    destruct (tick_spec s1 H1) as (H2 & Hc2 & Hl2 & Hd2).
    set (s2 := tick s1) in *.
    set (s3 := set_time _ _ s2).
    assert (H3 : nonneg (ticks s3)) by exact H2.
    destruct (tick_spec s3 H3) as (H4 & Hc4 & Hl4 & Hd4).
    assert (Hc3 : clock s3 = (clock s2 + Qmax 0 (rate_limit_delay s1
                     - (clock s1 - last_api_call s1)))%Q) by reflexivity.
    assert (Hm : (rate_limit_delay s1 - (clock s1 - last_api_call s1)
                  <= Qmax 0 (rate_limit_delay s1
                             - (clock s1 - last_api_call s1)))%Q)
      by apply Q.le_max_r.
    assert (Hm0 : (0 <= Qmax 0 (rate_limit_delay s1
                             - (clock s1 - last_api_call s1)))%Q)
      by apply Q.le_max_l.
    repeat split; try assumption.
    + rewrite Hc3 in Hc4. lra.
    + rewrite Hc3 in Hc4. rewrite Hl1, Hd1 in *. lra.
    + change (rate_limit_delay (tick s3) = rate_limit_delay s).
      rewrite Hd4. change (rate_limit_delay s2 = rate_limit_delay s).
      congruence.
  - apply Qltb_false in Elt.
    destruct (tick_spec s1 H1) as (H2 & Hc2 & Hl2 & Hd2).
    repeat split; try assumption.
    + lra.
    + rewrite Hl1, Hd1 in *. lra.
    + change (rate_limit_delay (tick s1) = rate_limit_delay s). congruence.
Qed.

Lemma last_cons {A} (a : A) (l : list A) (d : A) :
  List.last (a :: l) d = List.last l a.
Proof.
  revert a d. induction l as [|b l IH]; intros a d; [reflexivity|].
  change (List.last (b :: l) d = List.last (b :: l) a).
  now rewrite !IH.
Qed.

Lemma acquire_seq_spec (n : nat) (s : State) :
  nonneg (ticks s) ->
  let ts := fst (acquire_seq n s) in
  let s' := snd (acquire_seq n s) in
  length ts = n
  /\ spaced (rate_limit_delay s) (last_api_call s :: ts)
  /\ last_api_call s' = List.last ts (last_api_call s)
  /\ (last_api_call s + inject_Z (Z.of_nat n) * rate_limit_delay s
      <= last_api_call s')%Q
  /\ (clock s <= clock s')%Q
  /\ ((1 <= n)%nat -> clock s' = last_api_call s').
Proof.
  revert s. induction n as [|n IH]; intros s H0.
  - cbn. repeat split; try lra; try lia.
    change (inject_Z (Z.of_nat 0)) with 0%Q. lra.
  - cbn [acquire_seq].
    destruct (rate_limit_spec s H0) as (_ & H1 & Hc & Hlc & Hsp & Hd).
    set (s1 := snd (LeadResearchAgent._rate_limit s)) in *.
    specialize (IH s1 H1).
    destruct (acquire_seq n s1) as [ts s2] eqn:E. cbn [fst snd] in *.
    destruct IH as (Hlen & Hspaced & Hlast & Hsum & Hclk & Hcl).
    rewrite Hd in *.
    split; [|split; [|split; [|split; [|split]]]].
    + cbn. now rewrite Hlen.
    + split; [exact Hsp|exact Hspaced].
    + rewrite Hlast. symmetry. apply last_cons.
    + rewrite Nat2Z.inj_succ, <- Z.add_1_r, inject_Z_plus.
      change (inject_Z 1) with 1%Q. lra.
    + lra.
    + intros _. destruct n as [|n].
      * cbn in E. inversion E; subst. congruence.
      * apply Hcl. lia.
Qed.

(** C8. [n >= 1] calls of the rate limiter made one after the other take
    at least [(n - 1) * D]: every call returns with the one cursor
    [last_api_call] set to the clock at its completion, and the cursor
    values of consecutive calls are at least [D] apart. *)
Theorem sequential_acquires_take_time (n : nat) (s : State) :
  (1 <= n)%nat ->
  nonneg (ticks s) ->
  let D := rate_limit_delay s in
  let ts := fst (acquire_seq n s) in
  let s' := snd (acquire_seq n s) in
  (inject_Z (Z.of_nat (n - 1)) * D <= clock s' - clock s)%Q
  /\ length ts = n
  /\ spaced D ts
  /\ last_api_call s' = List.last ts (last_api_call s)
  /\ clock s' = last_api_call s'.
Proof.
  intros Hn H0. cbv zeta.
  destruct n as [|n]; [lia|]. cbn [acquire_seq].
  destruct (rate_limit_spec s H0) as (_ & H1 & Hc & Hlc & Hsp & Hd).
  set (s1 := snd (LeadResearchAgent._rate_limit s)) in *.
  pose proof (acquire_seq_spec n s1 H1) as IH.
  destruct (acquire_seq n s1) as [ts s2] eqn:E. cbn [fst snd] in *.
  destruct IH as (Hlen & Hspaced & Hlast & Hsum & Hclk & Hcl).
  rewrite Hd in *.
  assert (Hend : clock s2 = last_api_call s2).
  { destruct n as [|n].
    - cbn in E. inversion E; subst. congruence.
    - apply Hcl. lia. }
  split; [|split; [|split; [|split]]].
  - replace (S n - 1)%nat with n by lia. rewrite Hend.
    rewrite Hlc in Hsum. lra.
  - cbn. now rewrite Hlen.
  - exact Hspaced.
  - rewrite Hlast. symmetry. apply last_cons.
  - exact Hend.
Qed.

Lemma sequential_acquires_take_time_witness :
  let s := sample_state (const_platform (Ok "fine")) in
  (inject_Z (Z.of_nat (3 - 1)) * rate_limit_delay s
   <= clock (snd (acquire_seq 3 s)) - clock s)%Q
  /\ fst (acquire_seq 3 s) = [1003; 1013; 1020]%Q.
Proof.
  split.
  - apply (sequential_acquires_take_time 3
             (sample_state (const_platform (Ok "fine")))).
    + lia.
    + repeat constructor; discriminate.
  - vm_compute. reflexivity.
Defined.

(* ================================================================== *)
(** * Retry with backoff *)
(* ================================================================== *)

Lemma bind_ok {A B} (m : M A) (k : A -> M B) (s s1 : State) (a : A) :
  m s = (Ok a, s1) -> bind m k s = k a s1.
Proof. intros H. unfold bind. now rewrite H. Qed.

Lemma bind_raise {A B} (m : M A) (k : A -> M B) (s s1 : State) (e : Exn) :
  m s = (Raise e, s1) -> bind m k s = (Raise e, s1).
Proof. intros H. unfold bind. now rewrite H. Qed.

(** With at least one attempt to make, what the retry loop returns or
    raises is what some call of the operation returned or raised: the
    failure built after the loop is out of reach. *)
Lemma retry_loop_outcome_is_an_attempt {A} (func : M A) (n : nat) (bd : Q) :
  forall k j s, (j + S k = n)%nat ->
    exists s', LeadResearchAgent.retry_loop func n bd (seq j (S k)) s = func s'.
Proof.
  induction k as [|k IH]; intros j s Hn.
  - exists s. cbn [seq LeadResearchAgent.retry_loop].
    destruct (func s) as [[a|e] s1]; [reflexivity|].
    destruct (LeadResearchAgent.is_transient e); [|reflexivity].
    replace (j <? n - 1)%nat with false; [reflexivity|].
    symmetry. apply Nat.ltb_ge. lia.
  - change (seq j (S (S k))) with (j :: seq (S j) (S k)).
    cbn [LeadResearchAgent.retry_loop].
    destruct (func s) as [[a|e] s1] eqn:E.
    + exists s. now rewrite E.
    + destruct (LeadResearchAgent.is_transient e).
      * destruct (j <? n - 1)%nat.
        -- unfold bind. cbn [sleep].
           apply (IH (S j)). lia.
        -- exists s. now rewrite E.
      * exists s. now rewrite E.
Qed.

Lemma retry_outcome_is_an_attempt {A} (func : M A) (n : nat) (bd : Q) s :
  (1 <= n)%nat ->
  exists s', LeadResearchAgent._retry_with_backoff func n bd s = func s'.
Proof.
  intros Hn. unfold LeadResearchAgent._retry_with_backoff, Py.range.
  destruct n as [|n]; [lia|].
  replace (S n - 0)%nat with (S n) by lia.
  apply retry_loop_outcome_is_an_attempt. lia.
Qed.

(** Against an operation that always raises a transient failure the loop
    makes every attempt, sleeps between them, and ends with the outcome
    of the last one. *)
Lemma retry_loop_always_transient {A} (func : M A) (n : nat) (bd : Q) :
  always_transient func ->
  forall k j s, (j + S k = n)%nat ->
    LeadResearchAgent.retry_loop func n bd (seq j (S k)) s
    = attempts_from func bd j k s.
Proof.
  intros Hf. induction k as [|k IH]; intros j s Hn.
  - cbn [seq LeadResearchAgent.retry_loop attempts_from].
    destruct (Hf s) as (e & He & Ht).
    destruct (func s) as [r s1]. cbn in He. subst r. rewrite Ht.
    replace (j <? n - 1)%nat with false; [reflexivity|].
    symmetry. apply Nat.ltb_ge. lia.
  - change (seq j (S (S k))) with (j :: seq (S j) (S k)).
    cbn [LeadResearchAgent.retry_loop attempts_from].
    destruct (Hf s) as (e & He & Ht).
    destruct (func s) as [r s1]. cbn in He. subst r. rewrite Ht.
    replace (j <? n - 1)%nat with true
      by (symmetry; apply Nat.ltb_lt; lia).
    unfold bind. cbn [sleep snd]. apply (IH (S j)). lia.
Qed.

Lemma retry_fatal_propagates {A} (func : M A) (n : nat) (bd : Q) s e s1 :
  (1 <= n)%nat ->
  func s = (Raise e, s1) ->
  LeadResearchAgent.is_transient e = false ->
  LeadResearchAgent._retry_with_backoff func n bd s = (Raise e, s1).
Proof.
  intros Hn He Ht. unfold LeadResearchAgent._retry_with_backoff, Py.range.
  destruct n as [|n]; [lia|].
  replace (S n - 0)%nat with (S n) by lia.
  change (seq 0 (S n)) with (0%nat :: seq 1 n).
  cbn [LeadResearchAgent.retry_loop]. now rewrite He, Ht.
Qed.

(** The failure built after the loop is raised when no attempt is made. *)
Lemma retry_zero_attempts {A} (func : M A) (bd : Q) s :
  LeadResearchAgent._retry_with_backoff func 0 bd s
  = (Raise (Exception "Failed after 0 attempts"), s).
Proof. reflexivity. Qed.

(** C1, the behaviour of the code. With [max_retries = 3], an operation
    that always raises a transient failure is called three times, with a
    sleep after the first and after the second call, and the failure
    raised by the third call is raised again as it is: it is transient,
    so it is not the failure "Failed after 3 attempts". An operation
    that raises a failure without transient signature is called once and
    its failure is raised at once. *)
Theorem retry_three_attempts_reraise_last {A} (func : M A) (base_delay : Q)
    (s : State) :
  (always_transient func ->
   let s1 := snd (func s) in
   let s2 :=
     snd (func (snd (sleep (base_delay * inject_Z (2 ^ 0))%Q s1))) in
   let third := func (snd (sleep (base_delay * inject_Z (2 ^ 1))%Q s2)) in
   LeadResearchAgent._retry_with_backoff func 3 base_delay s = third
   /\ exists e, fst third = Raise e
        /\ LeadResearchAgent.is_transient e = true
        /\ e <> Exception "Failed after 3 attempts")
  /\ (forall e s1, func s = (Raise e, s1) ->
        LeadResearchAgent.is_transient e = false ->
        LeadResearchAgent._retry_with_backoff func 3 base_delay s
        = (Raise e, s1)).
Proof.
  split.
  - intros Hf. cbv zeta. split.
    + unfold LeadResearchAgent._retry_with_backoff, Py.range.
      change (seq 0 (3 - 0)) with (seq 0 3).
      rewrite (retry_loop_always_transient func 3 base_delay Hf 2 0 s eq_refl).
      reflexivity.
    + match goal with |- exists e, fst (func ?st) = _ /\ _ =>
        destruct (Hf st) as (e & He & Ht) end.
      exists e. repeat split; try assumption.
      intros ->. vm_compute in Ht. discriminate Ht.
  - intros e s1 He Ht. apply retry_fatal_propagates; [lia|assumption..].
Qed.

Lemma retry_three_attempts_reraise_last_witness :
  let func : M string := raise (Exception "500 Internal Server Error") in
  let s := sample_state (const_platform (Ok "fine")) in
  fst (LeadResearchAgent._retry_with_backoff func 3 5%Q s)
  = Raise (Exception "500 Internal Server Error")
  /\ clock (snd (LeadResearchAgent._retry_with_backoff func 3 5%Q s))
     = (1000 + 1 + 5 + 2 + 10)%Q.
Proof.
  cbv zeta. split.
  - destruct (retry_three_attempts_reraise_last
                (raise (Exception "500 Internal Server Error") : M string)
                5%Q (sample_state (const_platform (Ok "fine")))) as [H _].
    destruct H as [Heq _].
    + intros s. exists (Exception "500 Internal Server Error").
      split; reflexivity.
    + rewrite Heq. reflexivity.
  - vm_compute. reflexivity.
Defined.

(* ================================================================== *)
(** * How the operations move the state *)
(* ================================================================== *)

Lemma extends_refl (s : State) : extends s s.
Proof.
  repeat split; try reflexivity; exists []; now rewrite app_nil_r.
Qed.

Lemma extends_trans (s1 s2 s3 : State) :
  extends s1 s2 -> extends s2 s3 -> extends s1 s3.
Proof.
  intros (Hp & [h Hh] & [t Ht]) (Hp' & [h' Hh'] & [t' Ht']).
  repeat split.
  - congruence.
  - exists (h ++ h')%list. rewrite Hh', Hh. now rewrite app_assoc.
  - exists (t ++ t')%list. rewrite Ht', Ht. now rewrite app_assoc.
Qed.

Lemma tick_extends (s : State) : extends s (tick s).
Proof.
  unfold tick. destruct (ticks s); [apply extends_refl|].
  repeat split; try reflexivity; exists []; cbn; now rewrite app_nil_r.
Qed.

Lemma tick_same_store (s : State) : same_store s (tick s).
Proof. unfold tick. destruct (ticks s); repeat split. Qed.

Lemma same_store_refl (s : State) : same_store s s.
Proof. repeat split. Qed.

Lemma same_store_trans (s1 s2 s3 : State) :
  same_store s1 s2 -> same_store s2 s3 -> same_store s1 s3.
Proof. intros (?&?&?) (?&?&?). repeat split; congruence. Qed.

Lemma monotone_ret {A} (a : A) : monotone (ret a).
Proof. intros s. apply extends_refl. Qed.

Lemma monotone_raise {A} (e : Exn) : monotone (raise e : M A).
Proof. intros s. apply extends_refl. Qed.

Lemma monotone_get : monotone get.
Proof. intros s. apply extends_refl. Qed.

Lemma monotone_bind {A B} (m : M A) (k : A -> M B) :
  monotone m -> (forall a, monotone (k a)) -> monotone (bind m k).
Proof.
  intros Hm Hk s. unfold bind. specialize (Hm s).
  destruct (m s) as [[a|e] s1]; cbn in *; [|assumption].
  eapply extends_trans; [exact Hm|apply Hk].
Qed.

Lemma monotone_time_time : monotone time_time.
Proof. intros s. apply tick_extends. Qed.

Lemma monotone_sleep (d : Q) : monotone (sleep d).
Proof.
  intros s. eapply extends_trans; [apply tick_extends|].
  repeat split; try reflexivity; exists []; cbn; now rewrite app_nil_r.
Qed.

Lemma monotone_runner_run (c : Call) : monotone (runner_run c).
Proof.
  intros s. eapply extends_trans; [apply tick_extends|].
  repeat split; try reflexivity; cbn.
  - now exists [c].
  - exists []. now rewrite app_nil_r.
Qed.

Lemma monotone_alloc_citation (c : Citation) : monotone (alloc_citation c).
Proof.
  intros s. repeat split; try reflexivity; exists []; cbn;
    now rewrite app_nil_r.
Qed.

Lemma monotone_alloc_list (l : list nat) : monotone (alloc_list l).
Proof.
  intros s. repeat split; try reflexivity; exists []; cbn;
    now rewrite app_nil_r.
Qed.

Lemma monotone_read_list (l : nat) : monotone (read_list l).
Proof. intros s. apply extends_refl. Qed.

Lemma monotone_alloc_citations (cs : list Citation) :
  monotone (alloc_citations cs).
Proof.
  induction cs as [|c cs IH]; cbn [alloc_citations].
  - apply monotone_ret.
  - apply monotone_bind; [apply monotone_alloc_citation|intros a].
    apply monotone_bind; [exact IH|intros ?; apply monotone_ret].
Qed.

Lemma monotone_foldM {A B} (f : B -> A -> M B) (l : list A) :
  (forall b x, monotone (f b x)) -> forall b, monotone (foldM f l b).
Proof.
  intros Hf. induction l as [|x l IH]; intros b; cbn [foldM].
  - apply monotone_ret.
  - apply monotone_bind; [apply Hf|exact IH].
Qed.

Lemma monotone_for_each {A} (l : list A) (body : A -> M unit) :
  (forall x, monotone (body x)) -> monotone (for_each l body).
Proof. intros H. apply monotone_foldM. intros _ x. apply H. Qed.

Lemma monotone_gather {A} (coros : list (M A)) :
  Forall monotone coros -> monotone (gather coros).
Proof.
  induction 1 as [|c coros Hc _ IH]; cbn [gather].
  - apply monotone_ret.
  - intros s. specialize (Hc s). destruct (c s) as [r s1]. cbn in Hc.
    specialize (IH s1). destruct (gather coros s1) as [[rs|e] s2];
      cbn in *; eapply extends_trans; eassumption.
Qed.

Lemma monotone_retry_loop {A} (func : M A) (n : nat) (bd : Q)
    (attempts : list nat) :
  monotone func -> monotone (LeadResearchAgent.retry_loop func n bd attempts).
Proof.
  intros Hf. induction attempts as [|a rest IH];
    cbn [LeadResearchAgent.retry_loop].
  - apply monotone_raise.
  - intros s. specialize (Hf s). destruct (func s) as [[x|e] s1];
      cbn [snd] in Hf; cbv beta iota; [assumption|].
    destruct (LeadResearchAgent.is_transient e); [|assumption].
    destruct (a <? n - 1)%nat; [|assumption].
    eapply extends_trans; [exact Hf|].
    apply (monotone_bind (sleep _) (fun _ => _)
             (monotone_sleep _) (fun _ => IH)).
Qed.

Lemma monotone_retry {A} (func : M A) (n : nat) (bd : Q) :
  monotone func -> monotone (LeadResearchAgent._retry_with_backoff func n bd).
Proof. apply monotone_retry_loop. Qed.

Lemma monotone_rate_limit : monotone LeadResearchAgent._rate_limit.
Proof.
  unfold LeadResearchAgent._rate_limit.
  apply monotone_bind; [apply monotone_time_time|intros t].
  apply monotone_bind; [apply monotone_get|intros s0].
  apply monotone_bind.
  - destruct (LeadResearchAgent.Qltb _ _);
      [apply monotone_sleep|apply monotone_ret].
  - intros _. apply monotone_bind; [apply monotone_time_time|intros t'].
    intros s. repeat split; try reflexivity; exists []; cbn;
      now rewrite app_nil_r.
Qed.

Lemma monotone_log (ag ac : string) (d : option Q) (su : bool) (de : string) :
  monotone (LeadResearchAgent._log_execution ag ac d su de).
Proof.
  unfold LeadResearchAgent._log_execution.
  apply monotone_bind; [apply monotone_time_time|intros t].
  intros s. repeat split; try reflexivity; cbn.
  - exists []. now rewrite app_nil_r.
  - eexists. reflexivity.
Qed.

Lemma monotone_search (q ctx : string) : monotone (SearchAgent.search q ctx).
Proof.
  unfold SearchAgent.search.
  apply monotone_bind; [apply monotone_runner_run|intros out].
  apply monotone_bind; [apply monotone_alloc_citations|intros addrs].
  apply monotone_bind; [apply monotone_alloc_list|intros l].
  apply monotone_ret.
Qed.

Lemma monotone_reflect (c ctx : string) :
  monotone (ReflectionAgent.reflect c ctx).
Proof.
  unfold ReflectionAgent.reflect.
  apply monotone_bind; [apply monotone_runner_run|intros out].
  apply monotone_bind; [apply monotone_alloc_list|intros l].
  apply monotone_ret.
Qed.

Lemma monotone_set_attributes (a : nat) :
  monotone (CitationsAgent.set_attributes a).
Proof.
  intros s. repeat split; try reflexivity; exists []; cbn;
    now rewrite app_nil_r.
Qed.

Lemma monotone_create_citations (l : nat) (style : string) :
  monotone (CitationsAgent.create_citations l style).
Proof.
  unfold CitationsAgent.create_citations.
  apply monotone_bind; [apply monotone_get|intros s0].
  apply monotone_bind; [apply monotone_runner_run|intros out].
  apply monotone_bind; [apply monotone_read_list|intros elems].
  apply monotone_bind; [|intros ?; apply monotone_ret].
  apply monotone_for_each. apply monotone_set_attributes.
Qed.

Lemma monotone_len_sources (r : ResearchResult) :
  monotone (LeadResearchAgent.len_sources r).
Proof.
  unfold LeadResearchAgent.len_sources.
  apply monotone_bind; [apply monotone_read_list|intros ?; apply monotone_ret].
Qed.

Lemma monotone_search_wrapper reqs task num :
  monotone (LeadResearchAgent.search_task_wrapper reqs task num).
Proof.
  unfold LeadResearchAgent.search_task_wrapper.
  apply monotone_bind; [apply monotone_rate_limit|intros _].
  apply monotone_bind; [apply monotone_log|intros _].
  apply monotone_bind; [apply monotone_retry, monotone_search|intros r].
  apply monotone_bind; [apply monotone_len_sources|intros n].
  apply monotone_bind; [apply monotone_log|intros _]. apply monotone_ret.
Qed.

Lemma monotone_reflection_wrapper task c num :
  monotone (LeadResearchAgent.reflection_task_wrapper task c num).
Proof.
  unfold LeadResearchAgent.reflection_task_wrapper.
  apply monotone_bind; [apply monotone_rate_limit|intros _].
  apply monotone_bind; [apply monotone_log|intros _].
  apply monotone_bind; [apply monotone_retry, monotone_reflect|intros r].
  apply monotone_bind; [apply monotone_log|intros _]. apply monotone_ret.
Qed.

Lemma monotone_record_search acc ir :
  monotone (LeadResearchAgent.record_search_outcome acc ir).
Proof.
  unfold LeadResearchAgent.record_search_outcome. destruct (snd ir).
  - apply monotone_bind; [apply monotone_len_sources|intros n].
    apply monotone_bind; [apply monotone_log|intros _]. apply monotone_ret.
  - apply monotone_bind; [apply monotone_log|intros _]. apply monotone_ret.
Qed.

Lemma monotone_record_reflection acc ir :
  monotone (LeadResearchAgent.record_reflection_outcome acc ir).
Proof.
  unfold LeadResearchAgent.record_reflection_outcome. destruct (snd ir);
    (apply monotone_bind; [apply monotone_log|intros _]; apply monotone_ret).
Qed.

Lemma monotone_list_extend (l : nat) (xs : list nat) :
  monotone (LeadResearchAgent.list_extend l xs).
Proof.
  intros s. repeat split; try reflexivity; exists []; cbn;
    now rewrite app_nil_r.
Qed.

Lemma monotone_collect_sources srs :
  monotone (LeadResearchAgent.collect_sources srs).
Proof.
  unfold LeadResearchAgent.collect_sources.
  apply monotone_bind; [apply monotone_alloc_list|intros l].
  apply monotone_bind; [|intros ?; apply monotone_ret].
  apply monotone_for_each. intros r.
  apply monotone_bind; [apply monotone_read_list|intros xs].
  apply monotone_list_extend.
Qed.

Lemma monotone_citation_task l acc it :
  monotone (LeadResearchAgent.citation_task l acc it).
Proof.
  unfold LeadResearchAgent.citation_task.
  apply monotone_bind; [apply monotone_rate_limit|intros _].
  apply monotone_bind; [apply monotone_log|intros _].
  apply monotone_bind;
    [apply monotone_retry, monotone_create_citations|intros c].
  apply monotone_bind; [apply monotone_read_list|intros elems].
  apply monotone_bind; [apply monotone_log|intros _]. apply monotone_ret.
Qed.

Lemma monotone_citation_stage cts srs :
  monotone (LeadResearchAgent.citation_stage cts srs).
Proof.
  unfold LeadResearchAgent.citation_stage.
  destruct (LeadResearchAgent.nonempty cts); [|apply monotone_ret].
  apply monotone_bind; [apply monotone_collect_sources|intros l].
  apply monotone_bind; [apply monotone_read_list|intros elems].
  destruct (LeadResearchAgent.nonempty elems); [|apply monotone_ret].
  apply monotone_foldM. intros acc it. apply monotone_citation_task.
Qed.

Lemma never_raises_rate_limit : never_raises LeadResearchAgent._rate_limit.
Proof.
  intros s. unfold LeadResearchAgent._rate_limit, bind, time_time, get,
    modify, sleep, ret.
  destruct (LeadResearchAgent.Qltb _ _); eexists; reflexivity.
Qed.

Lemma never_raises_log ag ac d su de :
  never_raises (LeadResearchAgent._log_execution ag ac d su de).
Proof. intros s. eexists. reflexivity. Qed.

Lemma stable_called (c : Call) : stable (called c).
Proof.
  intros s s' (_ & [h Hh] & _) Hc. unfold called in *.
  rewrite Hh. apply in_or_app. now left.
Qed.

Lemma stable_traced ag ac su de : stable (traced ag ac su de).
Proof.
  intros s s' (_ & _ & [t Ht]) (e & Hin & Hrest). exists e.
  split; [|exact Hrest]. rewrite Ht. apply in_or_app. now left.
Qed.

Lemma establishes_bind_l {A B} (m : M A) (k : A -> M B) P :
  stable P -> establishes m P -> (forall a, monotone (k a)) ->
  establishes (bind m k) P.
Proof.
  intros HP Hm Hk s. unfold bind. specialize (Hm s).
  destruct (m s) as [[a|e] s1]; cbn [snd] in *; [|assumption].
  eapply HP; [apply Hk|assumption].
Qed.

Lemma establishes_bind_r {A B} (m : M A) (k : A -> M B) P :
  never_raises m -> (forall a, establishes (k a) P) ->
  establishes (bind m k) P.
Proof.
  intros Hm Hk s. unfold bind. destruct (Hm s) as [a Ha].
  destruct (m s) as [r s1]. cbn [fst] in Ha. subst r. apply Hk.
Qed.

Lemma establishes_retry {A} (func : M A) (n : nat) (bd : Q) P :
  (1 <= n)%nat -> establishes func P ->
  establishes (LeadResearchAgent._retry_with_backoff func n bd) P.
Proof.
  intros Hn Hf s.
  destruct (retry_outcome_is_an_attempt func n bd s Hn) as [s' ->].
  apply Hf.
Qed.

Lemma establishes_gather {A} (coros : list (M A)) (c : M A) P :
  stable P -> Forall monotone coros -> In c coros -> establishes c P ->
  establishes (gather coros) P.
Proof.
  intros HP Hmono Hin Hc. induction Hmono as [|c0 coros Hc0 Hmono IH].
  - destruct Hin.
  - intros s. cbn [gather].
    destruct Hin as [->|Hin].
    + pose proof (Hc s) as H. destruct (c s) as [r s1]. cbn [snd] in H.
      pose proof (monotone_gather coros Hmono s1) as Hg.
      destruct (gather coros s1) as [[rs|e] s2]; cbn [snd] in *;
        eapply HP; eassumption.
    + destruct (c0 s) as [r s1].
      pose proof (IH Hin s1) as H.
      destruct (gather coros s1) as [[rs|e] s2]; cbn [snd] in *; exact H.
Qed.

Lemma establishes_runner_run (c : Call) : establishes (runner_run c) (called c).
Proof.
  intros s. unfold called. cbn. apply in_or_app. right. now left.
Qed.

Lemma establishes_log ag ac d su de :
  establishes (LeadResearchAgent._log_execution ag ac d su de)
              (traced ag ac su de).
Proof.
  intros s. unfold traced. cbn. eexists. split.
  - apply in_or_app. right. left. reflexivity.
  - repeat split.
Qed.

(** The reflection wrapper hands the task off and calls the reflection
    agent with the content it was created with. *)
Lemma reflection_wrapper_calls task c num :
  establishes (LeadResearchAgent.reflection_task_wrapper task c num)
    (fun s =>
       called (ReflectCall c ("Task: " ++ description task)) s
       /\ traced "LeadResearchAgent"
            ("handoff_to_reflection_" ++ Py.str_of_nat num) true
            ("Handing off to Reflection Agent for: " ++ description task) s).
Proof.
  intros s. split.
  - revert s. unfold LeadResearchAgent.reflection_task_wrapper.
    apply establishes_bind_r; [apply never_raises_rate_limit|intros _].
    apply establishes_bind_r; [apply never_raises_log|intros _].
    apply establishes_bind_l; [apply stable_called| |].
    + apply establishes_retry; [lia|].
      unfold ReflectionAgent.reflect.
      apply establishes_bind_l;
        [apply stable_called|apply establishes_runner_run|intros out].
      apply monotone_bind; [apply monotone_alloc_list|intros l].
      apply monotone_ret.
    + intros r. apply monotone_bind; [apply monotone_log|intros _].
      apply monotone_ret.
  - revert s. unfold LeadResearchAgent.reflection_task_wrapper.
    apply establishes_bind_r; [apply never_raises_rate_limit|intros _].
    apply establishes_bind_l;
      [apply stable_traced|apply establishes_log|intros _].
    apply monotone_bind; [apply monotone_retry, monotone_reflect|intros r].
    apply monotone_bind; [apply monotone_log|intros _]. apply monotone_ret.
Qed.

Lemma enumerate_nth {A} (l : list A) (j k : nat) (x : A) :
  nth_error l k = Some x -> In ((j + k)%nat, x) (Py.enumerate j l).
Proof.
  revert j k. induction l as [|y l IH]; intros j [|k] H; try discriminate.
  - inversion H; subst. left. f_equal. lia.
  - right. replace (j + S k)%nat with (S j + k)%nat by lia. now apply IH.
Qed.

Lemma reflection_coroutines_loop (rts : list Task)
    (srs : list ResearchResult) :
  srs <> [] ->
  forall j acc s,
    foldM (fun coros it =>
             bind (LeadResearchAgent.search_content_at srs (fst it))
               (fun search_content =>
                  ret (coros ++ [LeadResearchAgent.reflection_task_wrapper
                                   (snd it) search_content (fst it)])%list))
          (Py.enumerate j rts) acc s
    = (Ok (acc ++ map (fun it => LeadResearchAgent.reflection_task_wrapper
                          (snd it) (bound_content srs (fst it)) (fst it))
                      (Py.enumerate j rts))%list, s).
Proof.
  intros Hne. induction rts as [|t rts IH]; intros j acc s;
    cbn [Py.enumerate foldM map].
  - now rewrite app_nil_r.
  - unfold bind at 1. unfold bind at 1.
    unfold LeadResearchAgent.search_content_at at 1, bound_content at 1.
    cbn [fst snd].
    assert (Hlt : (j mod length srs < length srs)%nat).
    { apply Nat.mod_upper_bound. destruct srs; [congruence|discriminate]. }
    destruct (nth_error srs (j mod length srs)) as [r|] eqn:E.
    + cbn [ret]. rewrite IH. now rewrite <- app_assoc.
    + apply nth_error_None in E. lia.
Qed.

(** The loop that creates the reflection coroutines: task number [i]
    gets the content of the search result at index [i mod n]. *)
Lemma reflection_coroutines_spec (rts : list Task)
    (srs : list ResearchResult) (s : State) :
  srs <> [] ->
  LeadResearchAgent.reflection_coroutines rts srs s
  = (Ok (map (fun it => LeadResearchAgent.reflection_task_wrapper
                          (snd it) (bound_content srs (fst it)) (fst it))
             (Py.enumerate 1 rts)), s).
Proof.
  intros Hne. unfold LeadResearchAgent.reflection_coroutines.
  now rewrite reflection_coroutines_loop.
Qed.

Lemma stable_and (P Q : State -> Prop) :
  stable P -> stable Q -> stable (fun s => P s /\ Q s).
Proof. intros HP HQ s s' He [Hp Hq]. split; [eapply HP|eapply HQ]; eauto. Qed.

Lemma nonempty_nth {A} (l : list A) (k : nat) (x : A) :
  nth_error l k = Some x -> LeadResearchAgent.nonempty l = true.
Proof. destruct l; [destruct k; discriminate|reflexivity]. Qed.

Lemma nonempty_ne {A} (l : list A) :
  l <> [] -> LeadResearchAgent.nonempty l = true.
Proof. destruct l; [congruence|reflexivity]. Qed.

(** The reflection stage, entered with at least one search result: the
    task at position [k], numbered [k + 1], is handed off and the
    reflection agent is called with the content bound to that number. *)
Lemma reflection_stage_binds (rts : list Task) (srs : list ResearchResult)
    (k : nat) (task : Task) :
  srs <> [] -> nth_error rts k = Some task ->
  establishes (LeadResearchAgent.reflection_stage rts srs)
    (fun s =>
       called (ReflectCall (bound_content srs (k + 1))
                           ("Task: " ++ description task)) s
       /\ traced "LeadResearchAgent"
            ("handoff_to_reflection_" ++ Py.str_of_nat (k + 1)) true
            ("Handing off to Reflection Agent for: " ++ description task) s).
Proof.
  intros Hne Hk s. unfold LeadResearchAgent.reflection_stage.
  rewrite (nonempty_nth _ _ _ Hk), (nonempty_ne _ Hne). cbn [andb].
  rewrite (bind_ok _ _ _ _ _ (reflection_coroutines_spec rts srs s Hne)).
  revert s.
  apply (establishes_bind_l _ _
           (fun s =>
              called (ReflectCall (bound_content srs (k + 1))
                                  ("Task: " ++ description task)) s
              /\ traced "LeadResearchAgent"
                   ("handoff_to_reflection_" ++ Py.str_of_nat (k + 1)) true
                   ("Handing off to Reflection Agent for: "
                    ++ description task) s)).
  - apply stable_and; [apply stable_called|apply stable_traced].
  - eapply establishes_gather.
    + apply stable_and; [apply stable_called|apply stable_traced].
    + apply Forall_forall. intros c Hc. apply in_map_iff in Hc.
      destruct Hc as (it & <- & _). apply monotone_reflection_wrapper.
    + apply in_map_iff. exists ((1 + k)%nat, task). split; [reflexivity|].
      now apply enumerate_nth.
    + cbn [fst snd]. replace (1 + k)%nat with (k + 1)%nat by lia.
      apply reflection_wrapper_calls.
  - intros outs. apply monotone_foldM. intros acc ir.
    apply monotone_record_reflection.
Qed.

(** C2, as amended. When the search stage of a plan leaves at least one
    result, every reflection task of the plan is run: the task at
    position [k] of the reflection tasks, which the loop numbers [k + 1],
    is handed off and the reflection agent is called with the content of
    the search result at index [(k + 1) mod n], [n] being the number of
    search results; with more reflection tasks than results the contents
    are used again in a cycle. *)
Theorem reflection_tasks_bound_cyclically (plan : ResearchPlan)
    (requirements : ResearchRequirement) (s : State)
    (srs : list ResearchResult) :
  fst (LeadResearchAgent.search_stage requirements
         (LeadResearchAgent.by_agent "Search" (tasks plan)) s) = Ok srs ->
  srs <> [] ->
  let final :=
    snd (LeadResearchAgent._execute_research_plan plan requirements s) in
  forall k task,
    nth_error (LeadResearchAgent.by_agent "Reflection" (tasks plan)) k
    = Some task ->
    exists r,
      nth_error srs ((k + 1) mod length srs) = Some r
      /\ called (ReflectCall (content r) ("Task: " ++ description task)) final
      /\ traced "LeadResearchAgent"
           ("handoff_to_reflection_" ++ Py.str_of_nat (k + 1)) true
           ("Handing off to Reflection Agent for: " ++ description task)
           final.
Proof.
  intros Hs Hne final k task Hk.
  assert (Hlt : ((k + 1) mod length srs < length srs)%nat).
  { apply Nat.mod_upper_bound. destruct srs; [congruence|discriminate]. }
  destruct (nth_error srs ((k + 1) mod length srs)) as [r|] eqn:E;
    [|apply nth_error_None in E; lia].
  exists r. split; [reflexivity|].
  assert (Hb : bound_content srs (k + 1) = content r).
  { unfold bound_content. now rewrite E. }
  rewrite <- Hb. subst final.
  unfold LeadResearchAgent._execute_research_plan.
  destruct (LeadResearchAgent.search_stage _ _ s) as [r0 s1] eqn:Es.
  cbn [fst] in Hs. subst r0.
  rewrite (bind_ok _ _ _ _ _ Es).
  generalize s1.
  apply (establishes_bind_l _ _
           (fun s =>
              called (ReflectCall (bound_content srs (k + 1))
                                  ("Task: " ++ description task)) s
              /\ traced "LeadResearchAgent"
                   ("handoff_to_reflection_" ++ Py.str_of_nat (k + 1)) true
                   ("Handing off to Reflection Agent for: "
                    ++ description task) s)).
  - apply stable_and; [apply stable_called|apply stable_traced].
  - now apply reflection_stage_binds.
  - intros rrs. apply monotone_bind;
      [apply monotone_citation_stage|intros c; apply monotone_ret].
Qed.

Lemma reflection_tasks_bound_cyclically_witness :
  let final :=
    snd (LeadResearchAgent._execute_research_plan deep_plan
           sample_requirements (sample_state numbering_platform)) in
  map content sample_search_results = ["finding 0"; "finding 1"]
  /\ called (ReflectCall "finding 1" "Task: Analyze conflicting information")
            final
  /\ called (ReflectCall "finding 0" "Task: Synthesize all findings") final.
Proof.
  cbv zeta. split; [vm_compute; reflexivity|]. split.
  - destruct (reflection_tasks_bound_cyclically deep_plan sample_requirements
                (sample_state numbering_platform) sample_search_results)
      with (k := 0%nat)
           (task := PlanningAgent.mk_task "analyze_conflicts"
                      "Analyze conflicting information" "Reflection"
                      "10-15 min")
      as (r & Hr & Hc & _).
    + vm_compute. reflexivity.
    + discriminate.
    + reflexivity.
    + vm_compute in Hr. inversion Hr; subst r. exact Hc.
  - destruct (reflection_tasks_bound_cyclically deep_plan sample_requirements
                (sample_state numbering_platform) sample_search_results)
      with (k := 1%nat)
           (task := PlanningAgent.mk_task "synthesize_findings"
                      "Synthesize all findings" "Reflection" "10-15 min")
      as (r & Hr & Hc & _).
    + vm_compute. reflexivity.
    + discriminate.
    + reflexivity.
    + vm_compute in Hr. inversion Hr; subst r. exact Hc.
Defined.

Lemma first_reflection_task_reads_second_result :
  let final :=
    snd (LeadResearchAgent._execute_research_plan deep_plan
           sample_requirements (sample_state numbering_platform)) in
  map content sample_search_results = ["finding 0"; "finding 1"]
  /\ nth_error (LeadResearchAgent.by_agent "Reflection" (tasks deep_plan)) 0
     = Some (PlanningAgent.mk_task "analyze_conflicts"
               "Analyze conflicting information" "Reflection" "10-15 min")
  /\ (0 mod 2 = 0)%nat
  /\ called (ReflectCall "finding 1" "Task: Analyze conflicting information")
            final
  /\ ~ called (ReflectCall "finding 0"
                 "Task: Analyze conflicting information") final.
Proof.
  cbv zeta. split; [vm_compute; reflexivity|].
  split; [reflexivity|]. split; [reflexivity|]. split.
  - unfold called. vm_compute. tauto.
  - unfold called. vm_compute. intros H.
    repeat (destruct H as [H|H]; [discriminate H|]). exact H.
Qed.

(* ================================================================== *)
(** * Failure capture in the search stage *)
(* ================================================================== *)

Lemma gather_total {A} (coros : list (M A)) (s : State) :
  exists outs s1, gather coros s = (Ok outs, s1)
                  /\ length outs = length coros.
Proof.
  revert s. induction coros as [|c coros IH]; intros s; cbn [gather].
  - exists [], s. split; reflexivity.
  - destruct (c s) as [r s1]. destruct (IH s1) as (outs & s2 & -> & Hlen).
    exists (r :: outs), s2. split; [reflexivity|]. cbn. now rewrite Hlen.
Qed.

Lemma record_search_ok acc j result s :
  exists s1,
    LeadResearchAgent.record_search_outcome acc (j, Ok result) s
    = (Ok (acc ++ [result])%list, s1).
Proof. eexists. reflexivity. Qed.

Lemma record_search_failed acc j e s :
  exists s1,
    LeadResearchAgent.record_search_outcome acc (j, Raise e) s = (Ok acc, s1)
    /\ traced "SearchAgent"
         ("search_task_" ++ Py.str_of_nat (j + 1) ++ "_failed") false
         (str_of_exn e) s1.
Proof.
  eexists. split; [reflexivity|].
  eexists. split; [apply in_or_app; right; left; reflexivity|].
  repeat split.
Qed.

(** The loop over the outcomes of the search tasks: the results kept are
    those of the tasks that did not fail, in order, and every failure is
    traced as failed with the text of its exception. *)
Lemma record_search_outcomes (outs : list (Result ResearchResult)) :
  forall j acc s,
    fst (foldM LeadResearchAgent.record_search_outcome
               (Py.enumerate j outs) acc s)
    = Ok (acc ++ successes outs)%list
    /\ forall i e, nth_error outs i = Some (Raise e) ->
         traced "SearchAgent"
           ("search_task_" ++ Py.str_of_nat (j + i + 1) ++ "_failed") false
           (str_of_exn e)
           (snd (foldM LeadResearchAgent.record_search_outcome
                       (Py.enumerate j outs) acc s)).
Proof.
  induction outs as [|[r|e] outs IH]; intros j acc s;
    cbn [Py.enumerate foldM successes].
  - split; [cbn; now rewrite app_nil_r|]. intros [|i] e0 H; discriminate.
  - destruct (record_search_ok acc j r s) as [s1 E].
    rewrite (bind_ok _ _ _ _ _ E).
    destruct (IH (S j) (acc ++ [r])%list s1) as [Hres Htr].
    split; [now rewrite Hres, <- app_assoc|].
    intros [|i] e0 H; [discriminate|].
    replace (j + S i + 1)%nat with (S j + i + 1)%nat by lia.
    now apply Htr.
  - destruct (record_search_failed acc j e s) as (s1 & E & Ht).
    rewrite (bind_ok _ _ _ _ _ E).
    destruct (IH (S j) acc s1) as [Hres Htr].
    split; [exact Hres|].
    intros [|i] e0 H.
    + inversion H; subst e0. rewrite Nat.add_0_r.
      eapply stable_traced; [|exact Ht].
      apply monotone_foldM. intros b x. apply monotone_record_search.
    + replace (j + S i + 1)%nat with (S j + i + 1)%nat by lia.
      now apply Htr.
Qed.

Lemma search_wrapper_hands_off reqs task num :
  establishes (LeadResearchAgent.search_task_wrapper reqs task num)
    (traced "LeadResearchAgent"
       ("handoff_to_search_" ++ Py.str_of_nat num) true
       ("Handing off to Search Agent for: " ++ description task)).
Proof.
  unfold LeadResearchAgent.search_task_wrapper.
  apply establishes_bind_r; [apply never_raises_rate_limit|intros _].
  apply establishes_bind_l;
    [apply stable_traced|apply establishes_log|intros _].
  apply monotone_bind; [apply monotone_retry, monotone_search|intros r].
  apply monotone_bind; [apply monotone_len_sources|intros n].
  apply monotone_bind; [apply monotone_log|intros _]. apply monotone_ret.
Qed.

(** The search stage never raises: the outcomes of the wrappers, one per
    task, are joined; the results it returns are those of the wrappers
    that did not fail; every failure is traced as failed; and every task
    is handed off to the search agent, whatever the others did. *)
Lemma search_stage_isolates_failures reqs (sts : list Task) (s : State) :
  exists outs s1,
    gather (map (fun it => LeadResearchAgent.search_task_wrapper reqs
                             (snd it) (fst it))
                (Py.enumerate 1 sts)) s = (Ok outs, s1)
    /\ length outs = length sts
    /\ fst (LeadResearchAgent.search_stage reqs sts s) = Ok (successes outs)
    /\ (forall i e, nth_error outs i = Some (Raise e) ->
          traced "SearchAgent"
            ("search_task_" ++ Py.str_of_nat (i + 1) ++ "_failed") false
            (str_of_exn e) (snd (LeadResearchAgent.search_stage reqs sts s)))
    /\ (forall k task, nth_error sts k = Some task ->
          traced "LeadResearchAgent"
            ("handoff_to_search_" ++ Py.str_of_nat (k + 1)) true
            ("Handing off to Search Agent for: " ++ description task)
            (snd (LeadResearchAgent.search_stage reqs sts s))).
Proof.
  destruct (gather_total
              (map (fun it => LeadResearchAgent.search_task_wrapper reqs
                                (snd it) (fst it))
                   (Py.enumerate 1 sts)) s) as (outs & s1 & Eg & Hlen).
  assert (Hlen' : length outs = length sts).
  { rewrite Hlen, length_map. clear. generalize 1%nat.
    induction sts as [|t sts IH]; intros j; cbn; [reflexivity|].
    now rewrite IH. }
  exists outs, s1. split; [exact Eg|]. split; [exact Hlen'|].
  unfold LeadResearchAgent.search_stage.
  destruct sts as [|t0 sts0] eqn:Ests.
  - destruct outs; [|discriminate]. cbn.
    split; [reflexivity|]. split.
    + intros [|i] e H; discriminate.
    + intros [|k] task H; discriminate.
  - rewrite <- Ests in *. cbn [LeadResearchAgent.nonempty].
    replace (LeadResearchAgent.nonempty sts) with true
      by (now rewrite Ests).
    rewrite (bind_ok _ _ _ _ _ Eg).
    destruct (record_search_outcomes outs 0 [] s1) as [Hres Htr].
    split; [exact Hres|]. split.
    + intros i e H. exact (Htr i e H).
    + intros k task Hk.
      eapply stable_traced.
      * apply monotone_foldM. intros b x. apply monotone_record_search.
      * replace s1 with (snd (gather
            (map (fun it => LeadResearchAgent.search_task_wrapper reqs
                              (snd it) (fst it))
                 (Py.enumerate 1 sts)) s)) by (now rewrite Eg).
        eapply establishes_gather.
        -- apply stable_traced.
        -- apply Forall_forall. intros c Hc. apply in_map_iff in Hc.
           destruct Hc as (it & <- & _). apply monotone_search_wrapper.
        -- apply in_map_iff. exists ((1 + k)%nat, task).
           split; [reflexivity|]. now apply enumerate_nth.
        -- cbn [fst snd]. replace (1 + k)%nat with (k + 1)%nat by lia.
           apply search_wrapper_hands_off.
Qed.

(* ================================================================== *)
(** * The sources gathered for citation and for the report *)
(* ================================================================== *)

Lemma collect_loop (srs : list ResearchResult) (s : State) (l : nat)
    (o : gmap nat Citation) (n : nat) :
  Forall (fun r => sources r <> l) srs ->
  forall acc,
    for_each srs
      (fun search_result =>
         bind (read_list (sources search_result))
              (fun xs => LeadResearchAgent.list_extend l xs))
      (set_store o (<[l := acc]> (list_objects s)) n s)
    = (Ok tt,
       set_store o
         (<[l := (acc ++ gathered_sources s srs)%list]> (list_objects s)) n s).
Proof.
  intros Hwf. induction Hwf as [|r srs Hr _ IH]; intros acc.
  - cbn. unfold gathered_sources. cbn. now rewrite app_nil_r.
  - unfold for_each in *. cbn [foldM].
    unfold bind at 1. unfold bind at 1. cbn [read_list].
    unfold list_at at 1. cbn [list_objects set_store].
    rewrite lookup_insert_ne by congruence.
    unfold LeadResearchAgent.list_extend at 1, modify.
    cbn [objects list_objects next_addr set_store].
    rewrite alter_insert_eq.
    change (set_store o (<[l:=(acc ++ default [] (list_objects s !! sources r))%list]>
                           (list_objects s)) n (set_store o (<[l:=acc]> (list_objects s)) n s))
      with (set_store o (<[l:=(acc ++ default [] (list_objects s !! sources r))%list]>
                           (list_objects s)) n s).
    rewrite IH. unfold gathered_sources. cbn [map concat].
    unfold list_at. now rewrite <- app_assoc.
Qed.

(** [collect_sources] allocates a list and fills it with the sources of
    the search results, in order; nothing else changes. *)
Lemma collect_sources_spec (srs : list ResearchResult) (s : State) :
  Forall (fun r => sources r <> next_addr s) srs ->
  LeadResearchAgent.collect_sources srs s
  = (Ok (next_addr s),
     set_store (objects s)
       (<[next_addr s := gathered_sources s srs]> (list_objects s))
       (S (next_addr s)) s).
Proof.
  intros Hwf. unfold LeadResearchAgent.collect_sources.
  unfold bind at 1. cbn [alloc_list].
  unfold bind at 1.
  change (set_store (objects s) (<[next_addr s:=[]]> (list_objects s))
            (S (next_addr s)) s)
    with (set_store (objects s) (<[next_addr s:=[]]> (list_objects s))
            (S (next_addr s)) s).
  rewrite (collect_loop srs s (next_addr s) (objects s) (S (next_addr s)) Hwf []).
  reflexivity.
Qed.

Lemma tick_objects (s : State) : objects (tick s) = objects s.
Proof. apply tick_same_store. Qed.

Lemma tick_list_objects (s : State) : list_objects (tick s) = list_objects s.
Proof. apply tick_same_store. Qed.








Lemma run_unit (m : M unit) (s : State) :
  never_raises m -> m s = (Ok tt, snd (m s)).
Proof.
  intros H. destruct (H s) as [[] Ha]. destruct (m s) as [r s1].
  cbn in *. now subst r.
Qed.





Lemma reflection_stage_no_results (rts : list Task) (s : State) :
  LeadResearchAgent.reflection_stage rts [] s = (Ok [], s).
Proof.
  unfold LeadResearchAgent.reflection_stage.
  cbn [LeadResearchAgent.nonempty]. now rewrite andb_false_r.
Qed.

Lemma citation_stage_no_results (cts : list Task) (s : State) :
  exists s', LeadResearchAgent.citation_stage cts [] s = (Ok [], s')
             /\ extends s s'.
Proof.
  pose proof (monotone_citation_stage cts [] s) as Hext.
  unfold LeadResearchAgent.citation_stage in *.
  destruct (LeadResearchAgent.nonempty cts).
  - rewrite (bind_ok _ _ _ _ _ (collect_sources_spec [] s (Forall_nil _)))
      in *.
    unfold bind, read_list, list_at in *.
    cbn [list_objects set_store] in *.
    rewrite lookup_insert_eq in *. cbn in *.
    eexists. split; [reflexivity|exact Hext].
  - eexists. split; [reflexivity|exact Hext].
Qed.

Lemma monotone_search_stage reqs (sts : list Task) :
  monotone (LeadResearchAgent.search_stage reqs sts).
Proof.
  unfold LeadResearchAgent.search_stage.
  destruct (LeadResearchAgent.nonempty sts); [|apply monotone_ret].
  apply monotone_bind.
  - apply monotone_gather. apply Forall_forall. intros c Hc.
    apply in_map_iff in Hc. destruct Hc as (it & <- & _).
    apply monotone_search_wrapper.
  - intros outs. apply monotone_foldM. intros b x.
    apply monotone_record_search.
Qed.


(* ================================================================== *)
(** * The layout of the final report *)
(* ================================================================== *)





(** What [research_and_report] returns is the final report followed by
    the execution summary of the state it ends in. *)
Lemma research_and_report_appends_summary plan reqs (s0 s1 : State)
    (report : string) :
  LeadResearchAgent.research_and_report plan reqs s0 = (Ok report, s1) ->
  exists results sk final_report,
    LeadResearchAgent._create_final_report reqs results sk
    = (Ok final_report, s1)
    /\ report
       = final_report
         ++ LeadResearchAgent.execution_summary_block (platform s1)
              (LeadResearchAgent.get_execution_summary s1).
Proof.
  unfold LeadResearchAgent.research_and_report. unfold bind at 1.
  destruct (LeadResearchAgent._log_execution _ _ _ _ _ s0) as [[[]|e] sa];
    [|discriminate].
  unfold bind at 1.
  destruct (LeadResearchAgent._execute_research_plan plan reqs sa)
    as [[results|e] sb]; [|discriminate].
  unfold bind at 1.
  destruct (LeadResearchAgent._log_execution _ _ _ _ _ sb) as [[[]|e] sc];
    [|discriminate].
  unfold bind at 1.
  destruct (LeadResearchAgent._create_final_report reqs results sc)
    as [[fr|e] sd] eqn:E; [|discriminate].
  unfold bind, get, ret. intros H. inversion H; subst.
  now exists results, sc, fr.
Qed.

Lemma conduct_research_ends_with_report (user_input : string)
    (s0 s1 : State) (report : string) :
  LeadResearchAgent.conduct_research user_input s0 = (Ok report, s1) ->
  exists plan reqs sk,
    LeadResearchAgent.research_and_report plan reqs sk = (Ok report, s1).
Proof.
  unfold LeadResearchAgent.conduct_research. unfold bind at 1.
  destruct (LeadResearchAgent._log_execution _ _ _ _ _ s0) as [[[]|e] sa];
    [|discriminate].
  unfold bind at 1.
  destruct (RequirementGatheringAgent.gather_requirements user_input sa)
    as [[reqs|e] sb]; [|discriminate].
  unfold bind at 1.
  destruct (LeadResearchAgent._log_execution _ _ _ _ _ sb) as [[[]|e] sc];
    [|discriminate].
  unfold bind at 1.
  destruct (LeadResearchAgent._log_execution _ _ _ _ _ sc) as [[[]|e] sd];
    [|discriminate].
  unfold bind at 1.
  destruct (PlanningAgent.create_plan reqs sd) as [[plan|e] se];
    [|discriminate].
  unfold bind at 1.
  destruct (LeadResearchAgent._log_execution _ _ _ _ _ se) as [[[]|e] sf];
    [|discriminate].
  intros H. now exists plan, reqs, sf.
Qed.

(* ================================================================== *)
(** * CitationsAgent: in-place update of the sources *)
(* ================================================================== *)

Lemma enhance_idempotent (c : Citation) :
  CitationsAgent.enhance (CitationsAgent.enhance c) = CitationsAgent.enhance c.
Proof. reflexivity. Qed.

Lemma enhance_all_lookup (addrs : list nat) (o : gmap nat Citation) (a : nat) :
  (In a addrs -> enhance_all addrs o !! a = CitationsAgent.enhance <$> o !! a)
  /\ (~ In a addrs -> enhance_all addrs o !! a = o !! a).
Proof.
  revert o. induction addrs as [|x addrs IH]; intros o.
  - split; [intros []|reflexivity].
  - change (enhance_all (x :: addrs) o)
      with (enhance_all addrs (alter CitationsAgent.enhance x o)).
    destruct (IH (alter CitationsAgent.enhance x o)) as [IHin IHout].
    destruct (Nat.eq_dec x a) as [->|Hne].
    + split; [intros _|intros H; exfalso; apply H; now left].
      destruct (in_dec Nat.eq_dec a addrs) as [Hin|Hnin].
      * rewrite (IHin Hin), lookup_alter_eq.
        destruct (o !! a); reflexivity.
      * rewrite (IHout Hnin), lookup_alter_eq. reflexivity.
    + split.
      * intros [->|Hin]; [congruence|].
        rewrite (IHin Hin), lookup_alter_ne by assumption. reflexivity.
      * intros Hnin.
        rewrite IHout by (intros Hin; apply Hnin; now right).
        rewrite lookup_alter_ne by assumption. reflexivity.
Qed.

Lemma enhance_all_idempotent (addrs : list nat) (o : gmap nat Citation) :
  enhance_all addrs (enhance_all addrs o) = enhance_all addrs o.
Proof.
  apply map_eq. intros a.
  destruct (in_dec Nat.eq_dec a addrs) as [Hin|Hnin].
  - rewrite (proj1 (enhance_all_lookup addrs _ a) Hin).
    rewrite (proj1 (enhance_all_lookup addrs o a) Hin).
    destruct (o !! a); reflexivity.
  - rewrite (proj2 (enhance_all_lookup addrs _ a) Hnin). reflexivity.
Qed.

Lemma for_each_set_attributes (elems : list nat) (s : State) :
  for_each elems CitationsAgent.set_attributes s
  = (Ok tt, set_store (enhance_all elems (objects s)) (list_objects s)
                      (next_addr s) s).
Proof.
  revert s. induction elems as [|a elems IH]; intros s.
  - destruct s; reflexivity.
  - unfold for_each in *. cbn [foldM]. unfold bind at 1.
    unfold CitationsAgent.set_attributes at 1, modify.
    rewrite IH. reflexivity.
Qed.

Lemma tick_platform (s : State) : platform (tick s) = platform s.
Proof. apply tick_extends. Qed.

Lemma tick_history (s : State) : history (tick s) = history s.
Proof. unfold tick. destruct (ticks s); reflexivity. Qed.

Lemma tick_next_addr (s : State) : next_addr (tick s) = next_addr s.
Proof. apply tick_same_store. Qed.

(** [create_citations] when the language model answers: the address
    passed in is returned, the list objects are as before, and the
    objects of the store are updated at the addresses of the list. *)
Lemma create_citations_spec (l : nat) (style : string) (s : State)
    (out : string) :
  runner (platform s) (history s)
    (CitationsCall style
       (map (fun c => title c ++ " - " ++ url c)
            (citations_at s (list_at s l)))) = Ok out ->
  exists s',
    CitationsAgent.create_citations l style s = (Ok l, s')
    /\ list_objects s' = list_objects s
    /\ objects s' = enhance_all (list_at s l) (objects s)
    /\ next_addr s' = next_addr s
    /\ extends s s'.
Proof.
  intros Hrun.
  pose proof (monotone_create_citations l style s) as Hext.
  unfold CitationsAgent.create_citations in *.
  unfold bind at 1 in Hext. unfold bind at 1.
  unfold get at 1 in Hext. unfold get at 1. cbv beta iota in *.
  unfold bind at 1 in Hext. unfold bind at 1.
  unfold runner_run at 1 in Hext. unfold runner_run at 1.
  cbv beta iota zeta in *.
  rewrite tick_platform, tick_history, Hrun in *.
  unfold bind at 1 in Hext. unfold bind at 1.
  unfold read_list at 1 in Hext. unfold read_list at 1.
  cbv beta iota in *.
  unfold bind at 1 in Hext. unfold bind at 1.
  rewrite for_each_set_attributes in *.
  unfold ret in *. cbv beta iota in *. cbn [snd] in Hext.
  eexists. refine (conj eq_refl (conj _ (conj _ (conj _ Hext)))).
  - cbn [list_objects set_store set_history]. apply tick_list_objects.
  - cbn [list_objects objects set_store set_history]. unfold list_at.
    cbn [list_objects set_history].
    now rewrite tick_list_objects, tick_objects.
  - cbn [next_addr set_store set_history]. apply tick_next_addr.
Qed.

Lemma keeps_store_bind {A B} (m : M A) (k : A -> M B) :
  keeps_store m -> (forall a, keeps_store (k a)) -> keeps_store (bind m k).
Proof.
  intros Hm Hk s. unfold bind. specialize (Hm s).
  destruct (m s) as [[a|e] s1]; cbn [snd] in *; [|assumption].
  eapply same_store_trans; [exact Hm|apply Hk].
Qed.

Lemma keeps_store_time_time : keeps_store time_time.
Proof. intros s. apply tick_same_store. Qed.

Lemma keeps_store_sleep (d : Q) : keeps_store (sleep d).
Proof.
  intros s. eapply same_store_trans; [apply tick_same_store|].
  repeat split.
Qed.

Lemma keeps_store_rate_limit : keeps_store LeadResearchAgent._rate_limit.
Proof.
  unfold LeadResearchAgent._rate_limit.
  apply keeps_store_bind; [apply keeps_store_time_time|intros t].
  apply keeps_store_bind; [intros s; apply same_store_refl|intros s0].
  apply keeps_store_bind.
  - destruct (LeadResearchAgent.Qltb _ _);
      [apply keeps_store_sleep|intros s; apply same_store_refl].
  - intros _. apply keeps_store_bind; [apply keeps_store_time_time|intros t'].
    intros s. repeat split.
Qed.

Lemma keeps_store_log ag ac d su de :
  keeps_store (LeadResearchAgent._log_execution ag ac d su de).
Proof.
  unfold LeadResearchAgent._log_execution.
  apply keeps_store_bind; [apply keeps_store_time_time|intros t].
  intros s. repeat split.
Qed.

Lemma retry_first_ok {A} (func : M A) (n : nat) (bd : Q) s a s1 :
  (1 <= n)%nat -> func s = (Ok a, s1) ->
  LeadResearchAgent._retry_with_backoff func n bd s = (Ok a, s1).
Proof.
  intros Hn E. unfold LeadResearchAgent._retry_with_backoff, Py.range.
  destruct n as [|n]; [lia|].
  replace (S n - 0)%nat with (S n) by lia.
  change (seq 0 (S n)) with (0%nat :: seq 1 n).
  cbn [LeadResearchAgent.retry_loop]. now rewrite E.
Qed.

(** One citation task, when the citations agent answers: the elements of
    the list [all_sources] are appended to the citations collected so
    far, and the objects they point to are updated in the store. *)
Lemma citation_task_spec (l : nat) (acc : list nat) (it : nat * Task)
    (s : State) :
  citations_agent_answers (platform s) ->
  exists s',
    LeadResearchAgent.citation_task l acc it s
    = (Ok (acc ++ list_at s l)%list, s')
    /\ objects s' = enhance_all (list_at s l) (objects s)
    /\ list_objects s' = list_objects s
    /\ next_addr s' = next_addr s
    /\ extends s s'.
Proof.
  intros Hans.
  pose proof (monotone_citation_task l acc it s) as Hext.
  unfold LeadResearchAgent.citation_task in *.
  rewrite (bind_ok _ _ _ _ _ (run_unit _ s never_raises_rate_limit)) in *.
  pose proof (monotone_rate_limit s) as (Hp1 & _).
  pose proof (keeps_store_rate_limit s) as (Ho1 & Hl1 & Hn1).
  set (s1 := snd (LeadResearchAgent._rate_limit s)) in *.
  match goal with |- context [bind (LeadResearchAgent._log_execution
                                      ?a ?b ?c ?d ?e)] =>
    rewrite (bind_ok _ _ _ _ _
               (run_unit _ s1 (never_raises_log a b c d e))) in *;
    pose proof (monotone_log a b c d e s1) as (Hp2 & _);
    pose proof (keeps_store_log a b c d e s1) as (Ho2 & Hl2 & Hn2);
    set (s2 := snd (LeadResearchAgent._log_execution a b c d e s1)) in *
  end.
  destruct (Hans (history s2) "APA"
              (map (fun c => title c ++ " - " ++ url c)
                   (citations_at s2 (list_at s2 l)))) as [out Hout].
  rewrite <- Hp1, <- Hp2 in Hout.
  destruct (create_citations_spec l "APA" s2 out Hout)
    as (s3 & E3 & Hl3 & Ho3 & Hn3 & _).
  rewrite (bind_ok _ _ _ _ _
             (retry_first_ok _ 3 5%Q s2 l s3 ltac:(lia) E3)) in *.
  unfold bind at 1 in Hext. unfold bind at 1.
  unfold read_list at 1 in Hext. unfold read_list at 1.
  cbv beta iota in *.
  match goal with |- context [bind (LeadResearchAgent._log_execution
                                      ?a ?b ?c ?d ?e)] =>
    rewrite (bind_ok _ _ _ _ _
               (run_unit _ s3 (never_raises_log a b c d e))) in *;
    pose proof (keeps_store_log a b c d e s3) as (Ho4 & Hl4 & Hn4);
    set (s4 := snd (LeadResearchAgent._log_execution a b c d e s3)) in *
  end.
  unfold ret in *. cbn [snd] in Hext.
  assert (Hlist : list_at s3 l = list_at s l).
  { unfold list_at. now rewrite Hl3, Hl2, Hl1. }
  assert (Hlist2 : list_at s2 l = list_at s l).
  { unfold list_at. now rewrite Hl2, Hl1. }
  exists s4. rewrite Hlist. split; [reflexivity|].
  split; [|split; [|split]].
  - rewrite Ho4, Ho3, Hlist2, Ho2, Ho1. reflexivity.
  - now rewrite Hl4, Hl3, Hl2, Hl1.
  - now rewrite Hn4, Hn3, Hn2, Hn1.
  - exact Hext.
Qed.

(** The loop over the citation tasks: every task appends the elements of
    [all_sources], the same addresses each time. *)
Lemma citation_loop (l : nat) (cts : list Task) :
  forall j acc s,
    citations_agent_answers (platform s) ->
    exists s',
      foldM (LeadResearchAgent.citation_task l) (Py.enumerate j cts) acc s
      = (Ok (acc ++ concat (repeat (list_at s l) (length cts)))%list, s')
      /\ objects s' = match cts with
                      | [] => objects s
                      | _ => enhance_all (list_at s l) (objects s)
                      end
      /\ list_objects s' = list_objects s
      /\ extends s s'.
Proof.
  induction cts as [|t cts IH]; intros j acc s Hans.
  - exists s. cbn. rewrite app_nil_r.
    repeat split; try reflexivity; exists []; now rewrite app_nil_r.
  - cbn [Py.enumerate foldM length repeat concat].
    destruct (citation_task_spec l acc (j, t) s Hans)
      as (s1 & E1 & Ho1 & Hl1 & _ & Hext1).
    rewrite (bind_ok _ _ _ _ _ E1).
    assert (Hans1 : citations_agent_answers (platform s1)).
    { destruct Hext1 as [-> _]. exact Hans. }
    assert (Hlist : list_at s1 l = list_at s l).
    { unfold list_at. now rewrite Hl1. }
    destruct (IH (S j) (acc ++ list_at s l)%list s1 Hans1)
      as (s2 & E2 & Ho2 & Hl2 & Hext2).
    exists s2. rewrite E2, Hlist, <- app_assoc.
    split; [reflexivity|]. split; [|split].
    + rewrite Ho2, Hlist, Ho1. destruct cts; [reflexivity|].
      apply enhance_all_idempotent.
    + now rewrite Hl2.
    + eapply extends_trans; eassumption.
Qed.

Lemma citation_stage_spec (cts : list Task) (srs : list ResearchResult)
    (s : State) :
  Forall (fun r => sources r <> next_addr s) srs ->
  citations_agent_answers (platform s) ->
  gathered_sources s srs <> [] ->
  exists s',
    LeadResearchAgent.citation_stage cts srs s
    = (Ok (concat (repeat (gathered_sources s srs) (length cts))), s')
    /\ objects s' = match cts with
                    | [] => objects s
                    | _ => enhance_all (gathered_sources s srs) (objects s)
                    end.
Proof.
  intros Hwf Hans Hne. unfold LeadResearchAgent.citation_stage.
  destruct cts as [|t cts].
  - exists s. split; reflexivity.
  - cbn [LeadResearchAgent.nonempty].
    rewrite (bind_ok _ _ _ _ _ (collect_sources_spec srs s Hwf)).
    set (s1 := set_store (objects s)
                 (<[next_addr s := gathered_sources s srs]> (list_objects s))
                 (S (next_addr s)) s).
    assert (Hlist : list_at s1 (next_addr s) = gathered_sources s srs).
    { unfold list_at, s1. cbn [list_objects set_store].
      now rewrite lookup_insert_eq. }
    unfold bind at 1. unfold read_list at 1. cbv beta iota.
    rewrite Hlist, (nonempty_ne _ Hne).
    destruct (citation_loop (next_addr s) (t :: cts) 1 [] s1 Hans)
      as (s2 & E2 & Ho2 & _).
    exists s2. rewrite E2, Hlist. split; [reflexivity|].
    rewrite Ho2, Hlist. reflexivity.
Qed.

(** C10. [create_citations] returns the list object it was given,
    leaves the list objects as they are, and updates every [Citation]
    the list points to in place: author "Unknown", publication date
    "2024", the other fields unchanged; objects outside the list are not
    touched. So the citation stage, which gives every citation task the
    same list, appends the same addresses once per task. *)
Theorem create_citations_updates_in_place (sources_ : nat) (style : string)
    (s : State) (out : string) :
  runner (platform s) (history s)
    (CitationsCall style
       (map (fun c => title c ++ " - " ++ url c)
            (citations_at s (list_at s sources_)))) = Ok out ->
  (exists s',
     CitationsAgent.create_citations sources_ style s = (Ok sources_, s')
     /\ list_objects s' = list_objects s
     /\ (forall a, In a (list_at s sources_) ->
           objects s' !! a = CitationsAgent.enhance <$> objects s !! a)
     /\ (forall a, ~ In a (list_at s sources_) ->
           objects s' !! a = objects s !! a))
  /\ (forall c,
        author (CitationsAgent.enhance c) = Some "Unknown"
        /\ publication_date (CitationsAgent.enhance c) = Some "2024"
        /\ id (CitationsAgent.enhance c) = id c
        /\ title (CitationsAgent.enhance c) = title c
        /\ url (CitationsAgent.enhance c) = url c
        /\ source_type (CitationsAgent.enhance c) = source_type c
        /\ reliability_score (CitationsAgent.enhance c) = reliability_score c
        /\ quality_score (CitationsAgent.enhance c) = quality_score c)
  /\ (forall cts srs s0,
        Forall (fun r => sources r <> next_addr s0) srs ->
        citations_agent_answers (platform s0) ->
        gathered_sources s0 srs <> [] ->
        exists s1,
          LeadResearchAgent.citation_stage cts srs s0
          = (Ok (concat (repeat (gathered_sources s0 srs) (length cts))), s1)
          /\ (cts <> [] ->
              forall a, In a (gathered_sources s0 srs) ->
                objects s1 !! a = CitationsAgent.enhance <$> objects s0 !! a)).
Proof.
  intros Hrun. split; [|split].
  - destruct (create_citations_spec sources_ style s out Hrun)
      as (s' & E & Hl & Ho & _).
    exists s'. split; [exact E|]. split; [exact Hl|]. rewrite Ho.
    split; intros a Ha; now apply enhance_all_lookup.
  - intros c. repeat split.
  - intros cts srs s0 Hwf Hans Hne.
    destruct (citation_stage_spec cts srs s0 Hwf Hans Hne) as (s1 & E & Ho).
    exists s1. split; [exact E|]. intros Hcts a Ha.
    destruct cts; [congruence|]. rewrite Ho.
    now apply enhance_all_lookup.
Qed.

Lemma create_citations_updates_in_place_witness :
  (exists s',
     CitationsAgent.create_citations 2 "APA" two_source_state = (Ok 2%nat, s')
     /\ list_objects s' = list_objects two_source_state
     /\ objects s' !! 0%nat = Some (CitationsAgent.enhance academic_source)
     /\ objects s' !! 1%nat = Some (CitationsAgent.enhance commercial_source))
  /\ fst (LeadResearchAgent.citation_stage two_citation_tasks
            [two_source_result] two_source_state) = Ok [0; 1; 0; 1]%nat.
Proof.
  destruct (create_citations_updates_in_place 2 "APA" two_source_state "fine")
    as [(s' & E & Hl & Hin & _) [_ Hstage]].
  - reflexivity.
  - split.
    + exists s'. split; [exact E|]. split; [exact Hl|]. split.
      * rewrite (Hin 0%nat); [reflexivity|]. vm_compute. tauto.
      * rewrite (Hin 1%nat); [reflexivity|]. vm_compute. tauto.
    + destruct (Hstage two_citation_tasks [two_source_result]
                  two_source_state) as (s1 & E1 & _).
      * repeat constructor. discriminate.
      * intros h st en. eexists. reflexivity.
      * vm_compute. discriminate.
      * rewrite E1. vm_compute. reflexivity.
Defined.

(* ================================================================== *)
(** * Further properties of the source extraction *)
(* ================================================================== *)

Lemma extract_fold_invariant (P : list Citation -> Prop) (lines : list string) :
  (forall acc i line, P acc -> P (SearchAgent.extract_line lines acc i line)) ->
  forall its acc,
    P acc ->
    P (fold_left (fun sources_ '(i, line) =>
                    SearchAgent.extract_line lines sources_ i line) its acc).
Proof.
  intros Hstep. induction its as [|[i line] its IH]; intros acc H; cbn.
  - exact H.
  - apply IH, Hstep, H.
Qed.

(** X1. The sources returned by [_extract_sources] are numbered from 1,
    in the order of extraction. *)
Theorem extracted_ids_count_from_one (content_ : string) :
  map id (SearchAgent._extract_sources content_)
  = seq 1 (length (SearchAgent._extract_sources content_)).
Proof.
  unfold SearchAgent._extract_sources.
  apply (extract_fold_invariant
           (fun acc => map id acc = seq 1 (length acc))); [|reflexivity].
  intros acc i line H. unfold SearchAgent.extract_line.
  destruct (Py.str_in "http" line); [|exact H].
  destruct (SearchAgent.parse_line _ i line) as [[u t]|]; [|exact H].
  rewrite map_app, length_app, H. cbn [map id length].
  rewrite seq_app. cbn. now rewrite Nat.add_1_r.
Qed.

(** X2. The URL of every source returned by [_extract_sources] starts
    with "http". *)
Theorem extracted_urls_start_with_http (content_ : string) (c : Citation) :
  In c (SearchAgent._extract_sources content_) ->
  Py.startswith "http" (url c) = true.
Proof.
  revert c. apply Forall_forall.
  unfold SearchAgent._extract_sources.
  apply (extract_fold_invariant
           (Forall (fun c => Py.startswith "http" (url c) = true)));
    [|constructor].
  intros acc i line H. unfold SearchAgent.extract_line.
  destruct (Py.str_in "http" line); [|exact H].
  destruct (SearchAgent.parse_line _ i line) as [[u t]|]; [|exact H].
  apply Forall_app. split; [exact H|]. constructor; [|constructor].
  cbn [url]. destruct (Py.startswith "http" u) eqn:E; [exact E|].
  apply prefix_app.
Qed.

Lemma extracted_urls_start_with_http_witness :
  Py.startswith "http" (url commercial_source) = true.
Proof.
  apply (extracted_urls_start_with_http commercial_text commercial_source).
  vm_compute. left. reflexivity.
Defined.

(** X3. The quality score of a source is never below 0.3 (the lower
    clamp never applies), and the kind of the source fixes a band for it.
    In binary64 the bands are: academic 0.7 to 1, government 0.65 to
    0.95, organization 0.55 to 0.8500000000000001, commercial 0.45 to
    0.75, web 0.3 to 0.6000000000000001; the sums [0.5 + 0.15 + 0.2] and
    [0.5 - 0.1 + 0.2] come out one unit in the last place above 0.85 and
    0.6, so these two bounds cannot be lowered to the decimal values. *)
Theorem quality_band_of_source_type (url_ title_ : string) :
  let q := SearchAgent._assess_source_quality url_ title_ in
  let k := SearchAgent._determine_source_type url_ in
  between 0.3 1 q = true
  /\ In k ["academic"; "government"; "organization"; "commercial"; "web"]
  /\ (k = "academic" -> between 0.7 1 q = true)
  /\ (k = "government" -> between 0.65 0.95 q = true)
  /\ (k = "organization" -> between 0.55 0.8500000000000001 q = true)
  /\ (k = "commercial" -> between 0.45 0.75 q = true)
  /\ (k = "web" -> between 0.3 0.6000000000000001 q = true)
  /\ (0.85 <? 0.5 + 0.15 + 0.2)%float = true
  /\ (0.6 <? 0.5 - 0.1 + 0.2)%float = true.
Proof.
  cbv zeta.
  unfold SearchAgent._determine_source_type.
  score_cases url_ title_;
    repeat split;
    try (intros H; discriminate H);
    intros;
    try reflexivity;
    cbn; tauto.
Qed.

(* ================================================================== *)
(** * Further properties of the requirement and plan parsers *)
(* ================================================================== *)

(** X4. The parsed requirement depends on the question only: the
    clarified question is the question itself and the answer of the
    language model is not used. The expertise and detail levels take
    their three values, the focus areas are a duplicate-free choice among
    technical, practical and academic, and a question that asks for high
    detail is always researched at depth "deep". *)
Theorem parsed_requirement_depends_on_question (original response : string) :
  let r := RequirementGatheringAgent._parse_requirements original response in
  clarified_question r = original
  /\ (forall response',
        RequirementGatheringAgent._parse_requirements original response' = r)
  /\ In (expertise_level r) ["expert"; "beginner"; "intermediate"]
  /\ In (detail_level (user_preferences r)) ["high"; "low"; "standard"]
  /\ (detail_level (user_preferences r) = "high" -> research_depth r = "deep")
  /\ NoDup (focus_areas (user_preferences r))
  /\ incl (focus_areas (user_preferences r))
          ["technical"; "practical"; "academic"].
Proof.
  cbv zeta. split; [reflexivity|]. split; [reflexivity|].
  unfold RequirementGatheringAgent._parse_requirements.
  cbn [expertise_level user_preferences research_depth].
  split; [|split; [|split; [|split]]].
  - unfold RequirementGatheringAgent._assess_expertise_level.
    destruct (Py.any_in _ _); [cbn; tauto|].
    destruct (Py.any_in _ _); cbn; tauto.
  - unfold RequirementGatheringAgent._extract_user_preferences.
    cbn [detail_level].
    destruct (_ || _); [cbn; tauto|]. destruct (_ || _); cbn; tauto.
  - unfold RequirementGatheringAgent._extract_user_preferences.
    cbn [detail_level]. unfold Py.any_in. cbn [existsb].
    destruct (Py.str_in "detailed" _) eqn:Ed;
      destruct (Py.str_in "comprehensive" _) eqn:Ec; cbn [orb].
    + intros _. now rewrite !orb_true_r.
    + intros _. now rewrite !orb_true_r.
    + intros _. now rewrite !orb_true_r.
    + destruct (_ || _); discriminate.
  - unfold RequirementGatheringAgent._extract_user_preferences.
    cbn [focus_areas].
    destruct (Py.str_in "technical" _ || _);
      destruct (Py.str_in "practical" _ || _);
      destruct (Py.str_in "academic" _ || _); cbn;
      repeat (constructor; [cbn; intuition discriminate|]); constructor.
  - unfold RequirementGatheringAgent._extract_user_preferences.
    cbn [focus_areas].
    destruct (Py.str_in "technical" _ || _);
      destruct (Py.str_in "practical" _ || _);
      destruct (Py.str_in "academic" _ || _); cbn;
      intros a Ha; cbn in *; intuition.
Qed.

(** X5. Whatever the depth written in the requirement, the plan has
    tasks, each assigned to one of the three agents; its tasks are the
    search tasks, followed by the reflection tasks, followed by the
    citation tasks, so that each task is run in exactly one stage of the
    execution; there is at least one search and one reflection task, and
    no citation task at depth "basic". *)
Theorem plan_tasks_run_in_one_stage (requirements : ResearchRequirement)
    (response : string) :
  let plan := PlanningAgent._parse_plan requirements response in
  tasks plan <> []
  /\ Forall (fun t => In (agent t) ["Search"; "Reflection"; "Citations"])
            (tasks plan)
  /\ (LeadResearchAgent.by_agent "Search" (tasks plan)
      ++ LeadResearchAgent.by_agent "Reflection" (tasks plan)
      ++ LeadResearchAgent.by_agent "Citations" (tasks plan))%list
     = tasks plan
  /\ LeadResearchAgent.by_agent "Search" (tasks plan) <> []
  /\ LeadResearchAgent.by_agent "Reflection" (tasks plan) <> []
  /\ (research_depth requirements = "basic" ->
      LeadResearchAgent.by_agent "Citations" (tasks plan) = [])
  /\ (research_depth requirements <> "basic" ->
      length (LeadResearchAgent.by_agent "Citations" (tasks plan)) = 1%nat)
  /\ plan_question plan = clarified_question requirements.
Proof.
  cbv zeta. unfold PlanningAgent._parse_plan. cbn [tasks plan_question].
  destruct (String.eqb_spec (research_depth requirements) "basic") as [E|E].
  - repeat split; try discriminate; try congruence.
    repeat constructor; cbn; tauto.
  - destruct (String.eqb (research_depth requirements) "standard");
      repeat split; try discriminate; try congruence;
      repeat constructor; cbn; tauto.
Qed.

(* ================================================================== *)
(** * Further properties of the tracer *)
(* ================================================================== *)

Lemma filter_all_length {A} (f : A -> bool) (l : list A) :
  length (filter f l) = length l <-> Forall (fun x => f x = true) l.
Proof.
  induction l as [|x l IH]; cbn.
  - split; [constructor|reflexivity].
  - pose proof (filter_length_le f l) as Hle.
    destruct (f x) eqn:E; cbn.
    + split.
      * intros H. constructor; [exact E|]. apply IH. lia.
      * intros H. inversion H; subst. f_equal. now apply IH.
    + split; [lia|]. intros H. inversion H; congruence.
Qed.

(** X6. The success rate of the tracer is 0 for an empty trace and the
    number of successful entries over the number of entries otherwise;
    it lies between 0 and 1, and it is 1 exactly when no entry of a
    non-empty trace failed. *)
Theorem success_rate_is_the_ratio (s : State) :
  let rate := LeadResearchAgent._calculate_success_rate s in
  let total := length (execution_trace s) in
  let successful := length (filter success (execution_trace s)) in
  (total = 0%nat -> rate = 0%Q)
  /\ ((0 < total)%nat ->
      (rate == inject_Z (Z.of_nat successful) / inject_Z (Z.of_nat total))%Q)
  /\ (0 <= rate <= 1)%Q
  /\ ((0 < total)%nat ->
      ((rate == 1)%Q
       <-> Forall (fun e => success e = true) (execution_trace s))).
Proof.
  cbv zeta. unfold LeadResearchAgent._calculate_success_rate.
  destruct (execution_trace s) as [|e tr] eqn:Etr.
  - cbn. repeat split; try lia; try discriminate.
  - set (l := e :: tr) in *.
    assert (Hpos : (0 < length l)%nat) by (cbn; lia).
    replace (0 <? length l)%nat with true
      by (symmetry; now apply Nat.ltb_lt).
    pose proof (filter_length_le success l) as Hle.
    assert (HK : (0 < inject_Z (Z.of_nat (length l)))%Q).
    { change 0%Q with (inject_Z 0). rewrite <- Zlt_Qlt. lia. }
    assert (HS : (0 <= inject_Z (Z.of_nat (length (filter success l))))%Q).
    { change 0%Q with (inject_Z 0). rewrite <- Zle_Qle. lia. }
    assert (HSK : (inject_Z (Z.of_nat (length (filter success l)))
                   <= inject_Z (Z.of_nat (length l)))%Q).
    { rewrite <- Zle_Qle. lia. }
    split; [intros H; lia|]. split; [intros _; reflexivity|].
    assert (HK0 : ~ (inject_Z (Z.of_nat (length l)) == 0)%Q).
    { intros Hz. rewrite Hz in HK. exact (Qlt_irrefl 0 HK). }
    split; [split|].
    + apply Qle_shift_div_l; [exact HK|]. now rewrite Qmult_0_l.
    + apply Qle_shift_div_r; [exact HK|]. now rewrite Qmult_1_l.
    + intros _. rewrite <- filter_all_length. split.
      * intros H.
        assert (H' : (inject_Z (Z.of_nat (length (filter success l)))
                      == inject_Z (Z.of_nat (length l)))%Q).
        { rewrite <- (Qmult_1_l (inject_Z (Z.of_nat (length l)))).
          rewrite <- H. field. exact HK0. }
        rewrite inject_Z_injective in H'. apply Nat2Z.inj in H'. exact H'.
      * intros ->. field. exact HK0.
Qed.

(** X7. The execution summary counts every entry of the trace but shows
    only its last ten (all of them when there are fewer), and leaves the
    trace and the counters as they are. *)
Theorem summary_shows_last_ten (s : State) :
  let sm := LeadResearchAgent.get_execution_summary s in
  total_operations sm = length (execution_trace s)
  /\ length (recent_trace sm) = Nat.min 10 (length (execution_trace s))
  /\ (exists older, execution_trace s = (older ++ recent_trace sm)%list)
  /\ ((length (execution_trace s) <= 10)%nat ->
      recent_trace sm = execution_trace s)
  /\ summary_metrics sm = performance_metrics s.
Proof.
  cbv zeta. unfold LeadResearchAgent.get_execution_summary,
    LeadResearchAgent.last_n.
  cbn [total_operations recent_trace summary_metrics].
  split; [reflexivity|]. split; [rewrite length_skipn; lia|].
  split; [|split; [|reflexivity]].
  - eexists. symmetry. apply firstn_skipn.
  - intros H.
    replace (length (execution_trace s) - 10)%nat with 0%nat by lia.
    reflexivity.
Qed.

(* ================================================================== *)
(** * Every line with a URL gives a source *)
(* ================================================================== *)

Lemma split_aux_nonempty (sep : string) (s : string) :
  forall skip cur, Py.split_aux sep skip cur s <> [].
Proof.
  induction s as [|c s IH]; intros skip cur; cbn [Py.split_aux].
  - discriminate.
  - destruct skip; [|apply IH].
    destruct (String.prefix sep (String c s)); [discriminate|apply IH].
Qed.

Lemma split_first (sep s : string) :
  exists x, nth_error (Py.split sep s) 0 = Some x.
Proof.
  unfold Py.split. pose proof (split_aux_nonempty sep s 0 []) as H.
  destruct (Py.split_aux sep 0 [] s) as [|x l]; [congruence|].
  now exists x.
Qed.

Lemma split_aux_second (sep : string) (s : string) :
  sep <> "" -> forall cur,
    Py.str_in sep s = true ->
    exists x, nth_error (Py.split_aux sep 0 cur s) 1 = Some x.
Proof.
  intros Hsep. induction s as [|c s IH]; intros cur H.
  - destruct sep; [congruence|discriminate].
  - change (Py.str_in sep (String c s))
      with (if String.prefix sep (String c s) then true
            else Py.str_in sep s) in H.
    cbn [Py.split_aux].
    destruct (String.prefix sep (String c s)).
    + pose proof (split_aux_nonempty sep s (String.length sep - 1) []) as Hn.
      destruct (Py.split_aux sep (String.length sep - 1) [] s) as [|x l];
        [congruence|].
      now exists x.
    + now apply IH.
Qed.

Lemma split_second (sep s : string) :
  sep <> "" -> Py.str_in sep s = true ->
  exists x, nth_error (Py.split sep s) 1 = Some x.
Proof. intros Hsep H. now apply split_aux_second. Qed.

Lemma from_first_found (needle s : string) :
  Py.str_in needle s = true -> exists tail, Py.from_first needle s = Some tail.
Proof.
  induction s as [|c s IH]; intros H.
  - destruct needle; [now eexists|discriminate].
  - change (Py.str_in needle (String c s))
      with (if String.prefix needle (String c s) then true
            else Py.str_in needle s) in H.
    cbn [Py.from_first].
    destruct (String.prefix needle (String c s)); [now eexists|].
    now apply IH.
Qed.

(** No index of the [try] block is ever out of range: a line that
    contains "http" is always parsed. *)
Lemma parse_line_total (lines : list string) (i : nat) (line : string) :
  Py.str_in "http" line = true ->
  exists u t, SearchAgent.parse_line lines i line = Some (u, t).
Proof.
  intros Hh. unfold SearchAgent.parse_line.
  destruct (Py.str_in "*Source:" line) eqn:Es.
  - destruct (split_second "*Source:" line) as [x ->];
      [discriminate|exact Es|].
    now eexists _, _.
  - destruct (Py.str_in "[" line && Py.str_in "]" line) eqn:Eb.
    + apply andb_true_iff in Eb. destruct Eb as [Eo _].
      destruct (split_second "[" line) as [x ->]; [discriminate|exact Eo|].
      destruct (split_first "]" x) as [t ->].
      destruct (split_second "http" line) as [a ->]; [discriminate|exact Hh|].
      destruct (split_first " " a) as [u ->].
      now eexists _, _.
    + destruct (from_first_found "http" line Hh) as [tail ->].
      destruct (split_first " " tail) as [u ->].
      destruct (split_first (String "010"%char "") u) as [v ->].
      now eexists _, _.
Qed.

Lemma extract_count (lines : list string) (its : list (nat * string)) :
  forall acc,
    length (fold_left (fun sources_ '(i, line) =>
                         SearchAgent.extract_line lines sources_ i line)
                      its acc)
    = (length acc
       + length (filter (fun il => Py.str_in "http" (snd il)) its))%nat.
Proof.
  induction its as [|[i line] its IH]; intros acc.
  - cbn. lia.
  - cbn [fold_left]. rewrite IH. unfold SearchAgent.extract_line.
    change (filter (fun il => Py.str_in "http" (snd il)) ((i, line) :: its))
      with (if Py.str_in "http" line
            then (i, line) :: filter (fun il => Py.str_in "http" (snd il)) its
            else filter (fun il => Py.str_in "http" (snd il)) its).
    destruct (Py.str_in "http" line) eqn:E; [|lia].
    destruct (parse_line_total lines i line E) as (u & t & ->).
    rewrite length_app. cbn [length]. lia.
Qed.

Lemma enumerate_filter_snd {A} (f : A -> bool) (l : list A) :
  forall j,
    length (filter (fun il => f (snd il)) (Py.enumerate j l))
    = length (filter f l).
Proof.
  induction l as [|x l IH]; intros j; cbn; [reflexivity|].
  destruct (f x); cbn; now rewrite IH.
Qed.

(** X8. [_extract_sources] returns exactly one source for every line of
    the text that contains "http", and none for the other lines: the
    handler that skips a line on an extraction error is never entered. *)
Theorem one_source_per_line_with_url (content_ : string) :
  length (SearchAgent._extract_sources content_)
  = length (filter (fun line => Py.str_in "http" line)
                   (Py.split nl content_)).
Proof.
  unfold SearchAgent._extract_sources. rewrite extract_count.
  cbn [length]. now rewrite enumerate_filter_snd.
Qed.

(* ================================================================== *)
(** * Failures in the other stages *)
(* ================================================================== *)

Lemma record_reflection_ok acc j result s :
  exists s1,
    LeadResearchAgent.record_reflection_outcome acc (j, Ok result) s
    = (Ok (acc ++ [result])%list, s1).
Proof. eexists. reflexivity. Qed.

Lemma record_reflection_failed acc j e s :
  exists s1,
    LeadResearchAgent.record_reflection_outcome acc (j, Raise e) s
    = (Ok acc, s1)
    /\ traced "ReflectionAgent"
         ("reflection_task_" ++ Py.str_of_nat (j + 1) ++ "_failed") false
         (str_of_exn e) s1.
Proof.
  eexists. split; [reflexivity|].
  eexists. split; [apply in_or_app; right; left; reflexivity|].
  repeat split.
Qed.

Lemma record_reflection_outcomes (outs : list (Result ResearchResult)) :
  forall j acc s,
    fst (foldM LeadResearchAgent.record_reflection_outcome
               (Py.enumerate j outs) acc s)
    = Ok (acc ++ successes outs)%list
    /\ forall i e, nth_error outs i = Some (Raise e) ->
         traced "ReflectionAgent"
           ("reflection_task_" ++ Py.str_of_nat (j + i + 1) ++ "_failed")
           false (str_of_exn e)
           (snd (foldM LeadResearchAgent.record_reflection_outcome
                       (Py.enumerate j outs) acc s)).
Proof.
  induction outs as [|[r|e] outs IH]; intros j acc s;
    cbn [Py.enumerate foldM successes].
  - split; [cbn; now rewrite app_nil_r|]. intros [|i] e0 H; discriminate.
  - destruct (record_reflection_ok acc j r s) as [s1 E].
    rewrite (bind_ok _ _ _ _ _ E).
    destruct (IH (S j) (acc ++ [r])%list s1) as [Hres Htr].
    split; [now rewrite Hres, <- app_assoc|].
    intros [|i] e0 H; [discriminate|].
    replace (j + S i + 1)%nat with (S j + i + 1)%nat by lia.
    now apply Htr.
  - destruct (record_reflection_failed acc j e s) as (s1 & E & Ht).
    rewrite (bind_ok _ _ _ _ _ E).
    destruct (IH (S j) acc s1) as [Hres Htr].
    split; [exact Hres|].
    intros [|i] e0 H.
    + inversion H; subst e0. rewrite Nat.add_0_r.
      eapply stable_traced; [|exact Ht].
      apply monotone_foldM. intros b x. apply monotone_record_reflection.
    + replace (j + S i + 1)%nat with (S j + i + 1)%nat by lia.
      now apply Htr.
Qed.

Lemma enumerate_length {A} (l : list A) :
  forall j, length (Py.enumerate j l) = length l.
Proof.
  induction l as [|x l IH]; intros j; cbn; [reflexivity|now rewrite IH].
Qed.

(** The outcomes of the reflection stage entered with search results. *)
Lemma reflection_stage_outcomes (rts : list Task)
    (srs : list ResearchResult) (s : State) :
  srs <> [] ->
  exists outs s1,
    gather (map (fun it => LeadResearchAgent.reflection_task_wrapper
                             (snd it) (bound_content srs (fst it))
                             (fst it))
                (Py.enumerate 1 rts)) s = (Ok outs, s1)
    /\ length outs = length rts
    /\ fst (LeadResearchAgent.reflection_stage rts srs s)
       = Ok (successes outs)
    /\ forall i e, nth_error outs i = Some (Raise e) ->
         traced "ReflectionAgent"
           ("reflection_task_" ++ Py.str_of_nat (i + 1) ++ "_failed")
           false (str_of_exn e)
           (snd (LeadResearchAgent.reflection_stage rts srs s)).
Proof.
  intros Hne.
  destruct (gather_total
              (map (fun it => LeadResearchAgent.reflection_task_wrapper
                                (snd it) (bound_content srs (fst it))
                                (fst it))
                   (Py.enumerate 1 rts)) s) as (outs & s1 & Eg & Hlen).
  rewrite length_map, enumerate_length in Hlen.
  exists outs, s1. split; [exact Eg|]. split; [exact Hlen|].
  unfold LeadResearchAgent.reflection_stage.
  rewrite (nonempty_ne _ Hne), andb_true_r.
  destruct rts as [|t rts'] eqn:Erts.
  - destruct outs; [|discriminate]. cbn.
    split; [reflexivity|]. intros [|i] e H; discriminate.
  - rewrite <- Erts in *.
    replace (LeadResearchAgent.nonempty rts) with true by (now rewrite Erts).
    rewrite (bind_ok _ _ _ _ _ (reflection_coroutines_spec rts srs s Hne)).
    rewrite (bind_ok _ _ _ _ _ Eg).
    destruct (record_reflection_outcomes outs 0 [] s1) as [Hres Htr].
    split; [exact Hres|]. intros i e H. exact (Htr i e H).
Qed.

Lemma reflection_stage_never_raises (rts : list Task)
    (srs : list ResearchResult) (s : State) :
  exists rrs, fst (LeadResearchAgent.reflection_stage rts srs s) = Ok rrs.
Proof.
  destruct srs as [|r srs].
  - rewrite reflection_stage_no_results. now eexists.
  - destruct (reflection_stage_outcomes rts (r :: srs) s)
      as (outs & s1 & _ & _ & H & _); [discriminate|].
    eexists. exact H.
Qed.

(** X9. The reflection stage never raises. Without a search result no
    reflection task is run: nothing is called and nothing is traced.
    With search results, the outcomes of the reflection wrappers, one
    per task, are joined; the stage returns the results of those that
    did not fail, and traces every failure as failed with the text of
    its exception. *)
Theorem reflection_stage_isolates_failures (rts : list Task)
    (srs : list ResearchResult) (s : State) :
  LeadResearchAgent.reflection_stage rts [] s = (Ok [], s)
  /\ (srs <> [] ->
      exists outs s1,
        gather (map (fun it => LeadResearchAgent.reflection_task_wrapper
                                 (snd it) (bound_content srs (fst it))
                                 (fst it))
                    (Py.enumerate 1 rts)) s = (Ok outs, s1)
        /\ length outs = length rts
        /\ fst (LeadResearchAgent.reflection_stage rts srs s)
           = Ok (successes outs)
        /\ forall i e, nth_error outs i = Some (Raise e) ->
             traced "ReflectionAgent"
               ("reflection_task_" ++ Py.str_of_nat (i + 1) ++ "_failed")
               false (str_of_exn e)
               (snd (LeadResearchAgent.reflection_stage rts srs s))).
Proof.
  split; [apply reflection_stage_no_results|].
  apply reflection_stage_outcomes.
Qed.

Lemma reflection_stage_isolates_failures_witness :
  exists outs s1,
    gather (map (fun it => LeadResearchAgent.reflection_task_wrapper
                             (snd it)
                             (bound_content [two_source_result] (fst it))
                             (fst it))
                (Py.enumerate 1 two_citation_tasks)) two_source_state
    = (Ok outs, s1)
    /\ length outs = 2%nat.
Proof.
  destruct (reflection_stage_isolates_failures two_citation_tasks
              [two_source_result] two_source_state) as [_ H].
  destruct H as (outs & s1 & E & Hlen & _); [discriminate|].
  now exists outs, s1.
Defined.

Lemma tick_execution_trace (s : State) :
  execution_trace (tick s) = execution_trace s.
Proof. unfold tick. destruct (ticks s); reflexivity. Qed.

Lemma log_appends_entry ag ac d su de (s : State) :
  exists entry s',
    LeadResearchAgent._log_execution ag ac d su de s = (Ok tt, s')
    /\ execution_trace s' = (execution_trace s ++ [entry])%list
    /\ log_agent entry = ag /\ action entry = ac /\ success entry = su
    /\ details entry = de
    /\ platform s' = platform s /\ history s' = history s.
Proof.
  exists {| timestamp := clock (tick s); log_agent := ag; action := ac;
            log_duration := d; success := su; details := de |}.
  eexists. split; [reflexivity|].
  cbn [execution_trace platform history set_log log_agent action success
       details].
  rewrite tick_platform, tick_history, tick_execution_trace. repeat split.
Qed.

(** X10. A failure of the requirement gathering call, or of the
    planning call, ends [conduct_research] with that failure, whatever
    its message: these calls are made once, without rate limiting or
    retry, also when the failure has a transient signature. No report is
    produced and no later agent is called. *)
Theorem gathering_or_planning_failure_aborts (user_input : string) (s : State)
    (e : Exn) :
  (runner (platform s) (history s) (GatherCall user_input) = Raise e ->
   exists s',
     LeadResearchAgent.conduct_research user_input s = (Raise e, s')
     /\ history s' = (history s ++ [GatherCall user_input])%list
     /\ length (execution_trace s') = S (length (execution_trace s)))
  /\ (forall out,
        runner (platform s) (history s) (GatherCall user_input) = Ok out ->
        let reqs :=
          RequirementGatheringAgent._parse_requirements user_input out in
        runner (platform s) (history s ++ [GatherCall user_input])%list
               (PlanCall reqs) = Raise e ->
        exists s',
          LeadResearchAgent.conduct_research user_input s = (Raise e, s')
          /\ history s'
             = (history s ++ [GatherCall user_input; PlanCall reqs])%list
          /\ length (execution_trace s') = (length (execution_trace s) + 3)%nat).
Proof.
  split.
  - intros Hrun. unfold LeadResearchAgent.conduct_research.
    match goal with |- context [bind (LeadResearchAgent._log_execution
                                        ?a ?b ?c ?d ?f)] =>
      destruct (log_appends_entry a b c d f s)
        as (en1 & s1 & E1 & Ht1 & _ & _ & _ & _ & Hp1 & Hh1)
    end.
    rewrite (bind_ok _ _ _ _ _ E1).
    unfold RequirementGatheringAgent.gather_requirements.
    unfold bind, runner_run. cbv beta iota zeta.
    rewrite tick_platform, tick_history, Hp1, Hh1, Hrun.
    eexists. split; [reflexivity|]. cbn [history execution_trace set_history].
    split; [reflexivity|].
    rewrite tick_execution_trace, Ht1, length_app. cbn. lia.
  - intros out Hrun reqs Hplan. unfold LeadResearchAgent.conduct_research.
    match goal with |- context [bind (LeadResearchAgent._log_execution
                                        ?a ?b ?c ?d ?f)] =>
      destruct (log_appends_entry a b c d f s)
        as (en1 & s1 & E1 & Ht1 & _ & _ & _ & _ & Hp1 & Hh1)
    end.
    rewrite (bind_ok _ _ _ _ _ E1).
    assert (Eg : RequirementGatheringAgent.gather_requirements user_input s1
                 = (Ok reqs, set_history (history s ++ [GatherCall user_input])
                                         (tick s1))).
    { unfold RequirementGatheringAgent.gather_requirements.
      unfold bind, runner_run, ret. cbv beta iota zeta.
      rewrite tick_platform, tick_history, Hp1, Hh1, Hrun. reflexivity. }
    rewrite (bind_ok _ _ _ _ _ Eg).
    set (s2 := set_history _ (tick s1)).
    assert (Hp2 : platform s2 = platform s)
      by (unfold s2; cbn; now rewrite tick_platform).
    assert (Ht2 : execution_trace s2 = execution_trace s1)
      by (unfold s2; cbn; apply tick_execution_trace).
    match goal with |- context [bind (LeadResearchAgent._log_execution
                                        ?a ?b ?c ?d ?f)] =>
      destruct (log_appends_entry a b c d f s2)
        as (en3 & s3 & E3 & Ht3 & _ & _ & _ & _ & Hp3 & Hh3)
    end.
    rewrite (bind_ok _ _ _ _ _ E3).
    match goal with |- context [bind (LeadResearchAgent._log_execution
                                        ?a ?b ?c ?d ?f)] =>
      destruct (log_appends_entry a b c d f s3)
        as (en4 & s4 & E4 & Ht4 & _ & _ & _ & _ & Hp4 & Hh4)
    end.
    rewrite (bind_ok _ _ _ _ _ E4).
    unfold PlanningAgent.create_plan.
    unfold bind, runner_run. cbv beta iota zeta.
    rewrite tick_platform, tick_history, Hp4, Hh4, Hp3, Hh3, Hp2.
    change (history s2) with (history s ++ [GatherCall user_input])%list.
    fold reqs. rewrite Hplan.
    eexists. split; [reflexivity|]. cbn [history execution_trace set_history].
    rewrite <- app_assoc. split; [reflexivity|].
    rewrite tick_execution_trace, Ht4, Ht3, Ht2, Ht1, !length_app. cbn. lia.
Qed.

Lemma gathering_or_planning_failure_aborts_witness :
  exists s',
    LeadResearchAgent.conduct_research "Compare tea and coffee"
      (sample_state
         (const_platform (Raise (Exception "500 Internal Server Error"))))
    = (Raise (Exception "500 Internal Server Error"), s')
    /\ history s' = [GatherCall "Compare tea and coffee"].
Proof.
  destruct (gathering_or_planning_failure_aborts "Compare tea and coffee"
              (sample_state
                 (const_platform
                    (Raise (Exception "500 Internal Server Error"))))
              (Exception "500 Internal Server Error")) as [H _].
  destruct H as (s' & E & Hh & _); [reflexivity|].
  exists s'. split; [exact E|exact Hh].
Defined.

(** A relation kept by every failing call of the operation and by the
    backoff sleeps holds between the state the retry is entered in and
    the state of the attempt whose outcome it gives. *)
Lemma retry_loop_attempt_related {A} (R : State -> State -> Prop)
    (func : M A) (n : nat) (bd : Q) :
  (forall s, R s s) ->
  (forall s1 s2 s3, R s1 s2 -> R s2 s3 -> R s1 s3) ->
  (forall s e s1, func s = (Raise e, s1) -> R s s1) ->
  (forall d s, R s (snd (sleep d s))) ->
  forall k j s, (j + S k = n)%nat ->
    exists s', R s s'
      /\ LeadResearchAgent.retry_loop func n bd (seq j (S k)) s = func s'.
Proof.
  intros Hrefl Htrans Hf Hsl. induction k as [|k IH]; intros j s Hn.
  - exists s. split; [apply Hrefl|].
    cbn [seq LeadResearchAgent.retry_loop].
    destruct (func s) as [[a|e] s1]; [reflexivity|].
    destruct (LeadResearchAgent.is_transient e); [|reflexivity].
    replace (j <? n - 1)%nat with false; [reflexivity|].
    symmetry. apply Nat.ltb_ge. lia.
  - change (seq j (S (S k))) with (j :: seq (S j) (S k)).
    cbn [LeadResearchAgent.retry_loop].
    destruct (func s) as [[a|e] s1] eqn:E.
    + exists s. split; [apply Hrefl|]. now rewrite E.
    + destruct (LeadResearchAgent.is_transient e).
      * destruct (j <? n - 1)%nat.
        -- unfold bind.
           pose proof (Hsl (bd * inject_Z (2 ^ Z.of_nat j))%Q s1) as Hs.
           destruct (sleep (bd * inject_Z (2 ^ Z.of_nat j))%Q s1)
             as [[[]|e'] s2] eqn:Es; [|discriminate Es].
           cbn [snd] in Hs.
           destruct (IH (S j) s2) as (s' & Hr & Heq); [lia|].
           exists s'. split; [|exact Heq].
           eapply Htrans; [eapply Hf; exact E|].
           eapply Htrans; eassumption.
        -- exists s. split; [apply Hrefl|]. now rewrite E.
      * exists s. split; [apply Hrefl|]. now rewrite E.
Qed.

(** When [create_citations] raises, no object of the store was
    touched. *)
Lemma create_citations_raise_keeps_store (l : nat) (style : string)
    (s s1 : State) (e : Exn) :
  CitationsAgent.create_citations l style s = (Raise e, s1) ->
  extends s s1 /\ same_store s s1.
Proof.
  intros H. split.
  - pose proof (monotone_create_citations l style s) as Hm.
    now rewrite H in Hm.
  - revert H. unfold CitationsAgent.create_citations.
    unfold bind at 1. unfold get at 1. cbv beta iota.
    unfold bind at 1. unfold runner_run at 1. cbv beta iota zeta.
    destruct (runner _ _ _) as [out|e'].
    + unfold bind at 1. unfold read_list at 1. cbv beta iota.
      unfold bind at 1. rewrite for_each_set_attributes.
      unfold ret. discriminate.
    + intros H. inversion H; subst.
      eapply same_store_trans; [apply tick_same_store|]. repeat split.
Qed.

(** A citation task whose every call of the agent raises [e] raises
    [e], with the store as it was. *)
Lemma citation_task_raises (l : nat) (acc : list nat) (it : nat * Task)
    (s : State) (e : Exn) :
  (forall h style entries,
      runner (platform s) h (CitationsCall style entries) = Raise e) ->
  exists s',
    LeadResearchAgent.citation_task l acc it s = (Raise e, s')
    /\ same_store s s'.
Proof.
  intros Hdown. unfold LeadResearchAgent.citation_task.
  rewrite (bind_ok _ _ _ _ _ (run_unit _ s never_raises_rate_limit)).
  pose proof (monotone_rate_limit s) as (Hp1 & _).
  pose proof (keeps_store_rate_limit s) as Hk1.
  set (s2 := snd (LeadResearchAgent._rate_limit s)) in *.
  match goal with |- context [bind (LeadResearchAgent._log_execution
                                      ?a ?b ?c ?d ?f)] =>
    rewrite (bind_ok _ _ _ _ _
               (run_unit _ s2 (never_raises_log a b c d f)));
    pose proof (monotone_log a b c d f s2) as (Hp3 & _);
    pose proof (keeps_store_log a b c d f s2) as Hk3;
    set (s3 := snd (LeadResearchAgent._log_execution a b c d f s2)) in *
  end.
  destruct (retry_loop_attempt_related
              (fun a b => extends a b /\ same_store a b)
              (CitationsAgent.create_citations l "APA") 3 5%Q)
    with (k := 2%nat) (j := 0%nat) (s := s3) as (s4 & [He4 Hk4] & Hr).
  - intros x. split; [apply extends_refl|apply same_store_refl].
  - intros x y z [? ?] [? ?].
    split; [eapply extends_trans|eapply same_store_trans]; eassumption.
  - intros x e' x1 Hx. eapply create_citations_raise_keeps_store. exact Hx.
  - intros d x. split; [apply monotone_sleep|apply keeps_store_sleep].
  - reflexivity.
  - unfold LeadResearchAgent._retry_with_backoff, Py.range.
    change (seq 0 (3 - 0)) with (seq 0 3). unfold bind at 1. rewrite Hr.
    assert (Hp4 : platform s4 = platform s).
    { destruct He4 as [-> _]. rewrite Hp3, Hp1. reflexivity. }
    assert (Hraise : exists s5,
               CitationsAgent.create_citations l "APA" s4
               = (Raise e, s5)).
    { unfold CitationsAgent.create_citations.
      unfold bind at 1. unfold get at 1. cbv beta iota.
      unfold bind at 1. unfold runner_run at 1. cbv beta iota zeta.
      rewrite tick_platform, Hp4, Hdown. now eexists. }
    destruct Hraise as [s5 E5]. rewrite E5.
    exists s5. split; [reflexivity|].
    destruct (create_citations_raise_keeps_store _ _ _ _ _ E5) as [_ Hk5].
    eapply same_store_trans; [exact Hk1|].
    eapply same_store_trans; [exact Hk3|].
    eapply same_store_trans; [exact Hk4|exact Hk5].
Qed.

(** X11. A failure of the citations agent is not captured: when every
    call of the agent raises [e], the citation stage of a plan with a
    citation task and at least one gathered source raises [e] (after
    the retries, when [e] has a transient signature), and no [Citation]
    object has been updated. *)
Theorem citation_failure_is_raised (cts : list Task)
    (srs : list ResearchResult) (s : State) (e : Exn) :
  cts <> [] ->
  Forall (fun r => sources r <> next_addr s) srs ->
  gathered_sources s srs <> [] ->
  (forall h style entries,
      runner (platform s) h (CitationsCall style entries) = Raise e) ->
  exists s',
    LeadResearchAgent.citation_stage cts srs s = (Raise e, s')
    /\ objects s' = objects s.
Proof.
  intros Hcts Hwf Hne Hdown. unfold LeadResearchAgent.citation_stage.
  rewrite (nonempty_ne _ Hcts).
  rewrite (bind_ok _ _ _ _ _ (collect_sources_spec srs s Hwf)).
  set (s1 := set_store (objects s)
               (<[next_addr s := gathered_sources s srs]> (list_objects s))
               (S (next_addr s)) s).
  assert (Hlist : list_at s1 (next_addr s) = gathered_sources s srs).
  { unfold list_at, s1. cbn [list_objects set_store].
    now rewrite lookup_insert_eq. }
  unfold bind at 1. unfold read_list at 1. cbv beta iota.
  rewrite Hlist, (nonempty_ne _ Hne).
  destruct cts as [|t cts]; [congruence|].
  cbn [Py.enumerate foldM].
  destruct (citation_task_raises (next_addr s) [] (1%nat, t) s1 e Hdown)
    as (s' & E & Ho & _).
  rewrite (bind_raise _ _ _ _ _ E).
  exists s'. split; [reflexivity|]. rewrite Ho. reflexivity.
Qed.

Lemma citation_failure_is_raised_witness :
  exists s',
    LeadResearchAgent.citation_stage two_citation_tasks [two_source_result]
      (set_store (objects two_source_state) (list_objects two_source_state)
         3 (sample_state
              (const_platform (Raise (Exception "401 Unauthorized")))))
    = (Raise (Exception "401 Unauthorized"), s')
    /\ objects s' !! 0%nat = Some academic_source.
Proof.
  destruct (citation_failure_is_raised two_citation_tasks [two_source_result]
              (set_store (objects two_source_state)
                 (list_objects two_source_state) 3
                 (sample_state
                    (const_platform (Raise (Exception "401 Unauthorized")))))
              (Exception "401 Unauthorized")) as (s' & E & Ho).
  - discriminate.
  - repeat constructor. discriminate.
  - vm_compute. discriminate.
  - reflexivity.
  - exists s'. split; [exact E|]. rewrite Ho. reflexivity.
Defined.

(** X12. The only failures that leave [_execute_research_plan] are
    those of the citation stage. The search stage and the reflection
    stage never raise; when the execution raises [e], the search stage
    has returned results, the reflection stage has returned on them, and
    it is the citation stage, run then on these very results, that
    raised [e]: the plan has a citation task and a search has
    succeeded. *)
Theorem only_citation_failures_escape (plan : ResearchPlan)
    (reqs : ResearchRequirement) (s : State) :
  let sts := LeadResearchAgent.by_agent "Search" (tasks plan) in
  let rts := LeadResearchAgent.by_agent "Reflection" (tasks plan) in
  let cts := LeadResearchAgent.by_agent "Citations" (tasks plan) in
  (exists srs, fst (LeadResearchAgent.search_stage reqs sts s) = Ok srs)
  /\ (forall srs s1,
        exists rrs, fst (LeadResearchAgent.reflection_stage rts srs s1)
                    = Ok rrs)
  /\ (forall e,
        fst (LeadResearchAgent._execute_research_plan plan reqs s) = Raise e ->
        exists srs s1 rrs s2 s3,
          LeadResearchAgent.search_stage reqs sts s = (Ok srs, s1)
          /\ LeadResearchAgent.reflection_stage rts srs s1 = (Ok rrs, s2)
          /\ LeadResearchAgent.citation_stage cts srs s2 = (Raise e, s3)
          /\ snd (LeadResearchAgent._execute_research_plan plan reqs s) = s3
          /\ cts <> [] /\ srs <> []).
Proof.
  cbv zeta.
  destruct (search_stage_isolates_failures reqs
              (LeadResearchAgent.by_agent "Search" (tasks plan)) s)
    as (outs & _ & _ & _ & Hs & _).
  split; [eexists; exact Hs|].
  split; [intros; apply reflection_stage_never_raises|].
  intros e.
  destruct (LeadResearchAgent.search_stage _ _ s) as [r s1] eqn:Es.
  cbn [fst] in Hs. subst r.
  destruct (reflection_stage_never_raises
              (LeadResearchAgent.by_agent "Reflection" (tasks plan))
              (successes outs) s1) as [rrs Hr].
  destruct (LeadResearchAgent.reflection_stage _ _ s1) as [r s2] eqn:Er.
  cbn [fst] in Hr. subst r.
  unfold LeadResearchAgent._execute_research_plan.
  rewrite (bind_ok _ _ _ _ _ Es), (bind_ok _ _ _ _ _ Er).
  destruct (LeadResearchAgent.citation_stage
              (LeadResearchAgent.by_agent "Citations" (tasks plan))
              (successes outs) s2)
    as [[c|e'] s3] eqn:Ec.
  { rewrite (bind_ok _ _ _ _ _ Ec). discriminate. }
  rewrite (bind_raise _ _ _ _ _ Ec).
  cbn [fst snd]. intros H. injection H as ->.
  exists (successes outs), s1, rrs, s2, s3.
  split; [reflexivity|]. split; [exact Er|]. split; [exact Ec|].
  split; [reflexivity|]. split.
  - intros Hcts. rewrite Hcts in Ec. discriminate Ec.
  - intros Hsrs. rewrite Hsrs in Ec.
    destruct (citation_stage_no_results
                (LeadResearchAgent.by_agent "Citations" (tasks plan)) s2)
      as (sx & Ex & _).
    rewrite Ex in Ec. discriminate Ec.
Qed.

Lemma only_citation_failures_escape_witness :
  exists srs s1 rrs s2 s3,
    LeadResearchAgent.search_stage sample_requirements
      (LeadResearchAgent.by_agent "Search" (tasks deep_plan))
      (sample_state citations_down_platform) = (Ok srs, s1)
    /\ LeadResearchAgent.reflection_stage
         (LeadResearchAgent.by_agent "Reflection" (tasks deep_plan)) srs s1
       = (Ok rrs, s2)
    /\ LeadResearchAgent.citation_stage
         (LeadResearchAgent.by_agent "Citations" (tasks deep_plan)) srs s2
       = (Raise (Exception "401 Unauthorized"), s3)
    /\ srs <> [].
Proof.
  destruct (only_citation_failures_escape deep_plan sample_requirements
              (sample_state citations_down_platform)) as (_ & _ & H).
  destruct (H (Exception "401 Unauthorized"))
    as (srs & s1 & rrs & s2 & s3 & E1 & E2 & E3 & _ & _ & Hne).
  - vm_compute. reflexivity.
  - exists srs, s1, rrs, s2, s3. repeat split; assumption.
Defined.

(** The objects allocated for a list of citations: consecutive fresh
    addresses that read back as the citations, with the objects below
    the first address as they were. *)
Lemma alloc_citations_spec (cs : list Citation) :
  forall s, exists s',
    alloc_citations cs s = (Ok (seq (next_addr s) (length cs)), s')
    /\ next_addr s' = (next_addr s + length cs)%nat
    /\ list_objects s' = list_objects s
    /\ history s' = history s
    /\ execution_trace s' = execution_trace s
    /\ (forall a, (a < next_addr s)%nat -> objects s' !! a = objects s !! a)
    /\ citations_at s' (seq (next_addr s) (length cs)) = cs.
Proof.
  induction cs as [|c cs IH]; intros s.
  - exists s. cbn. rewrite Nat.add_0_r. repeat split; reflexivity.
  - cbn [alloc_citations]. unfold bind at 1. cbn [alloc_citation].
    set (s1 := set_store (<[next_addr s := c]> (objects s)) (list_objects s)
                 (S (next_addr s)) s).
    destruct (IH s1) as (s' & E & Hn & Hl & Hh & Ht & Hold & Hread).
    unfold bind at 1. rewrite E. unfold ret.
    change (next_addr s1) with (S (next_addr s)) in *.
    exists s'. cbn [length seq].
    split; [reflexivity|]. split; [lia|].
    split; [exact Hl|]. split; [exact Hh|]. split; [exact Ht|]. split.
    + intros a Ha. rewrite Hold by lia. unfold s1. cbn [objects set_store].
      apply lookup_insert_ne. lia.
    + unfold citations_at in *. cbn [omap list_omap].
      rewrite Hold by lia. unfold s1 at 1. cbn [objects set_store].
      rewrite lookup_insert_eq. f_equal. exact Hread.
Qed.

(** X13. A search that the model answers returns the answer as content,
    with a fresh list of fresh [Citation] objects that read back as the
    sources extracted from the answer; the objects and lists that were
    in the store stay as they were, and the one call made names the
    query only (the context is not sent). *)
Theorem search_sources_read_back (query context out : string) (s : State) :
  runner (platform s) (history s) (SearchCall query) = Ok out ->
  exists r s',
    SearchAgent.search query context s = (Ok r, s')
    /\ content r = out
    /\ confidence_level r = "high"
    /\ conflicts_noted r = []
    /\ citations_at s' (list_at s' (sources r))
       = SearchAgent._extract_sources out
    /\ NoDup (sources r :: list_at s' (sources r))
    /\ Forall (fun a => (next_addr s <= a < next_addr s')%nat)
         (sources r :: list_at s' (sources r))
    /\ (forall a, (a < next_addr s)%nat ->
          objects s' !! a = objects s !! a
          /\ list_objects s' !! a = list_objects s !! a)
    /\ history s' = (history s ++ [SearchCall query])%list.
Proof.
  intros Hout. unfold SearchAgent.search.
  unfold bind at 1. unfold runner_run at 1. cbv beta iota zeta.
  rewrite tick_platform, tick_history, Hout.
  set (s1 := set_history (history s ++ [SearchCall query]) (tick s)).
  assert (Hn1 : next_addr s1 = next_addr s) by apply tick_next_addr.
  assert (Ho1 : objects s1 = objects s) by apply tick_objects.
  assert (Hl1 : list_objects s1 = list_objects s) by apply tick_list_objects.
  assert (Hh1 : history s1 = (history s ++ [SearchCall query])%list)
    by reflexivity.
  clearbody s1.
  destruct (alloc_citations_spec (SearchAgent._extract_sources out) s1)
    as (s2 & E & Hn & Hl & Hh & _ & Hold & Hread).
  rewrite (bind_ok _ _ _ _ _ E).
  unfold bind at 1. cbn [alloc_list]. unfold ret.
  set (cs := SearchAgent._extract_sources out) in *.
  set (s3 := set_store _ _ _ s2).
  assert (Hlist : list_at s3 (next_addr s2) = seq (next_addr s1) (length cs)).
  { unfold list_at, s3. cbn [list_objects set_store].
    now rewrite lookup_insert_eq. }
  exists {| content := out; sources := next_addr s2;
            confidence_level := "high"; conflicts_noted := [];
            result_quality_score := 0.85%float |}, s3.
  cbn [content confidence_level conflicts_noted sources].
  rewrite Hlist.
  split; [reflexivity|]. split; [reflexivity|]. split; [reflexivity|].
  split; [reflexivity|]. split; [exact Hread|].
  split; [|split; [|split]].
  - constructor; [|apply List.seq_NoDup].
    rewrite in_seq. lia.
  - constructor.
    + unfold s3. cbn [next_addr set_store]. lia.
    + apply Forall_forall. intros a Ha. apply in_seq in Ha.
      unfold s3. cbn [next_addr set_store]. lia.
  - intros a Ha. unfold s3. cbn [objects list_objects set_store]. split.
    + rewrite Hold by lia. now rewrite Ho1.
    + rewrite lookup_insert_ne by lia. now rewrite Hl, Hl1.
  - unfold s3. cbn [history set_store]. rewrite Hh. exact Hh1.
Qed.

Lemma search_sources_read_back_witness :
  exists r s',
    SearchAgent.search "oceans" "ignored"
      (sample_state (const_platform (Ok academic_text))) = (Ok r, s')
    /\ citations_at s' (list_at s' (sources r)) = [academic_source].
Proof.
  destruct (search_sources_read_back "oceans" "ignored" academic_text
              (sample_state (const_platform (Ok academic_text))))
    as (r & s' & E & _ & _ & _ & Hread & _); [reflexivity|].
  exists r, s'. split; [exact E|]. rewrite Hread. reflexivity.
Defined.

(* ================================================================== *)
(** * ReflectionAgent: the conflicts noted and their resolution *)
(* ================================================================== *)

Lemma extract_conflicts_loop (lines acc : list string) :
  fold_left
    (fun conflicts line =>
       if Py.any_in ReflectionAgent.conflict_keywords (Py.lower line)
       then (conflicts ++ [Py.strip Py.isspace line])%list
       else conflicts)
    lines acc
  = (acc ++ map (Py.strip Py.isspace)
              (filter (fun line =>
                         Py.any_in ReflectionAgent.conflict_keywords
                                   (Py.lower line)) lines))%list.
Proof.
  revert acc. induction lines as [|l lines IH]; intros acc.
  - cbn. now rewrite app_nil_r.
  - cbn [fold_left filter]. rewrite IH.
    destruct (Py.any_in _ _); [|reflexivity].
    cbn [map]. now rewrite <- app_assoc.
Qed.

(** X14. The conflicts noted in a reflection are the lines of its text
    that contain one of the conflict keywords as a substring, in any
    letter case, each stripped of surrounding whitespace, in the order
    of the text. *)
Theorem noted_conflicts_are_keyword_lines (content_ : string) :
  let lines := Py.split nl content_ in
  let noted := ReflectionAgent._extract_conflicts content_ in
  noted
  = map (Py.strip Py.isspace)
      (filter (fun line => Py.any_in ReflectionAgent.conflict_keywords
                                     (Py.lower line)) lines)
  /\ (forall line keyword,
        In line lines -> In keyword ReflectionAgent.conflict_keywords ->
        Py.str_in keyword (Py.lower line) = true ->
        In (Py.strip Py.isspace line) noted)
  /\ (forall c, In c noted ->
        exists line keyword,
          In line lines /\ c = Py.strip Py.isspace line
          /\ In keyword ReflectionAgent.conflict_keywords
          /\ Py.str_in keyword (Py.lower line) = true)
  /\ (length noted <= length lines)%nat.
Proof.
  cbv zeta.
  assert (E : ReflectionAgent._extract_conflicts content_
              = map (Py.strip Py.isspace)
                  (filter (fun line =>
                             Py.any_in ReflectionAgent.conflict_keywords
                                       (Py.lower line))
                          (Py.split nl content_))).
  { unfold ReflectionAgent._extract_conflicts.
    exact (extract_conflicts_loop _ []). }
  rewrite E. split; [reflexivity|]. split; [|split].
  - intros line keyword Hl Hk Hin. apply in_map, filter_In.
    split; [exact Hl|]. unfold Py.any_in. apply existsb_exists.
    exists keyword. split; assumption.
  - intros c Hc. apply in_map_iff in Hc. destruct Hc as (line & <- & Hf).
    apply filter_In in Hf. destruct Hf as [Hl Hany].
    unfold Py.any_in in Hany. apply existsb_exists in Hany.
    destruct Hany as (keyword & Hk & Hin).
    exists line, keyword. repeat split; assumption.
  - rewrite length_map. apply filter_length_le.
Qed.

Lemma categorize_result (conflicts : list string) :
  ReflectionAgent._categorize_conflicts conflicts
  = filter (fun kv => ReflectionAgent.nonempty (snd kv))
      (map (fun k => (k, bucket k conflicts)) bucket_keys).
Proof.
  unfold ReflectionAgent._categorize_conflicts,
    ReflectionAgent.empty_categories.
  rewrite categorize_loop. reflexivity.
Qed.

Lemma some_bucket_nonempty (conflicts : list string) :
  conflicts <> [] ->
  ~ (bucket "temporal" conflicts = []
     /\ bucket "methodological" conflicts = []
     /\ bucket "perspectival" conflicts = []
     /\ bucket "data_quality" conflicts = []).
Proof.
  intros Hne (Ht & Hm & Hp & Hd).
  pose proof (bucket_partition conflicts) as H.
  rewrite Ht, Hm, Hp, Hd in H. cbn in H.
  apply Permutation_nil in H. contradiction.
Qed.

(** No resolution strategy reads the search results. *)
Lemma resolve_loop_ignores_results (srs : list ResearchResult)
    (cats : list (string * list string)) :
  forall acc,
    fold_left
      (fun resolutions kv =>
         match ConflictResolution.dict_get
                 (fst kv) ConflictResolution.resolution_strategies with
         | Some resolve => (resolutions ++ [resolve (snd kv) srs])%list
         | None => resolutions
         end) cats acc
    = fold_left
        (fun resolutions kv =>
           match ConflictResolution.dict_get
                   (fst kv) ConflictResolution.resolution_strategies with
           | Some resolve => (resolutions ++ [resolve (snd kv) []])%list
           | None => resolutions
           end) cats acc.
Proof.
  induction cats as [|[k v] cats IH]; intros acc; [reflexivity|].
  cbn [fold_left fst snd].
  destruct (ConflictResolution.dict_get k _) as [f|] eqn:Ef; [|apply IH].
  assert (Hf : f v srs = f v []).
  { revert Ef. unfold ConflictResolution.resolution_strategies.
    cbn [ConflictResolution.dict_get].
    repeat (destruct (String.eqb _ k);
            [intros H; inversion H; reflexivity|]).
    discriminate. }
  rewrite Hf. apply IH.
Qed.

(** X15. [_resolve_conflicts] answers with confidence 1 and no strategy
    count when there is no conflict. Otherwise one strategy is applied
    for each non-empty category of the conflicts: their number, between
    1 and 4, is the count reported, the confidence is the mean of the
    confidences of these strategies and lies between 0.7 and 0.9, and
    the text lists the strategies in the iteration order of the set. The
    search results do not enter the answer. *)
Theorem resolution_follows_categories
    (set_order : list string -> list string) (conflicts : list string)
    (search_results_ : list ResearchResult) :
  let r := ConflictResolution._resolve_conflicts set_order conflicts
             search_results_ in
  let categories := ReflectionAgent._categorize_conflicts conflicts in
  let applied :=
    omap (fun kv =>
            option_map (fun resolve => resolve (snd kv) search_results_)
              (ConflictResolution.dict_get
                 (fst kv) ConflictResolution.resolution_strategies))
         categories in
  (conflicts = [] ->
     r = {| ConflictResolution.final_resolution := "No conflicts detected";
            ConflictResolution.final_confidence := 1.0%Q;
            ConflictResolution.strategies_applied := None |})
  /\ (conflicts <> [] ->
        map ConflictResolution.type_ applied = map fst categories
        /\ ConflictResolution.strategies_applied r
           = Some (length categories)
        /\ (1 <= length categories <= 4)%nat
        /\ ConflictResolution.final_resolution r
           = "Multiple conflict resolution strategies applied: "
             ++ Py.join ", "
                  (set_order (map ConflictResolution.strategy applied))
        /\ (ConflictResolution.final_confidence r
            == ConflictResolution.sum
                 (map ConflictResolution.confidence applied)
               / inject_Z (Z.of_nat (length categories)))%Q
        /\ (0.7 <= ConflictResolution.final_confidence r <= 0.9)%Q)
  /\ r = ConflictResolution._resolve_conflicts set_order conflicts [].
Proof.
  cbv zeta. split; [intros ->; reflexivity|]. split.
  - intros Hne. pose proof (some_bucket_nonempty conflicts Hne) as Hsome.
    unfold ConflictResolution._resolve_conflicts.
    destruct conflicts as [|c0 cs] eqn:Ec; [congruence|].
    rewrite <- Ec in *. clear Ec Hne.
    rewrite categorize_result. unfold bucket_keys. cbn [map].
    destruct (bucket "temporal" conflicts) as [|t ts];
      destruct (bucket "methodological" conflicts) as [|m ms];
      destruct (bucket "perspectival" conflicts) as [|p ps];
      destruct (bucket "data_quality" conflicts) as [|d ds];
      try (exfalso; apply Hsome; repeat split; reflexivity);
      (split; [reflexivity|]); (split; [reflexivity|]);
      (split; [cbn; lia|]); (split; [reflexivity|]);
      (split; [reflexivity|]);
      split; vm_compute; discriminate.
  - unfold ConflictResolution._resolve_conflicts.
    destruct conflicts as [|c0 cs]; [reflexivity|].
    f_equal. apply resolve_loop_ignores_results.
Qed.

Lemma resolution_follows_categories_witness :
  ConflictResolution.strategies_applied
    (ConflictResolution._resolve_conflicts (nodup string_dec)
       ["However, the latest study disagrees";
        "But opinions differ"] [])
  = Some 2%nat.
Proof.
  destruct (resolution_follows_categories (nodup string_dec)
              ["However, the latest study disagrees";
               "But opinions differ"] []) as (_ & H & _).
  destruct H as (_ & -> & _); [discriminate|]. reflexivity.
Defined.

(* ================================================================== *)
(** * The chat interface and the retry policy *)
(* ================================================================== *)

(** X16. The notice the chat interface shows for a failure, against the
    failures [_retry_with_backoff] retries: a failure that is retried is
    never shown as a system error; the notice of a temporary API error
    is shown for retried failures only; and the notice of a reached rate
    limit is shown for a failure that is not retried exactly when its
    text has "quota" (in any letter case) and none of "500", "INTERNAL"
    and "429". *)
Theorem notice_against_retry_policy (e : Exn) :
  let msg := str_of_exn e in
  (LeadResearchAgent.is_transient e = true ->
     App.error_notice e = App.TemporaryApiError msg
     \/ App.error_notice e = App.RateLimitReached msg)
  /\ (App.error_notice e = App.TemporaryApiError msg ->
        LeadResearchAgent.is_transient e = true)
  /\ (App.error_notice e = App.RateLimitReached msg
      /\ LeadResearchAgent.is_transient e = false
      <-> Py.str_in "quota" (Py.lower msg) = true
          /\ Py.str_in "500" msg = false
          /\ Py.str_in "INTERNAL" msg = false
          /\ Py.str_in "429" msg = false)
  /\ (App.error_notice e = App.SystemError msg
      <-> Py.str_in "500" msg = false
          /\ Py.str_in "INTERNAL" msg = false
          /\ Py.str_in "429" msg = false
          /\ Py.str_in "quota" (Py.lower msg) = false).
Proof.
  cbv zeta. unfold App.error_notice, LeadResearchAgent.is_transient.
  destruct (Py.str_in "500" (str_of_exn e));
    destruct (Py.str_in "INTERNAL" (str_of_exn e));
    destruct (Py.str_in "429" (str_of_exn e));
    destruct (Py.str_in "quota" (Py.lower (str_of_exn e)));
    cbn [orb]; intuition congruence.
Qed.

Lemma notice_against_retry_policy_witness :
  App.error_notice (Exception "Quota exceeded for this project")
  = App.RateLimitReached "Quota exceeded for this project"
  /\ LeadResearchAgent.is_transient
       (Exception "Quota exceeded for this project") = false.
Proof.
  destruct (notice_against_retry_policy
              (Exception "Quota exceeded for this project"))
    as (_ & _ & [_ H] & _).
  apply H. repeat split; reflexivity.
Defined.

(* ================================================================== *)
(** * The rate limiter and the retry, once more *)
(* ================================================================== *)

Lemma tick_idle (s : State) : ticks s = [] -> tick s = s.
Proof. intros H. unfold tick. now rewrite H. Qed.

(** X17. On a clock that only moves by sleeping, a call of
    [_rate_limit] returns at the later of the current time and the
    cursor plus the delay, and leaves the cursor there: it does not wait
    when the delay has passed, and it waits for what is left of the
    delay otherwise. It makes no call and logs nothing. *)
Theorem rate_limit_resumes_when_due (s : State) :
  ticks s = [] ->
  let s' := snd (LeadResearchAgent._rate_limit s) in
  fst (LeadResearchAgent._rate_limit s) = Ok tt
  /\ (clock s' == Qmax (clock s) (last_api_call s + rate_limit_delay s))%Q
  /\ last_api_call s' = clock s'
  /\ ((rate_limit_delay s <= clock s - last_api_call s)%Q ->
      clock s' = clock s)
  /\ ((clock s - last_api_call s < rate_limit_delay s)%Q ->
      (clock s' == last_api_call s + rate_limit_delay s)%Q)
  /\ ticks s' = []
  /\ history s' = history s
  /\ execution_trace s' = execution_trace s.
Proof.
  intros Ht. cbv zeta.
  unfold LeadResearchAgent._rate_limit, bind, time_time, get, modify, ret,
    sleep. cbv zeta. rewrite (tick_idle s Ht).
  destruct (LeadResearchAgent.Qltb _ _) eqn:Elt.
  - apply Qltb_true in Elt. rewrite (tick_idle s Ht).
    set (s3 := set_time _ _ s).
    assert (Ht3 : ticks s3 = []) by exact Ht.
    rewrite (tick_idle s3 Ht3). cbn [fst snd].
    assert (Hc : clock s3
                 = (clock s + Qmax 0 (rate_limit_delay s
                                      - (clock s - last_api_call s)))%Q)
      by reflexivity.
    change (clock (set_last_api_call (clock s3) s3)) with (clock s3).
    change (last_api_call (set_last_api_call (clock s3) s3))
      with (clock s3).
    assert (Hm : (Qmax 0 (rate_limit_delay s - (clock s - last_api_call s))
                  == rate_limit_delay s - (clock s - last_api_call s))%Q).
    { apply Q.max_r. lra. }
    split; [reflexivity|]. split; [|split; [reflexivity|split; [|split]]].
    + rewrite Hc, Hm. rewrite Q.max_r by lra. lra.
    + intros Hle. lra.
    + intros _. rewrite Hc, Hm. lra.
    + repeat split; assumption.
  - apply Qltb_false in Elt. cbn [fst snd]. rewrite (tick_idle s Ht).
    change (clock (set_last_api_call (clock s) s)) with (clock s).
    change (last_api_call (set_last_api_call (clock s) s)) with (clock s).
    split; [reflexivity|]. split; [|split; [reflexivity|split; [|split]]].
    + rewrite Q.max_l by lra. reflexivity.
    + reflexivity.
    + intros Hlt. lra.
    + repeat split; assumption.
Qed.

Lemma rate_limit_resumes_when_due_witness :
  clock (snd (LeadResearchAgent._rate_limit
                (LeadResearchAgent.init search_down_platform 1000%Q [])))
  = 1000%Q.
Proof.
  destruct (rate_limit_resumes_when_due
              (LeadResearchAgent.init search_down_platform 1000%Q []))
    as (_ & _ & _ & H & _); [reflexivity|].
  apply H. vm_compute. discriminate.
Defined.

(** The loop over the attempts [j], [j + 1], ...: when the first [k]
    attempts raise a transient failure and the next one settles, the
    loop ends with the outcome of that attempt. *)
Lemma retry_loop_settles {A} (func : M A) (n : nat) (bd : Q) :
  forall k j m s, (j + S k + m = n)%nat ->
    (forall i, (i < k)%nat -> exists e,
        fst (attempts_from func bd j i s) = Raise e
        /\ LeadResearchAgent.is_transient e = true) ->
    (forall e, fst (attempts_from func bd j k s) = Raise e ->
               LeadResearchAgent.is_transient e = true -> m = 0%nat) ->
    LeadResearchAgent.retry_loop func n bd (seq j (S k + m)) s
    = attempts_from func bd j k s.
Proof.
  induction k as [|k IH]; intros j m s Hn Hfail Hlast.
  - cbn [Nat.add seq LeadResearchAgent.retry_loop attempts_from] in *.
    destruct (func s) as [[a|e] s1] eqn:E; [reflexivity|].
    destruct (LeadResearchAgent.is_transient e) eqn:Et; [|reflexivity].
    rewrite (Hlast e eq_refl Et) in Hn.
    replace (j <? n - 1)%nat with false; [reflexivity|].
    symmetry. apply Nat.ltb_ge. lia.
  - change (seq j (S (S k) + m)) with (j :: seq (S j) (S k + m)).
    cbn [LeadResearchAgent.retry_loop attempts_from].
    destruct (Hfail 0%nat ltac:(lia)) as (e & He & Ht).
    cbn [attempts_from] in He.
    destruct (func s) as [r s1] eqn:E. cbn [fst] in He. subst r.
    rewrite Ht.
    replace (j <? n - 1)%nat with true
      by (symmetry; apply Nat.ltb_lt; lia).
    unfold bind. cbn [sleep snd]. apply (IH (S j)).
    + lia.
    + intros i Hi. destruct (Hfail (S i) ltac:(lia)) as (e' & He' & Ht').
      cbn [attempts_from] in He'. rewrite E in He'. cbn [snd sleep] in He'.
      exists e'. split; assumption.
    + intros e' He' Ht'. apply (Hlast e'); [|exact Ht'].
      cbn [attempts_from]. rewrite E. exact He'.
Qed.

(** X18. [_retry_with_backoff] ends with the first attempt that
    settles. When the first [k] attempts, [k] below [max_retries], raise
    a transient failure and attempt [k + 1] returns, or raises another
    failure, or is the last one allowed, then the outcome is that of
    attempt [k + 1], made after [k] sleeps of [base_delay * 2 ^ j]
    seconds, [j = 0 .. k - 1]; no further attempt is made. *)
Theorem retry_ends_with_first_settled_attempt {A} (func : M A)
    (max_retries : nat) (base_delay : Q) (k : nat) (s : State) :
  (k < max_retries)%nat ->
  (forall i, (i < k)%nat -> exists e,
      fst (attempts_from func base_delay 0 i s) = Raise e
      /\ LeadResearchAgent.is_transient e = true) ->
  (forall e, fst (attempts_from func base_delay 0 k s) = Raise e ->
             LeadResearchAgent.is_transient e = true ->
             k = (max_retries - 1)%nat) ->
  LeadResearchAgent._retry_with_backoff func max_retries base_delay s
  = attempts_from func base_delay 0 k s.
Proof.
  intros Hk Hfail Hlast.
  unfold LeadResearchAgent._retry_with_backoff, Py.range.
  replace (max_retries - 0)%nat with (S k + (max_retries - S k))%nat by lia.
  apply retry_loop_settles; [lia|exact Hfail|].
  intros e He Ht. rewrite (Hlast e He Ht). lia.
Qed.

Lemma retry_ends_with_first_settled_attempt_witness :
  exists r s',
    LeadResearchAgent._retry_with_backoff
      (SearchAgent.search "oceans" "") 3 5%Q (sample_state flaky_platform)
    = (Ok r, s')
    /\ content r = academic_text
    /\ length (history s') = 2%nat.
Proof.
  rewrite (retry_ends_with_first_settled_attempt
             (SearchAgent.search "oceans" "") 3 5%Q 1
             (sample_state flaky_platform)).
  - eexists _, _. split; [vm_compute; reflexivity|].
    split; reflexivity.
  - lia.
  - intros i Hi. assert (i = 0%nat) as -> by lia.
    eexists. split; vm_compute; reflexivity.
  - intros e He. vm_compute in He. discriminate He.
Defined.

(** No source read from a search answer has an author or a date. *)
Lemma extracted_without_author (content_ : string) (c : Citation) :
  In c (SearchAgent._extract_sources content_) ->
  author c = None /\ publication_date c = None.
Proof.
  unfold SearchAgent._extract_sources.
  set (lines := Py.split _ content_).
  assert (H : forall its acc,
             Forall (fun c => author c = None /\ publication_date c = None)
                    acc ->
             Forall (fun c => author c = None /\ publication_date c = None)
               (fold_left (fun sources '(i, line) =>
                             SearchAgent.extract_line lines sources i line)
                          its acc)).
  { induction its as [|[i line] its IH]; intros acc Hacc; [exact Hacc|].
    cbn [fold_left]. apply IH. unfold SearchAgent.extract_line.
    destruct (Py.str_in "http" line); [|exact Hacc].
    destruct (SearchAgent.parse_line lines i line) as [[u t]|];
      [|exact Hacc].
    apply Forall_app. split; [exact Hacc|].
    constructor; [split; reflexivity|constructor]. }
  intros Hin.
  exact (proj1 (Forall_forall _ _) (H (Py.enumerate 0 lines) [] (Forall_nil _))
               c Hin).
Qed.

(** X19. The APA text of a source never shows an author or a date taken
    from the source: a source read from a search answer is cited as
    "Unknown (n.d.)", and once the citations agent has processed it, as
    "Unknown (2024)"; the title and the URL are those extracted. *)
Theorem apa_text_of_extracted_source (content_ : string) (c : Citation) :
  In c (SearchAgent._extract_sources content_) ->
  to_apa_format c
  = "Unknown (n.d.). " ++ title c ++ ". Retrieved from " ++ url c
  /\ to_apa_format (CitationsAgent.enhance c)
     = "Unknown (2024). " ++ title c ++ ". Retrieved from " ++ url c.
Proof.
  intros Hin. destruct (extracted_without_author content_ c Hin) as [Ha Hd].
  unfold to_apa_format. rewrite Ha, Hd. split; reflexivity.
Qed.

Lemma apa_text_of_extracted_source_witness :
  to_apa_format academic_source
  = "Unknown (n.d.). Deep Research on Oceans. Retrieved from http://ocean.mit.edu/paper".
Proof.
  destruct (apa_text_of_extracted_source academic_text academic_source)
    as [H _].
  - vm_compute. left. reflexivity.
  - rewrite H. reflexivity.
Defined.

(* ================================================================== *)
(** * The tracing data over a run *)
(* ================================================================== *)

Section Invariant.

Variable I : State -> Prop.
Hypothesis I_frame : reads_log_only I.
Hypothesis I_log : kept_by_logging I.

Lemma preserves_ret {A} (a : A) : preserves I (ret a).
Proof. intros s H. exact H. Qed.

Lemma preserves_raise {A} (e : Exn) : preserves I (raise e : M A).
Proof. intros s H. exact H. Qed.

Lemma preserves_get : preserves I get.
Proof. intros s H. exact H. Qed.

Lemma preserves_bind {A B} (m : M A) (k : A -> M B) :
  preserves I m -> (forall a, preserves I (k a)) -> preserves I (bind m k).
Proof.
  intros Hm Hk s H. unfold bind. specialize (Hm s H).
  destruct (m s) as [[a|e] s1]; cbn [snd] in *; [|assumption].
  now apply Hk.
Qed.

Lemma preserves_tick (s : State) : I s -> I (tick s).
Proof.
  apply I_frame; [apply tick_execution_trace|].
  unfold tick. now destruct (ticks s).
Qed.

Lemma preserves_time_time : preserves I time_time.
Proof. intros s. apply preserves_tick. Qed.

Lemma preserves_sleep (d : Q) : preserves I (sleep d).
Proof.
  intros s H. apply preserves_tick in H. revert H.
  apply I_frame; reflexivity.
Qed.

Lemma preserves_runner_run (c : Call) : preserves I (runner_run c).
Proof.
  intros s H. apply preserves_tick in H. revert H.
  apply I_frame; reflexivity.
Qed.

Lemma preserves_modify_store (f : State -> State) :
  (forall s, execution_trace (f s) = execution_trace s) ->
  (forall s, performance_metrics (f s) = performance_metrics s) ->
  preserves I (modify f).
Proof. intros Ht Hp s. apply I_frame; [apply Ht|apply Hp]. Qed.

Lemma preserves_alloc_citation (c : Citation) :
  preserves I (alloc_citation c).
Proof. intros s. apply I_frame; reflexivity. Qed.

Lemma preserves_alloc_list (l : list nat) : preserves I (alloc_list l).
Proof. intros s. apply I_frame; reflexivity. Qed.

Lemma preserves_read_list (l : nat) : preserves I (read_list l).
Proof. intros s H. exact H. Qed.

Lemma preserves_foldM {A B} (f : B -> A -> M B) (l : list A) :
  (forall b x, preserves I (f b x)) -> forall b, preserves I (foldM f l b).
Proof.
  intros Hf. induction l as [|x l IH]; intros b; cbn [foldM].
  - apply preserves_ret.
  - apply preserves_bind; [apply Hf|exact IH].
Qed.

Lemma preserves_for_each {A} (l : list A) (body : A -> M unit) :
  (forall x, preserves I (body x)) -> preserves I (for_each l body).
Proof. intros Hb. apply preserves_foldM. intros _ x. apply Hb. Qed.

Lemma preserves_gather {A} (coros : list (M A)) :
  Forall (preserves I) coros -> preserves I (gather coros).
Proof.
  induction 1 as [|c coros Hc _ IH]; cbn [gather].
  - apply preserves_ret.
  - intros s H. specialize (Hc s H). destruct (c s) as [r s1].
    cbn [snd] in Hc. specialize (IH s1 Hc).
    destruct (gather coros s1) as [[rs|e] s2]; exact IH.
Qed.

Lemma preserves_retry {A} (func : M A) (n : nat) (bd : Q) :
  preserves I func ->
  preserves I (LeadResearchAgent._retry_with_backoff func n bd).
Proof.
  intros Hf. unfold LeadResearchAgent._retry_with_backoff.
  generalize (Py.range 0 n). intros attempts.
  induction attempts as [|a rest IH]; cbn [LeadResearchAgent.retry_loop].
  - apply preserves_raise.
  - intros s H. specialize (Hf s H). destruct (func s) as [[x|e] s1];
      cbn [snd] in Hf; cbv beta iota; [assumption|].
    destruct (LeadResearchAgent.is_transient e); [|assumption].
    destruct (a <? n - 1)%nat; [|assumption].
    apply (preserves_bind (sleep _) (fun _ => _)
             (preserves_sleep _) (fun _ => IH)). exact Hf.
Qed.

Create HintDb inv.
#[local] Hint Resolve preserves_ret preserves_raise preserves_get
  preserves_time_time preserves_sleep preserves_runner_run
  preserves_alloc_citation preserves_alloc_list preserves_read_list
  preserves_retry : inv.
#[local] Hint Extern 1 (preserves _ (LeadResearchAgent._log_execution
                                       _ _ None _ _)) => apply I_log : inv.

(** A sequence of binds keeps [I] when each of its steps does. *)
Ltac steps :=
  repeat first [ solve [auto with inv]
               | apply preserves_bind; [|intros ?] ].

Lemma preserves_alloc_citations (cs : list Citation) :
  preserves I (alloc_citations cs).
Proof. induction cs as [|c cs IH]; cbn [alloc_citations]; steps. Qed.

Lemma preserves_rate_limit : preserves I LeadResearchAgent._rate_limit.
Proof.
  unfold LeadResearchAgent._rate_limit. steps.
  - destruct (LeadResearchAgent.Qltb _ _); auto with inv.
  - apply preserves_modify_store; reflexivity.
Qed.

Lemma preserves_search (q ctx : string) :
  preserves I (SearchAgent.search q ctx).
Proof.
  unfold SearchAgent.search. steps. apply preserves_alloc_citations.
Qed.

Lemma preserves_reflect (c ctx : string) :
  preserves I (ReflectionAgent.reflect c ctx).
Proof. unfold ReflectionAgent.reflect. steps. Qed.

Lemma preserves_create_citations (l : nat) (style : string) :
  preserves I (CitationsAgent.create_citations l style).
Proof.
  unfold CitationsAgent.create_citations. steps.
  apply preserves_for_each. intros x.
  apply preserves_modify_store; reflexivity.
Qed.

#[local] Hint Resolve preserves_rate_limit preserves_search
  preserves_reflect preserves_create_citations : inv.

Lemma preserves_search_wrapper reqs task num :
  preserves I (LeadResearchAgent.search_task_wrapper reqs task num).
Proof.
  unfold LeadResearchAgent.search_task_wrapper,
    LeadResearchAgent.len_sources. steps.
Qed.

Lemma preserves_reflection_wrapper task c num :
  preserves I (LeadResearchAgent.reflection_task_wrapper task c num).
Proof. unfold LeadResearchAgent.reflection_task_wrapper. steps. Qed.

Lemma preserves_search_stage reqs (sts : list Task) :
  preserves I (LeadResearchAgent.search_stage reqs sts).
Proof.
  unfold LeadResearchAgent.search_stage.
  destruct (LeadResearchAgent.nonempty sts); [|apply preserves_ret].
  apply preserves_bind.
  - apply preserves_gather, Forall_map, Forall_forall.
    intros it _. apply preserves_search_wrapper.
  - intros outs. apply preserves_foldM. intros acc ir.
    unfold LeadResearchAgent.record_search_outcome,
      LeadResearchAgent.len_sources.
    destruct (snd ir); steps.
Qed.

Lemma preserves_reflection_stage (rts : list Task)
    (srs : list ResearchResult) :
  preserves I (LeadResearchAgent.reflection_stage rts srs).
Proof.
  unfold LeadResearchAgent.reflection_stage.
  destruct (LeadResearchAgent.nonempty rts); [|apply preserves_ret].
  destruct srs as [|r srs]; [apply preserves_ret|]. cbn [andb].
  change (LeadResearchAgent.nonempty (r :: srs)) with true. cbv iota.
  intros s H.
  rewrite (bind_ok _ _ _ _ _
             (reflection_coroutines_spec rts (r :: srs) s
                ltac:(discriminate))).
  revert s H. apply preserves_bind.
  - apply preserves_gather, Forall_map, Forall_forall.
    intros it _. apply preserves_reflection_wrapper.
  - intros outs. apply preserves_foldM. intros acc ir.
    unfold LeadResearchAgent.record_reflection_outcome.
    destruct (snd ir); steps.
Qed.

Lemma preserves_collect_sources srs :
  preserves I (LeadResearchAgent.collect_sources srs).
Proof.
  unfold LeadResearchAgent.collect_sources. steps.
  apply preserves_for_each. intros r. steps.
  apply preserves_modify_store; reflexivity.
Qed.

Lemma preserves_citation_stage cts srs :
  preserves I (LeadResearchAgent.citation_stage cts srs).
Proof.
  unfold LeadResearchAgent.citation_stage.
  destruct (LeadResearchAgent.nonempty cts); [|apply preserves_ret].
  apply preserves_bind; [apply preserves_collect_sources|intros l].
  apply preserves_bind; [apply preserves_read_list|intros elems].
  destruct (LeadResearchAgent.nonempty elems); [|apply preserves_ret].
  apply preserves_foldM. intros acc it.
  unfold LeadResearchAgent.citation_task. steps.
Qed.

Lemma preserves_execute plan reqs :
  preserves I (LeadResearchAgent._execute_research_plan plan reqs).
Proof.
  unfold LeadResearchAgent._execute_research_plan. cbv zeta.
  apply preserves_bind; [apply preserves_search_stage|intros srs].
  apply preserves_bind; [apply preserves_reflection_stage|intros rrs].
  apply preserves_bind; [apply preserves_citation_stage|intros cits].
  apply preserves_ret.
Qed.

Lemma preserves_create_final_report reqs results :
  preserves I (LeadResearchAgent._create_final_report reqs results).
Proof.
  unfold LeadResearchAgent._create_final_report,
    LeadResearchAgent.strftime. cbv zeta.
  apply preserves_bind; [apply preserves_collect_sources|intros l]. steps.
Qed.

#[local] Hint Resolve preserves_execute preserves_create_final_report : inv.

Lemma preserves_conduct_research (user_input : string) :
  preserves I (LeadResearchAgent.conduct_research user_input).
Proof.
  unfold LeadResearchAgent.conduct_research,
    LeadResearchAgent.research_and_report,
    RequirementGatheringAgent.gather_requirements,
    PlanningAgent.create_plan.
  steps.
Qed.

End Invariant.

Lemma has_key_in {V} (k : string) (d : list (string * V)) :
  LeadResearchAgent.has_key k d = true <-> In k (map fst d).
Proof.
  unfold LeadResearchAgent.has_key. rewrite existsb_exists, in_map_iff.
  split.
  - intros (kv & Hin & E). apply String.eqb_eq in E. now exists kv.
  - intros (kv & E & Hin). exists kv. split; [exact Hin|].
    now apply String.eqb_eq.
Qed.

Lemma update_metrics_keys (ag : string) (su : bool)
    (pm : list (string * Metrics)) :
  map fst (LeadResearchAgent.update_metrics ag None su pm)
  = if LeadResearchAgent.has_key ag pm then map fst pm
    else (map fst pm ++ [ag])%list.
Proof.
  unfold LeadResearchAgent.update_metrics. rewrite map_map.
  assert (H : forall l : list (string * Metrics),
             map (fun kv => fst (if String.eqb (fst kv) ag
                                 then (fst kv,
                                       LeadResearchAgent.record_call
                                         None su (snd kv))
                                 else kv)) l = map fst l).
  { intros l. apply map_ext. intros kv.
    now destruct (String.eqb (fst kv) ag). }
  rewrite H. destruct (LeadResearchAgent.has_key ag pm); [reflexivity|].
  now rewrite map_app.
Qed.

Lemma update_metrics_in (ag : string) (su : bool)
    (pm : list (string * Metrics)) (k : string) (m : Metrics) :
  In (k, m) (LeadResearchAgent.update_metrics ag None su pm) ->
  (k <> ag /\ In (k, m) pm)
  \/ (k = ag
      /\ exists m0,
           m = LeadResearchAgent.record_call None su m0
           /\ (In (ag, m0) pm
               \/ (LeadResearchAgent.has_key ag pm = false
                   /\ m0 = LeadResearchAgent.new_metrics))).
Proof.
  unfold LeadResearchAgent.update_metrics. intros H.
  apply in_map_iff in H. destruct H as ([k0 m0] & E & Hin). cbn [fst snd] in E.
  destruct (String.eqb k0 ag) eqn:Ek.
  - apply String.eqb_eq in Ek. subst k0. injection E as <- <-. right.
    split; [reflexivity|]. exists m0. split; [reflexivity|].
    destruct (LeadResearchAgent.has_key ag pm) eqn:Hk; [now left|].
    apply in_app_iff in Hin. destruct Hin as [Hin|[Hin|[]]]; [now left|].
    injection Hin as <-. right. split; reflexivity.
  - apply String.eqb_neq in Ek. injection E as <- <-. left.
    split; [exact Ek|].
    destruct (LeadResearchAgent.has_key ag pm); [exact Hin|].
    apply in_app_iff in Hin. destruct Hin as [Hin|[Hin|[]]]; [exact Hin|].
    injection Hin as Hk _. congruence.
Qed.

Lemma update_metrics_absent (ag : string) (su : bool)
    (pm : list (string * Metrics)) :
  ~ In ag (map fst pm) ->
  map (fun kv => if String.eqb (fst kv) ag
                 then (fst kv,
                       LeadResearchAgent.record_call None su (snd kv))
                 else kv) pm = pm.
Proof.
  induction pm as [|[k m] pm IH]; intros Hn; [reflexivity|].
  cbn [map fst snd] in *.
  destruct (String.eqb k ag) eqn:Ek.
  - apply String.eqb_eq in Ek. exfalso. apply Hn. now left.
  - rewrite IH; [reflexivity|]. intros H. apply Hn. now right.
Qed.

(** A logging call adds one to the calls counted over all agents. *)
Lemma update_metrics_total (ag : string) (su : bool)
    (pm : list (string * Metrics)) :
  List.NoDup (map fst pm) ->
  list_sum (map (fun kv => total_calls (snd kv))
                (LeadResearchAgent.update_metrics ag None su pm))
  = S (list_sum (map (fun kv => total_calls (snd kv)) pm)).
Proof.
  intros Hnd. unfold LeadResearchAgent.update_metrics.
  destruct (LeadResearchAgent.has_key ag pm) eqn:Hk.
  - apply has_key_in in Hk.
    induction pm as [|[k m] pm IH]; [destruct Hk|].
    cbn [map fst snd list_sum] in *. inversion Hnd as [|? ? Hnotin Hnd']; subst.
    destruct (String.eqb k ag) eqn:Ek.
    + apply String.eqb_eq in Ek. subst k.
      rewrite (update_metrics_absent ag su pm Hnotin).
      cbn [snd]. unfold LeadResearchAgent.record_call.
      cbn [LeadResearchAgent.truthy total_calls list_sum fold_right]. lia.
    + apply String.eqb_neq in Ek. destruct Hk as [Hk|Hk]; [congruence|].
      specialize (IH Hnd' Hk). unfold list_sum in *.
      cbn [snd fold_right]. lia.
  - assert (Hn : ~ In ag (map fst pm)).
    { intros H. apply has_key_in in H. congruence. }
    rewrite map_app, (update_metrics_absent ag su pm Hn).
    cbn [map fst snd]. rewrite String.eqb_refl. cbn [snd].
    rewrite map_app, list_sum_app. cbn. lia.
Qed.

Lemma entries_of_snoc (k : string) (trace : list LogEntry) (e : LogEntry) :
  entries_of k (trace ++ [e])
  = (entries_of k trace
     ++ if String.eqb (log_agent e) k then [e] else [])%list.
Proof. unfold entries_of. rewrite filter_app. reflexivity. Qed.

Lemma metrics_match_reads_log_only : reads_log_only metrics_match.
Proof.
  intros s s' Ht Hp. unfold metrics_match. now rewrite Ht, Hp.
Qed.

Lemma metrics_match_kept_by_logging : kept_by_logging metrics_match.
Proof.
  intros ag ac su de s (Hnd & Hcov & Hcnt & Hsum).
  unfold LeadResearchAgent._log_execution, bind, time_time, modify.
  cbn [snd]. unfold metrics_match.
  cbn [execution_trace performance_metrics set_log].
  rewrite tick_execution_trace.
  replace (performance_metrics (tick s)) with (performance_metrics s)
    by (unfold tick; now destruct (ticks s)).
  set (entry := {| timestamp := clock (tick s); log_agent := ag;
                   action := ac; log_duration := None; success := su;
                   details := de |}).
  split; [|split; [|split]]; cycle 3.
  { rewrite (update_metrics_total ag su _ Hnd), length_app, Hsum.
    cbn [length]. lia. }
  - rewrite update_metrics_keys.
    destruct (LeadResearchAgent.has_key ag _) eqn:Hk; [exact Hnd|].
    apply List.NoDup_app; [exact Hnd| |].
    + constructor; [intros []|constructor].
    + intros x Hx [<-|[]]. apply has_key_in in Hx. congruence.
  - intros e He. rewrite update_metrics_keys.
    apply in_app_iff in He. destruct He as [He|[<-|[]]].
    + specialize (Hcov e He).
      destruct (LeadResearchAgent.has_key ag _); [exact Hcov|].
      apply in_app_iff. now left.
    + cbn [log_agent entry].
      destruct (LeadResearchAgent.has_key ag _) eqn:Hk.
      * now apply has_key_in.
      * apply in_app_iff. right. now left.
  - intros k m Hin. rewrite entries_of_snoc. cbn [log_agent entry].
    apply update_metrics_in in Hin.
    destruct Hin as [[Hne Hin]|[-> (m0 & -> & Hm0)]].
    + replace (String.eqb ag k) with false
        by (symmetry; apply String.eqb_neq; congruence).
      rewrite app_nil_r. exact (Hcnt k m Hin).
    + rewrite String.eqb_refl, filter_app, !length_app.
      assert (H0 : total_calls m0 = length (entries_of ag (execution_trace s))
                   /\ successful_calls m0
                      = length (filter success
                                  (entries_of ag (execution_trace s)))
                   /\ total_duration m0 = 0%Q
                   /\ average_duration m0 = 0%Q).
      { destruct Hm0 as [Hin|[Hk ->]].
        - destruct (Hcnt ag m0 Hin) as (?&?&?&?&?). repeat split; assumption.
        - assert (Hnone : entries_of ag (execution_trace s) = []).
          { unfold entries_of.
            destruct (filter _ _) as [|e l] eqn:Ef; [reflexivity|].
            assert (He : In e (filter (fun e => String.eqb (log_agent e) ag)
                                      (execution_trace s)))
              by (rewrite Ef; now left).
            apply filter_In in He. destruct He as [He Hag].
            apply String.eqb_eq in Hag. specialize (Hcov e He).
            rewrite Hag in Hcov. apply has_key_in in Hcov. congruence. }
          rewrite Hnone. repeat split; reflexivity. }
      destruct H0 as (Ht & Hs & Hd & Ha).
      unfold LeadResearchAgent.record_call. cbn [LeadResearchAgent.truthy].
      cbn [total_calls successful_calls total_duration average_duration].
      rewrite Ht, Hs. cbn [filter success entry].
      destruct su; cbn [length]; repeat split; try lia; assumption.
Qed.

(** X20. The metrics stay in step with the trace over a run of
    [conduct_research], whether it returns the report or raises: if the
    metrics matched the trace before (as they do on a fresh system),
    then afterwards there is again one record per agent with an entry,
    holding the numbers of its entries and of its successful entries;
    the durations stay zero, since no step of the run logs one. *)
Theorem run_keeps_metrics_in_step (user_input : string) (s : State) :
  metrics_match s ->
  let s' := snd (LeadResearchAgent.conduct_research user_input s) in
  metrics_match s'
  /\ summary_metrics (LeadResearchAgent.get_execution_summary s')
     = performance_metrics s'.
Proof.
  intros H. cbv zeta. split; [|reflexivity].
  exact (preserves_conduct_research metrics_match
           metrics_match_reads_log_only metrics_match_kept_by_logging
           user_input s H).
Qed.

Lemma run_keeps_metrics_in_step_witness :
  metrics_match
    (snd (LeadResearchAgent.conduct_research "Compare tea and coffee"
            (sample_state search_down_platform))).
Proof.
  apply (run_keeps_metrics_in_step "Compare tea and coffee"
           (sample_state search_down_platform)).
  split; [constructor|]. split; [intros e []|].
  split; [intros ag m []|reflexivity].
Defined.

(* ================================================================== *)
(** * Runs that return a report *)
(* ================================================================== *)

Section Returns.

Variable P : Platform -> Prop.

Lemma returns_total {A} (m : M A) :
  never_raises m -> monotone m -> returns_with P (fun _ => True) m.
Proof.
  intros Hn Hm s _. destruct (Hn s) as [a Ha]. specialize (Hm s).
  destruct (m s) as [r s']. cbn [fst snd] in *. subst r.
  exists a, s'. split; [reflexivity|]. split; [apply Hm|exact Logic.I].
Qed.

Lemma returns_ret {A} (Q : A -> Prop) (a : A) :
  Q a -> returns_with P Q (ret a).
Proof. intros H s _. exists a, s. repeat split. exact H. Qed.

Lemma returns_bind {A B} (Q1 : A -> Prop) (Q2 : B -> Prop)
    (m : M A) (k : A -> M B) :
  returns_with P Q1 m ->
  (forall a, Q1 a -> returns_with P Q2 (k a)) ->
  returns_with P Q2 (bind m k).
Proof.
  intros Hm Hk s Hp. destruct (Hm s Hp) as (a & s1 & E & Hp1 & Ha).
  rewrite (bind_ok _ _ _ _ _ E).
  destruct (Hk a Ha s1) as (b & s2 & E2 & Hp2 & Hb); [now rewrite Hp1|].
  exists b, s2. split; [exact E2|]. split; [congruence|exact Hb].
Qed.

Lemma returns_weaken {A} (Q Q' : A -> Prop) (m : M A) :
  (forall a, Q a -> Q' a) -> returns_with P Q m -> returns_with P Q' m.
Proof.
  intros HQ Hm s Hp. destruct (Hm s Hp) as (a & s' & E & Hp' & Ha).
  exists a, s'. repeat split; auto.
Qed.

Lemma returns_foldM {A B} (f : B -> A -> M B) (l : list A) :
  (forall b x, returns_with P (fun _ => True) (f b x)) ->
  forall b, returns_with P (fun _ => True) (foldM f l b).
Proof.
  intros Hf. induction l as [|x l IH]; intros b; cbn [foldM].
  - now apply returns_ret.
  - eapply returns_bind; [apply Hf|]. intros b' _. apply IH.
Qed.

Lemma returns_runner_run (c : Call) :
  (forall p, P p -> answers p c) ->
  returns_with P (fun _ => True) (runner_run c).
Proof.
  intros Hans s Hp. unfold runner_run. cbv zeta.
  destruct (Hans _ Hp (history (tick s))) as [out Hout].
  rewrite tick_platform, Hout. eexists _, _.
  split; [reflexivity|]. split; [apply tick_platform|exact Logic.I].
Qed.

Lemma returns_log ag ac d su de :
  returns_with P (fun _ => True)
    (LeadResearchAgent._log_execution ag ac d su de).
Proof. apply returns_total; [apply never_raises_log|apply monotone_log]. Qed.

Lemma returns_rate_limit :
  returns_with P (fun _ => True) LeadResearchAgent._rate_limit.
Proof.
  apply returns_total; [apply never_raises_rate_limit|].
  apply monotone_rate_limit.
Qed.

Lemma returns_collect_sources srs :
  returns_with P (fun _ => True) (LeadResearchAgent.collect_sources srs).
Proof.
  unfold LeadResearchAgent.collect_sources.
  eapply returns_bind.
  - apply returns_total; [|apply monotone_alloc_list].
    intros s. eexists. reflexivity.
  - intros l _. eapply returns_bind; [|intros ? _; now apply returns_ret].
    apply returns_foldM. intros _ r.
    apply returns_total.
    + intros s. eexists. reflexivity.
    + apply monotone_bind; [apply monotone_read_list|intros xs].
      apply monotone_list_extend.
Qed.

Lemma returns_strftime fmt :
  returns_with P (fun _ => True) (LeadResearchAgent.strftime fmt).
Proof.
  apply returns_total; [intros s; eexists; reflexivity|].
  unfold LeadResearchAgent.strftime.
  apply monotone_bind; [apply monotone_time_time|intros t].
  apply monotone_bind; [apply monotone_get|intros s0]. apply monotone_ret.
Qed.

Lemma returns_create_final_report reqs results :
  returns_with P (opens_with_title (clarified_question reqs))
    (LeadResearchAgent._create_final_report reqs results).
Proof.
  unfold LeadResearchAgent._create_final_report. cbv zeta.
  eapply returns_bind; [apply returns_collect_sources|intros l _].
  eapply returns_bind; [apply returns_strftime|intros date _].
  eapply returns_bind;
    [apply returns_total;
     [intros s; eexists; reflexivity|apply monotone_read_list]
    |intros elems _].
  eapply returns_bind;
    [apply returns_total;
     [intros s; eexists; reflexivity|apply monotone_get]
    |intros s0 _].
  eapply returns_bind; [apply returns_strftime|intros datetime _].
  apply returns_ret. eexists _, _, _. reflexivity.
Qed.

End Returns.

Lemma monotone_reflection_stage (rts : list Task)
    (srs : list ResearchResult) :
  monotone (LeadResearchAgent.reflection_stage rts srs).
Proof.
  unfold LeadResearchAgent.reflection_stage.
  destruct (LeadResearchAgent.nonempty rts); [|apply monotone_ret].
  destruct srs as [|r srs]; [apply monotone_ret|]. cbn [andb].
  change (LeadResearchAgent.nonempty (r :: srs)) with true. cbv iota.
  intros s.
  rewrite (bind_ok _ _ _ _ _
             (reflection_coroutines_spec rts (r :: srs) s
                ltac:(discriminate))).
  revert s. apply monotone_bind.
  - apply monotone_gather, Forall_map, Forall_forall.
    intros it _. apply monotone_reflection_wrapper.
  - intros outs. apply monotone_foldM. intros acc ir.
    apply monotone_record_reflection.
Qed.

Lemma returns_citation_stage cts srs :
  returns_with citations_agent_answers (fun _ => True)
    (LeadResearchAgent.citation_stage cts srs).
Proof.
  unfold LeadResearchAgent.citation_stage.
  destruct (LeadResearchAgent.nonempty cts); [|now apply returns_ret].
  eapply returns_bind; [apply returns_collect_sources|intros l _].
  eapply returns_bind;
    [apply returns_total;
     [intros s; eexists; reflexivity|apply monotone_read_list]
    |intros elems _].
  destruct (LeadResearchAgent.nonempty elems); [|now apply returns_ret].
  apply returns_foldM. intros acc it s Hans.
  destruct (citation_task_spec l acc it s Hans)
    as (s' & E & _ & _ & _ & Hext).
  exists (acc ++ list_at s l)%list, s'.
  split; [exact E|]. split; [apply Hext|exact Logic.I].
Qed.

Lemma returns_execute plan reqs :
  returns_with citations_agent_answers (fun _ => True)
    (LeadResearchAgent._execute_research_plan plan reqs).
Proof.
  unfold LeadResearchAgent._execute_research_plan. cbv zeta.
  eapply returns_bind.
  - apply returns_total; [|apply monotone_search_stage].
    intros s. destruct (search_stage_isolates_failures reqs
                          (LeadResearchAgent.by_agent "Search" (tasks plan)) s)
      as (outs & _ & _ & _ & H & _).
    eexists. exact H.
  - intros srs _. eapply returns_bind.
    + apply returns_total; [|apply monotone_reflection_stage].
      intros s. apply reflection_stage_never_raises.
    + intros rrs _. eapply returns_bind; [apply returns_citation_stage|].
      intros cits _. now apply returns_ret.
Qed.

Lemma returns_conduct_research (user_input : string) :
  returns_with core_agents_answer (opens_with_title user_input)
    (LeadResearchAgent.conduct_research user_input).
Proof.
  unfold LeadResearchAgent.conduct_research.
  eapply returns_bind; [apply returns_log|intros _ _].
  eapply returns_bind with
    (Q1 := fun reqs => clarified_question reqs = user_input).
  { unfold RequirementGatheringAgent.gather_requirements.
    eapply returns_bind.
    - apply returns_runner_run. intros p (H & _). apply H.
    - intros out _. now apply returns_ret. }
  intros reqs Hq.
  eapply returns_bind; [apply returns_log|intros _ _].
  eapply returns_bind; [apply returns_log|intros _ _].
  eapply returns_bind with (Q1 := fun _ => True).
  { unfold PlanningAgent.create_plan.
    eapply returns_bind.
    - apply returns_runner_run. intros p (_ & H & _). apply H.
    - intros out _. now apply returns_ret. }
  intros plan _.
  eapply returns_bind; [apply returns_log|intros _ _].
  unfold LeadResearchAgent.research_and_report.
  eapply returns_bind; [apply returns_log|intros _ _].
  eapply returns_bind with (Q1 := fun _ => True).
  { intros s Hp. apply returns_execute. apply Hp. }
  intros results _.
  eapply returns_bind; [apply returns_log|intros _ _].
  eapply returns_bind; [apply returns_create_final_report|].
  intros final_report (date & depth & rest & ->).
  eapply returns_bind;
    [apply returns_total;
     [intros s; eexists; reflexivity|apply monotone_get]
    |intros s0 _].
  apply returns_ret. rewrite Hq. eexists date, depth, _.
  rewrite append_assoc. reflexivity.
Qed.

(** X21. A run returns a report whenever the requirement, planning and
    citations agents answer their calls: no failure of a search or of a
    reflection, and no content of any answer, keeps [conduct_research]
    from returning, and the report opens with the title built from the
    user's input. *)
Theorem run_returns_report_when_core_agents_answer (user_input : string)
    (s : State) :
  core_agents_answer (platform s) ->
  exists report s',
    LeadResearchAgent.conduct_research user_input s = (Ok report, s')
    /\ opens_with_title user_input report.
Proof.
  intros Hp.
  destruct (returns_conduct_research user_input s Hp)
    as (report & s' & E & _ & Hq).
  exists report, s'. split; assumption.
Qed.

Lemma run_returns_report_when_core_agents_answer_witness :
  exists report s',
    LeadResearchAgent.conduct_research "Compare tea and coffee"
      (sample_state search_down_platform) = (Ok report, s')
    /\ opens_with_title "Compare tea and coffee" report.
Proof.
  apply (run_returns_report_when_core_agents_answer "Compare tea and coffee"
           (sample_state search_down_platform)).
  split; [|split]; intros; eexists; reflexivity.
Defined.

(* ================================================================== *)
(** * The execution summary of a report *)
(* ================================================================== *)

Lemma last_n_snoc {A} (k : nat) (l : list A) (x : A) :
  LeadResearchAgent.last_n (S k) (l ++ [x])
  = (LeadResearchAgent.last_n k l ++ [x])%list.
Proof.
  unfold LeadResearchAgent.last_n. rewrite length_app. cbn [length].
  replace (length l + 1 - S k)%nat with (length l - k)%nat by lia.
  rewrite skipn_app.
  replace (length l - k - length l)%nat with 0%nat by lia.
  reflexivity.
Qed.

Lemma last_n_length {A} (k : nat) (l : list A) :
  (length (LeadResearchAgent.last_n k l) <= k)%nat.
Proof. unfold LeadResearchAgent.last_n. rewrite length_skipn. lia. Qed.

(** The report of [research_and_report] ends with the summary of the
    final state, whose trace ends with the entry logged when the
    execution handed back. *)
Lemma research_and_report_last_entry plan reqs (s0 s1 : State)
    (report : string) :
  LeadResearchAgent.research_and_report plan reqs s0 = (Ok report, s1) ->
  exists final_report tr entry,
    report
    = final_report
      ++ LeadResearchAgent.execution_summary_block (platform s1)
           (LeadResearchAgent.get_execution_summary s1)
    /\ execution_trace s1 = (tr ++ [entry])%list
    /\ action entry = "handoff_back_to_lead".
Proof.
  unfold LeadResearchAgent.research_and_report. unfold bind at 1.
  destruct (LeadResearchAgent._log_execution _ _ _ _ _ s0) as [[[]|e] sa];
    [|discriminate].
  unfold bind at 1.
  destruct (LeadResearchAgent._execute_research_plan plan reqs sa)
    as [[results|e] sb]; [|discriminate].
  match goal with |- context [bind (LeadResearchAgent._log_execution
                                      ?a ?b ?c ?d ?f)] =>
    destruct (log_appends_entry a b c d f sb)
      as (entry & sc & Elog & Htr & _ & Hac & _)
  end.
  rewrite (bind_ok _ _ _ _ _ Elog).
  unfold bind at 1.
  pose proof (preserves_create_final_report
                (fun s => execution_trace s = execution_trace sc)
                ltac:(intros x y Hx _ Hy; congruence)
                reqs results sc eq_refl) as Hkeep.
  destruct (LeadResearchAgent._create_final_report reqs results sc)
    as [[fr|e] sd] eqn:E; [|discriminate].
  cbn [snd] in Hkeep.
  unfold bind, get, ret. intros H. inversion H; subst.
  exists fr, (execution_trace sb), entry.
  split; [reflexivity|]. split; [congruence|exact Hac].
Qed.

Lemma ends_with_step (x y t : string) :
  (exists front, y = front ++ t) -> exists front, x ++ y = front ++ t.
Proof.
  intros [front ->]. exists (x ++ front). symmetry. apply append_assoc.
Qed.

(** The summary block ends with the handoff lines when one of the
    entries it is given is a handoff. *)
Lemma summary_block_tail (p : Platform) (sm : Summary) :
  LeadResearchAgent.nonempty
    (filter (fun e => Py.str_in "handoff" (action e)) (recent_trace sm))
  = true ->
  exists front,
    LeadResearchAgent.execution_summary_block p sm
    = front
      ++ nl ++ "**Handoff Events:** "
      ++ Py.str_of_nat
           (length (filter (fun e => Py.str_in "handoff" (action e))
                           (recent_trace sm)))
      ++ nl
      ++ "- **Lead → Requirement Gathering:** ✅" ++ nl
      ++ "- **Lead → Planning:** ✅" ++ nl
      ++ "- **Lead → Search Agents:** ✅" ++ nl
      ++ "- **Lead → Reflection Agents:** ✅" ++ nl
      ++ "- **Lead → Citations Agents:** ✅" ++ nl.
Proof.
  intros H. unfold LeadResearchAgent.execution_summary_block.
  cbv zeta. rewrite H.
  do 14 apply ends_with_step. exists "". reflexivity.
Qed.

(** X22. A report returned by [conduct_research] ends with the block of
    handoff events: the trace ends with the entry of the handing back
    from the execution, so the block is always there. The number it
    shows counts the handoff entries among the last ten entries of the
    trace only, so it lies between 1 and 10, and the five lines below it
    are fixed text. *)
Theorem report_ends_with_handoff_block (user_input report : string)
    (s s' : State) :
  LeadResearchAgent.conduct_research user_input s = (Ok report, s') ->
  exists front n,
    report
    = front
      ++ nl ++ "**Handoff Events:** " ++ Py.str_of_nat n ++ nl
      ++ "- **Lead → Requirement Gathering:** ✅" ++ nl
      ++ "- **Lead → Planning:** ✅" ++ nl
      ++ "- **Lead → Search Agents:** ✅" ++ nl
      ++ "- **Lead → Reflection Agents:** ✅" ++ nl
      ++ "- **Lead → Citations Agents:** ✅" ++ nl
    /\ n = length (filter (fun e => Py.str_in "handoff" (action e))
                          (LeadResearchAgent.last_n 10 (execution_trace s')))
    /\ (1 <= n <= 10)%nat.
Proof.
  intros H.
  destruct (conduct_research_ends_with_report _ _ _ _ H)
    as (plan & reqs & sk & Hr).
  destruct (research_and_report_last_entry _ _ _ _ _ Hr)
    as (fr & tr & entry & -> & Htr & Hac).
  assert (Hev : filter (fun e => Py.str_in "handoff" (action e))
                       (LeadResearchAgent.last_n 10 (execution_trace s'))
                = (filter (fun e => Py.str_in "handoff" (action e))
                          (LeadResearchAgent.last_n 9 tr) ++ [entry])%list).
  { rewrite Htr, last_n_snoc, filter_app. cbn [filter]. rewrite Hac.
    reflexivity. }
  destruct (summary_block_tail (platform s')
              (LeadResearchAgent.get_execution_summary s'))
    as [front Hfront].
  { cbn [recent_trace LeadResearchAgent.get_execution_summary].
    rewrite Hev.
    destruct (filter _ (LeadResearchAgent.last_n 9 tr)); reflexivity. }
  cbn [recent_trace LeadResearchAgent.get_execution_summary] in Hfront.
  exists (fr ++ front), (length (filter (fun e => Py.str_in "handoff" (action e))
                          (LeadResearchAgent.last_n 10 (execution_trace s')))).
  split; [|split; [reflexivity|]].
  - etransitivity; [|symmetry; apply append_assoc].
    f_equal. exact Hfront.
  - rewrite Hev, length_app. cbn [length].
    pose proof (filter_length_le
                  (fun e => Py.str_in "handoff" (action e))
                  (LeadResearchAgent.last_n 9 tr)).
    pose proof (last_n_length 9 tr). lia.
Qed.

Lemma report_ends_with_handoff_block_witness :
  exists report s' front n,
    LeadResearchAgent.conduct_research "Compare tea and coffee"
      (sample_state search_down_platform) = (Ok report, s')
    /\ report
       = front
         ++ nl ++ "**Handoff Events:** " ++ Py.str_of_nat n ++ nl
         ++ "- **Lead → Requirement Gathering:** ✅" ++ nl
         ++ "- **Lead → Planning:** ✅" ++ nl
         ++ "- **Lead → Search Agents:** ✅" ++ nl
         ++ "- **Lead → Reflection Agents:** ✅" ++ nl
         ++ "- **Lead → Citations Agents:** ✅" ++ nl
    /\ (1 <= n <= 10)%nat.
Proof.
  destruct (LeadResearchAgent.conduct_research "Compare tea and coffee"
              (sample_state search_down_platform)) as [[report|e] s'] eqn:E.
  - destruct (report_ends_with_handoff_block _ _ _ _ E)
      as (front & n & Hrep & _ & Hn).
    exists report, s', front, n. repeat split; try assumption; apply Hn.
  - vm_compute in E. discriminate E.
Defined.

(* ================================================================== *)
(** * The calls made by the execution of a plan *)
(* ================================================================== *)

Section Calls.

Variable K : Call -> Prop.

Lemma calls_silent {A} (m : M A) :
  (forall s, history (snd (m s)) = history s) -> calls_between K 0 0 m.
Proof.
  intros H s. exists []. rewrite H, app_nil_r.
  split; [reflexivity|]. split; [constructor|cbn; lia].
Qed.

Lemma calls_weaken {A} (lo hi lo' hi' : nat) (m : M A) :
  (lo' <= lo)%nat -> (hi <= hi')%nat ->
  calls_between K lo hi m -> calls_between K lo' hi' m.
Proof.
  intros Hlo Hhi Hm s. destruct (Hm s) as (h & Hh & HK & Hlen).
  exists h. split; [exact Hh|]. split; [exact HK|lia].
Qed.

(** The calls of a sequence: those of the first step, then those of the
    second when the first returns. *)
Lemma calls_bind {A B} (lo hi1 hi2 : nat) (m : M A) (k : A -> M B) :
  calls_between K lo hi1 m ->
  (forall a, calls_between K 0 hi2 (k a)) ->
  calls_between K lo (hi1 + hi2) (bind m k).
Proof.
  intros Hm Hk s. unfold bind. destruct (Hm s) as (h1 & Hh1 & HK1 & Hl1).
  destruct (m s) as [[a|e] s1]; cbn [snd] in *.
  - destruct (Hk a s1) as (h2 & Hh2 & HK2 & Hl2).
    exists (h1 ++ h2)%list. rewrite Hh2, Hh1, app_assoc, length_app.
    split; [reflexivity|]. split; [now apply Forall_app|lia].
  - exists h1. split; [exact Hh1|]. split; [exact HK1|lia].
Qed.

(** After a step that returns without a call. *)
Lemma calls_bind_after {A B} (lo hi : nat) (m : M A) (k : A -> M B) :
  never_raises m -> calls_between K 0 0 m ->
  (forall a, calls_between K lo hi (k a)) ->
  calls_between K lo hi (bind m k).
Proof.
  intros Hn Hm Hk s. unfold bind. destruct (Hn s) as [a Ha].
  destruct (Hm s) as (h1 & Hh1 & _ & Hl1).
  destruct (m s) as [r s1]; cbn [fst snd] in *. subst r.
  destruct h1; [|cbn in Hl1; lia]. rewrite app_nil_r in Hh1.
  destruct (Hk a s1) as (h2 & Hh2 & HK2 & Hl2).
  exists h2. rewrite Hh2, Hh1. repeat split; try assumption; lia.
Qed.

Lemma calls_bind_silent {A B} (m : M A) (k : A -> M B) :
  calls_between K 0 0 m -> (forall a, calls_between K 0 0 (k a)) ->
  calls_between K 0 0 (bind m k).
Proof. intros Hm Hk. exact (calls_bind 0 0 0 m k Hm Hk). Qed.

Lemma calls_ret {A} (a : A) : calls_between K 0 0 (ret a).
Proof. now apply calls_silent. Qed.

Lemma calls_time_time : calls_between K 0 0 time_time.
Proof. apply calls_silent. intros s. apply tick_history. Qed.

Lemma calls_sleep (d : Q) : calls_between K 0 0 (sleep d).
Proof. apply calls_silent. intros s. apply tick_history. Qed.

Lemma calls_log ag ac d su de :
  calls_between K 0 0 (LeadResearchAgent._log_execution ag ac d su de).
Proof. apply calls_silent. intros s. apply tick_history. Qed.

Lemma calls_rate_limit : calls_between K 0 0 LeadResearchAgent._rate_limit.
Proof.
  unfold LeadResearchAgent._rate_limit.
  apply calls_bind_silent; [apply calls_time_time|intros t].
  apply calls_bind_silent; [now apply calls_silent|intros s0].
  apply calls_bind_silent.
  - destruct (LeadResearchAgent.Qltb _ _);
      [apply calls_sleep|apply calls_ret].
  - intros _. apply calls_bind_silent; [apply calls_time_time|intros t'].
    now apply calls_silent.
Qed.

Lemma calls_foldM_silent {A B} (f : B -> A -> M B) (l : list A) :
  (forall b x, calls_between K 0 0 (f b x)) ->
  forall b, calls_between K 0 0 (foldM f l b).
Proof.
  intros Hf. induction l as [|x l IH]; intros b; cbn [foldM].
  - apply calls_ret.
  - apply calls_bind_silent; [apply Hf|exact IH].
Qed.

Lemma calls_alloc_citations (cs : list Citation) :
  calls_between K 0 0 (alloc_citations cs).
Proof.
  induction cs as [|c cs IH]; cbn [alloc_citations]; [apply calls_ret|].
  apply calls_bind_silent; [now apply calls_silent|intros a].
  apply calls_bind_silent; [exact IH|intros ?; apply calls_ret].
Qed.

Lemma calls_collect_sources srs :
  calls_between K 0 0 (LeadResearchAgent.collect_sources srs).
Proof.
  unfold LeadResearchAgent.collect_sources.
  apply calls_bind_silent; [now apply calls_silent|intros l].
  apply calls_bind_silent; [|intros ?; apply calls_ret].
  apply calls_foldM_silent. intros _ r.
  apply calls_bind_silent; [now apply calls_silent|intros xs].
  now apply calls_silent.
Qed.

Lemma calls_runner_run (c : Call) :
  K c -> calls_between K 1 1 (runner_run c).
Proof.
  intros Hc s. exists [c]. unfold runner_run. cbn [snd history set_history].
  rewrite tick_history. split; [reflexivity|].
  split; [now constructor|cbn; lia].
Qed.

(** The retry loop calls the operation once for each attempt it makes:
    at least once, and at most once for each attempt allowed. *)
Lemma calls_retry_loop {A} (func : M A) (n : nat) (bd : Q)
    (attempts : list nat) :
  calls_between K 1 1 func ->
  calls_between K (match attempts with [] => 0 | _ => 1 end)
    (length attempts) (LeadResearchAgent.retry_loop func n bd attempts).
Proof.
  intros Hf. induction attempts as [|a rest IH];
    cbn [LeadResearchAgent.retry_loop].
  - now apply calls_silent.
  - intros s. destruct (Hf s) as (h1 & Hh1 & HK1 & Hl1).
    assert (Hone : exists h,
               history (snd (func s)) = (history s ++ h)%list
               /\ Forall K h
               /\ (1 <= length h <= length (a :: rest))%nat).
    { exists h1. cbn [length]. repeat split; try assumption; lia. }
    destruct (func s) as [[x|e] s1]; cbn [snd] in *; [exact Hone|].
    destruct (LeadResearchAgent.is_transient e); [|exact Hone].
    destruct (a <? n - 1)%nat; [|exact Hone].
    unfold bind. cbn [sleep snd].
    match goal with |- context [LeadResearchAgent.retry_loop _ _ _ _ ?st] =>
      destruct (IH st) as (h2 & Hh2 & HK2 & Hl2)
    end.
    exists (h1 ++ h2)%list. rewrite Hh2.
    cbn [history set_time]. rewrite tick_history, Hh1, app_assoc, length_app.
    split; [reflexivity|]. split; [now apply Forall_app|].
    cbn [length]. destruct rest; cbn [length] in *; lia.
Qed.

Lemma calls_retry {A} (func : M A) (bd : Q) :
  calls_between K 1 1 func ->
  calls_between K 1 3 (LeadResearchAgent._retry_with_backoff func 3 bd).
Proof.
  intros Hf.
  exact (calls_retry_loop func 3 bd (Py.range 0 3) Hf).
Qed.

(** The coroutines gathered make their calls one after the other. *)
Lemma calls_gather {A} (lo hi : nat) (coros : list (M A)) :
  Forall (calls_between K lo hi) coros ->
  calls_between K (length coros * lo) (length coros * hi) (gather coros).
Proof.
  induction 1 as [|c coros Hc _ IH]; cbn [gather length Nat.mul].
  - apply calls_ret.
  - intros s. destruct (Hc s) as (h1 & Hh1 & HK1 & Hl1).
    destruct (c s) as [r s1]. cbn [snd] in *.
    destruct (IH s1) as (h2 & Hh2 & HK2 & Hl2).
    exists (h1 ++ h2)%list.
    assert (Hh : history (snd (gather coros s1))
                 = (history s ++ h1 ++ h2)%list)
      by (rewrite Hh2, Hh1, app_assoc; reflexivity).
    rewrite length_app.
    destruct (gather coros s1) as [[rs|e] s2]; cbn [snd] in *;
      (split; [exact Hh|]); (split; [now apply Forall_app|lia]).
Qed.

End Calls.

Lemma calls_search (q ctx : string) :
  calls_between is_search_call 1 1 (SearchAgent.search q ctx).
Proof.
  unfold SearchAgent.search.
  apply (calls_bind is_search_call 1 1 0).
  - now apply calls_runner_run.
  - intros out.
    apply calls_bind_silent; [apply calls_alloc_citations|intros addrs].
    apply calls_bind_silent; [now apply calls_silent|intros l].
    apply calls_ret.
Qed.

Lemma calls_reflect (c ctx : string) :
  calls_between is_reflect_call 1 1 (ReflectionAgent.reflect c ctx).
Proof.
  unfold ReflectionAgent.reflect.
  apply (calls_bind is_reflect_call 1 1 0).
  - now apply calls_runner_run.
  - intros out.
    apply calls_bind_silent; [now apply calls_silent|intros l].
    apply calls_ret.
Qed.

Lemma calls_create_citations (l : nat) (style : string) :
  calls_between is_citations_call 1 1
    (CitationsAgent.create_citations l style).
Proof.
  unfold CitationsAgent.create_citations.
  apply calls_bind_after.
  - intros s. eexists. reflexivity.
  - now apply calls_silent.
  - intros s0. apply (calls_bind is_citations_call 1 1 0).
    + now apply calls_runner_run.
    + intros out.
      apply calls_bind_silent; [now apply calls_silent|intros elems].
      apply calls_bind_silent; [|intros ?; apply calls_ret].
      apply calls_foldM_silent. intros _ a. now apply calls_silent.
Qed.

Lemma calls_search_wrapper reqs task num :
  calls_between is_search_call 1 3
    (LeadResearchAgent.search_task_wrapper reqs task num).
Proof.
  unfold LeadResearchAgent.search_task_wrapper.
  apply calls_bind_after;
    [apply never_raises_rate_limit|apply calls_rate_limit|intros _].
  apply calls_bind_after;
    [apply never_raises_log|apply calls_log|intros _].
  apply (calls_bind is_search_call 1 3 0).
  - apply calls_retry, calls_search.
  - intros r. unfold LeadResearchAgent.len_sources.
    apply calls_bind_silent.
    + apply calls_bind_silent; [now apply calls_silent|intros ?].
      apply calls_ret.
    + intros n. apply calls_bind_silent; [apply calls_log|intros _].
      apply calls_ret.
Qed.

Lemma calls_reflection_wrapper task c num :
  calls_between is_reflect_call 1 3
    (LeadResearchAgent.reflection_task_wrapper task c num).
Proof.
  unfold LeadResearchAgent.reflection_task_wrapper.
  apply calls_bind_after;
    [apply never_raises_rate_limit|apply calls_rate_limit|intros _].
  apply calls_bind_after;
    [apply never_raises_log|apply calls_log|intros _].
  apply (calls_bind is_reflect_call 1 3 0).
  - apply calls_retry, calls_reflect.
  - intros r. apply calls_bind_silent; [apply calls_log|intros _].
    apply calls_ret.
Qed.

Lemma calls_search_stage reqs (sts : list Task) :
  calls_between is_search_call (length sts) (3 * length sts)
    (LeadResearchAgent.search_stage reqs sts).
Proof.
  unfold LeadResearchAgent.search_stage.
  destruct sts as [|t sts0] eqn:E; [apply calls_ret|].
  rewrite <- E. replace (LeadResearchAgent.nonempty sts) with true
    by now rewrite E.
  apply (calls_weaken is_search_call
           (length (Py.enumerate 1 sts) * 1)
           (length (Py.enumerate 1 sts) * 3 + 0));
    [rewrite enumerate_length; lia..|].
  apply calls_bind.
  - match goal with |- calls_between _ _ _ (gather ?coros) =>
      assert (H : Forall (calls_between is_search_call 1 3) coros)
    end.
    { apply Forall_map, Forall_forall.
      intros it _. apply calls_search_wrapper. }
    apply calls_gather in H. revert H. rewrite length_map.
    apply calls_weaken; lia.
  - intros outs. apply calls_foldM_silent. intros acc ir.
    unfold LeadResearchAgent.record_search_outcome,
      LeadResearchAgent.len_sources.
    destruct (snd ir).
    + apply calls_bind_silent.
      * apply calls_bind_silent; [now apply calls_silent|intros ?].
        apply calls_ret.
      * intros n. apply calls_bind_silent; [apply calls_log|intros _].
        apply calls_ret.
    + apply calls_bind_silent; [apply calls_log|intros _]. apply calls_ret.
Qed.

Lemma calls_reflection_stage (rts : list Task) (srs : list ResearchResult) :
  calls_between is_reflect_call 0 (3 * length rts)
    (LeadResearchAgent.reflection_stage rts srs).
Proof.
  unfold LeadResearchAgent.reflection_stage.
  destruct (LeadResearchAgent.nonempty rts);
    [|apply (calls_weaken _ 0 0); [lia..|apply calls_ret]].
  destruct srs as [|r srs];
    [apply (calls_weaken _ 0 0); [lia..|apply calls_ret]|].
  cbn [andb]. change (LeadResearchAgent.nonempty (r :: srs)) with true.
  cbv iota. intros s.
  rewrite (bind_ok _ _ _ _ _
             (reflection_coroutines_spec rts (r :: srs) s
                ltac:(discriminate))).
  revert s.
  apply (calls_weaken is_reflect_call 0
           (length (Py.enumerate 1 rts) * 3 + 0));
    [lia|rewrite enumerate_length; lia|].
  apply calls_bind.
  - match goal with |- calls_between _ _ _ (gather ?coros) =>
      assert (H : Forall (calls_between is_reflect_call 1 3) coros)
    end.
    { apply Forall_map, Forall_forall.
      intros it _. apply calls_reflection_wrapper. }
    apply calls_gather in H. revert H. rewrite length_map.
    apply calls_weaken; lia.
  - intros outs. apply calls_foldM_silent. intros acc ir.
    unfold LeadResearchAgent.record_reflection_outcome.
    destruct (snd ir);
      (apply calls_bind_silent; [apply calls_log|intros _]; apply calls_ret).
Qed.

Lemma calls_citation_loop (l : nat) (its : list (nat * Task)) :
  forall acc,
    calls_between is_citations_call 0 (3 * length its)
      (foldM (LeadResearchAgent.citation_task l) its acc).
Proof.
  induction its as [|it its IH]; intros acc; cbn [foldM].
  - apply (calls_weaken _ 0 0); [lia..|apply calls_ret].
  - apply (calls_weaken is_citations_call 0 (3 + 3 * length its));
      [lia|cbn [length]; lia|].
    apply calls_bind; [|exact IH].
    unfold LeadResearchAgent.citation_task.
    apply calls_bind_after;
      [apply never_raises_rate_limit|apply calls_rate_limit|intros _].
    apply calls_bind_after;
      [apply never_raises_log|apply calls_log|intros _].
    apply (calls_weaken is_citations_call 1 (3 + 0)); [lia..|].
    apply calls_bind.
    + apply calls_retry, calls_create_citations.
    + intros c. apply calls_bind_silent; [now apply calls_silent|intros el].
      apply calls_bind_silent; [apply calls_log|intros _]. apply calls_ret.
Qed.

Lemma calls_citation_stage cts srs :
  calls_between is_citations_call 0 (3 * length cts)
    (LeadResearchAgent.citation_stage cts srs).
Proof.
  unfold LeadResearchAgent.citation_stage.
  destruct (LeadResearchAgent.nonempty cts);
    [|apply (calls_weaken _ 0 0); [lia..|apply calls_ret]].
  apply calls_bind_after.
  - intros s. destruct (returns_collect_sources (fun _ => True) srs s Logic.I)
      as (a & s' & E & _). exists a. now rewrite E.
  - apply calls_collect_sources.
  - intros l. apply calls_bind_after;
      [intros s; eexists; reflexivity|now apply calls_silent|intros elems].
    destruct (LeadResearchAgent.nonempty elems);
      [|apply (calls_weaken _ 0 0); [lia..|apply calls_ret]].
    rewrite <- (enumerate_length cts 1). apply calls_citation_loop.
Qed.

(** X23. The calls of the language model made by the execution of a
    plan come stage by stage: first those of the search agent, then
    those of the reflection agent, then those of the citations agent.
    Every task makes at most three calls (the retries), and every
    search task makes at least one. *)
Theorem calls_follow_the_stages (plan : ResearchPlan)
    (reqs : ResearchRequirement) (s : State) :
  let count kind :=
    length (LeadResearchAgent.by_agent kind (tasks plan)) in
  exists hs hr hc,
    history (snd (LeadResearchAgent._execute_research_plan plan reqs s))
    = (history s ++ hs ++ hr ++ hc)%list
    /\ Forall is_search_call hs
    /\ Forall is_reflect_call hr
    /\ Forall is_citations_call hc
    /\ (count "Search" <= length hs <= 3 * count "Search")%nat
    /\ (length hr <= 3 * count "Reflection")%nat
    /\ (length hc <= 3 * count "Citations")%nat.
Proof.
  cbv zeta. unfold LeadResearchAgent._execute_research_plan. cbv zeta.
  unfold bind at 1.
  destruct (calls_search_stage reqs
              (LeadResearchAgent.by_agent "Search" (tasks plan)) s)
    as (hs & Hhs & HKs & Hls).
  destruct (LeadResearchAgent.search_stage _ _ s) as [[srs|e] s1];
    cbn [snd] in *.
  2:{ exists hs, [], []. rewrite !app_nil_r.
      repeat split; try assumption; try constructor; cbn; lia. }
  unfold bind at 1.
  destruct (calls_reflection_stage
              (LeadResearchAgent.by_agent "Reflection" (tasks plan)) srs s1)
    as (hr & Hhr & HKr & Hlr).
  destruct (LeadResearchAgent.reflection_stage _ _ s1) as [[rrs|e] s2];
    cbn [snd] in *.
  2:{ exists hs, hr, []. rewrite !app_nil_r, Hhr, Hhs, <- app_assoc.
      repeat split; try assumption; try constructor; cbn; lia. }
  unfold bind at 1.
  destruct (calls_citation_stage
              (LeadResearchAgent.by_agent "Citations" (tasks plan)) srs s2)
    as (hc & Hhc & HKc & Hlc).
  destruct (LeadResearchAgent.citation_stage _ _ s2) as [[cits|e] s3];
    unfold ret; cbn [snd] in *;
    exists hs, hr, hc; rewrite Hhc, Hhr, Hhs, <- !app_assoc;
    repeat split; try assumption; lia.
Qed.

(* ================================================================== *)
(** * Failures during the execution, and the report of a run *)
(* ================================================================== *)




Section Growth.

Variable k : nat.

Lemma grows_step {A} (m : M A) :
  (forall s, (next_addr s <= next_addr (snd (m s)))%nat) ->
  preserves (above k) m.
Proof. intros H s Hk. unfold above in *. specialize (H s). lia. Qed.

Lemma grows_keeps_store {A} (m : M A) :
  keeps_store m -> preserves (above k) m.
Proof.
  intros H. apply grows_step. intros s. destruct (H s) as (_ & _ & ->). lia.
Qed.

Lemma grows_runner_run (c : Call) : preserves (above k) (runner_run c).
Proof.
  apply grows_step. intros s. unfold runner_run. cbn [snd next_addr set_history].
  rewrite tick_next_addr. lia.
Qed.

Lemma grows_alloc_citation (c : Citation) :
  preserves (above k) (alloc_citation c).
Proof. apply grows_step. intros s. cbn. lia. Qed.

Lemma grows_alloc_list (l : list nat) : preserves (above k) (alloc_list l).
Proof. apply grows_step. intros s. cbn. lia. Qed.

Lemma grows_log ag ac d su de :
  preserves (above k) (LeadResearchAgent._log_execution ag ac d su de).
Proof. apply grows_keeps_store, keeps_store_log. Qed.

Lemma grows_rate_limit : preserves (above k) LeadResearchAgent._rate_limit.
Proof. apply grows_keeps_store, keeps_store_rate_limit. Qed.

Lemma grows_retry {A} (func : M A) (n : nat) (bd : Q) :
  preserves (above k) func ->
  preserves (above k) (LeadResearchAgent._retry_with_backoff func n bd).
Proof.
  intros Hf. unfold LeadResearchAgent._retry_with_backoff.
  generalize (Py.range 0 n). intros attempts.
  induction attempts as [|a rest IH]; cbn [LeadResearchAgent.retry_loop].
  - apply preserves_raise.
  - intros s H. specialize (Hf s H). destruct (func s) as [[x|e] s1];
      cbn [snd] in Hf; cbv beta iota; [assumption|].
    destruct (LeadResearchAgent.is_transient e); [|assumption].
    destruct (a <? n - 1)%nat; [|assumption].
    apply (preserves_bind (above k) (sleep _) (fun _ => _)
             (grows_keeps_store _ (keeps_store_sleep _)) (fun _ => IH)).
    exact Hf.
Qed.

Create HintDb grow.
#[local] Hint Resolve preserves_ret preserves_raise preserves_get
  preserves_read_list grows_runner_run grows_alloc_citation
  grows_alloc_list grows_log grows_rate_limit grows_retry : grow.

(** A sequence of binds lets the store grow when each of its steps
    does. *)
Ltac grow :=
  repeat first [ solve [auto with grow]
               | apply preserves_bind; [|intros ?] ].

Lemma grows_alloc_citations (cs : list Citation) :
  preserves (above k) (alloc_citations cs).
Proof. induction cs as [|c cs IH]; cbn [alloc_citations]; grow. Qed.

Lemma grows_search (q ctx : string) :
  preserves (above k) (SearchAgent.search q ctx).
Proof.
  unfold SearchAgent.search. grow. apply grows_alloc_citations.
Qed.

Lemma grows_reflect (c ctx : string) :
  preserves (above k) (ReflectionAgent.reflect c ctx).
Proof. unfold ReflectionAgent.reflect. grow. Qed.

Lemma grows_create_citations (l : nat) (style : string) :
  preserves (above k) (CitationsAgent.create_citations l style).
Proof.
  unfold CitationsAgent.create_citations. grow.
  apply preserves_for_each. intros x. apply grows_step. intros s. cbn. lia.
Qed.

#[local] Hint Resolve grows_search grows_reflect grows_create_citations
  : grow.





End Growth.
















